(** * k8s_auto_dev_platform: requirements normalisation, project generation,
      test execution and gated deployment.

    A shallow embedding of the Python package [k8s_auto_dev_platform]
    ([utils.py], [templates/], [template_manager.py], [test_runner.py],
    [deployer.py], [orchestrator.py]) together with the properties that its
    specification states about it.

    Conventions of the embedding.
    - A Python [str] is a [string]: a sequence of 8-bit characters.  The
      whitespace class and [lower], which the package uses only in
      [slugify] and on captured process output, are the ASCII ones: there a
      character above 127 is neither whitespace nor a letter, and [slugify]
      replaces it by a dash either way.  [upper] is computed on ASCII text
      only; what [str.upper] gives on a text with a character above 127 is
      the runtime's ([str_upper]), as Unicode case mapping can change the
      length of the text and turn such a character into ASCII letters.
    - A value read from a JSON/YAML document is a [value].
    - A Python [dict] is an association list in insertion order.
    - An exception is a value of [exn]; code that can raise returns a
      [result]; code that also touches the file system or spawns a process
      is a state transformer ([M]).
    - The file system is a finite map from resolved absolute paths to nodes;
      there are no symbolic links. *)

From stdpp Require Import base strings list gmap sorting.
From Stdlib Require Import ZArith Ascii DecimalString Lia.

Set Warnings "-register-all".
Local Open Scope Z_scope.

(** ** Characters and strings ([str] methods used by the package) *)

Definition code (c : ascii) : N := N_of_ascii c.

Definition is_digit (c : ascii) : bool := ((48 <=? code c) && (code c <=? 57))%N.
Definition is_lower_az (c : ascii) : bool := ((97 <=? code c) && (code c <=? 122))%N.
Definition is_upper_az (c : ascii) : bool := ((65 <=? code c) && (code c <=? 90))%N.

(** [str.isspace] on the first 128 code points: TAB, LF, VT, FF, CR, the
    four separators FS..US, and the space. *)
Definition is_space (c : ascii) : bool :=
  (((9 <=? code c) && (code c <=? 13)) || ((28 <=? code c) && (code c <=? 32)))%N.

Definition lower_char (c : ascii) : ascii :=
  if is_upper_az c then ascii_of_N (code c + 32) else c.
Definition upper_char (c : ascii) : ascii :=
  if is_lower_az c then ascii_of_N (code c - 32) else c.

Fixpoint str_map (f : ascii -> ascii) (s : string) : string :=
  match s with
  | EmptyString => EmptyString
  | String c r => String (f c) (str_map f r)
  end.

(** [s.lower()] *)
Definition lower (s : string) : string := str_map lower_char s.

(** [s.isascii()] *)
Fixpoint isascii (s : string) : bool :=
  match s with
  | EmptyString => true
  | String c r => (code c <? 128)%N && isascii r
  end.

Fixpoint lstrip_with (p : ascii -> bool) (s : string) : string :=
  match s with
  | EmptyString => EmptyString
  | String c r => if p c then lstrip_with p r else s
  end.

Fixpoint rstrip_with (p : ascii -> bool) (s : string) : string :=
  match s with
  | EmptyString => EmptyString
  | String c r =>
      match rstrip_with p r with
      | EmptyString => if p c then EmptyString else String c EmptyString
      | r' => String c r'
      end
  end.

(** [s.strip()] removes leading and trailing whitespace, [s.strip(chars)]
    leading and trailing characters of [chars]. *)
Definition strip_with (p : ascii -> bool) (s : string) : string :=
  rstrip_with p (lstrip_with p s).
Definition strip (s : string) : string := strip_with is_space s.

Definition is_dash (c : ascii) : bool := (code c =? 45)%N.

(** [s.replace(a, b)] for one-character [a] and [b]. *)
Definition replace_char (a b : ascii) (s : string) : string :=
  str_map (fun c => if (code c =? code a)%N then b else c) s.

(** [s.startswith(p)] *)
Fixpoint startswith (s p : string) : bool :=
  match p, s with
  | EmptyString, _ => true
  | String a p', String b s' => (code a =? code b)%N && startswith s' p'
  | String _ _, EmptyString => false
  end.

(** [s.endswith(p)]: some suffix of [s] is [p]. *)
Fixpoint endswith (s p : string) : bool :=
  String.eqb s p
  || match s with
     | EmptyString => false
     | String _ r => endswith r p
     end.

(** [sep.join(parts)] *)
Fixpoint join (sep : string) (parts : list string) : string :=
  match parts with
  | [] => EmptyString
  | [x] => x
  | x :: rest => x +:+ sep +:+ join sep rest
  end.

(** The line feed *)
Definition nl : string := String (ascii_of_N 10) EmptyString.

(** [str(n)] for an integer: its decimal numeral. *)
Definition string_of_Z (z : Z) : string := NilZero.string_of_int (Z.to_int z).

(** Insertion sort; [sorted(xs)] for a list of strings compares them
    character by character. *)
Section Sorting.
Context {A : Type} (le : A -> A -> bool).

Fixpoint insert_sorted (x : A) (l : list A) : list A :=
  match l with
  | [] => [x]
  | y :: r => if le x y then x :: l else y :: insert_sorted x r
  end.

Definition sort_by (l : list A) : list A := foldr insert_sorted [] l.
End Sorting.

Definition sorted_strings (l : list string) : list string := sort_by String.leb l.

(** ** [utils.py] *)

(** [_SLUGIFY_PATTERN = re.compile(r"[^a-z0-9]+")]: the characters of the
    class, and the substitution of every maximal run of them.  [in_run]
    tells that the previous character was part of the run being replaced. *)
Definition SLUGIFY_PATTERN_class (c : ascii) : bool :=
  negb (is_lower_az c || is_digit c).

Fixpoint SLUGIFY_PATTERN_sub (repl : string) (in_run : bool) (s : string) : string :=
  match s with
  | EmptyString => EmptyString
  | String c r =>
      if SLUGIFY_PATTERN_class c
      then (if in_run then SLUGIFY_PATTERN_sub repl true r
            else repl +:+ SLUGIFY_PATTERN_sub repl true r)
      else String c (SLUGIFY_PATTERN_sub repl false r)
  end.

(** [x or y] for strings *)
Definition str_or (x y : string) : string :=
  match x with EmptyString => y | _ => x end.

Definition slugify (value : string) : string :=
  let normalized := lower (strip value) in
  let normalized := SLUGIFY_PATTERN_sub "-" false normalized in
  let normalized := strip_with is_dash normalized in
  str_or normalized "project".

(** ** Values of a requirements document *)

(** A Python [float]: [FFinite m e] is the number [m * 2^e]. *)
Inductive pyfloat : Type :=
| FFinite (m e : Z)
| FInf (negative : bool)
| FNaN.

(** What [json.load] / [yaml.safe_load] produce.  A [VDict] lists its items
    in insertion order. *)
Inductive value : Type :=
| VNone
| VBool (b : bool)
| VInt (z : Z)
| VFloat (f : pyfloat)
| VStr (s : string)
| VList (items : list value)
| VDict (items : list (string * value)).

Abbreviation dict := (list (string * value)).

(** [key in d] *)
Fixpoint dict_mem (k : string) (d : dict) : bool :=
  match d with
  | [] => false
  | (k', _) :: r => String.eqb k k' || dict_mem k r
  end.

(** [d.get(key)], [None] standing for a missing key *)
Fixpoint dict_lookup (d : dict) (k : string) : option value :=
  match d with
  | [] => None
  | (k', v) :: r => if String.eqb k k' then Some v else dict_lookup r k
  end.

(** [d.get(key, default)] *)
Definition dict_get (d : dict) (k : string) (default : value) : value :=
  match dict_lookup d k with Some v => v | None => default end.

(** [d[key] = v]: an existing key keeps its position, a new one goes last. *)
Fixpoint dict_set (d : dict) (k : string) (v : value) : dict :=
  match d with
  | [] => [(k, v)]
  | (k', v') :: r =>
      if String.eqb k k' then (k', v) :: r else (k', v') :: dict_set r k v
  end.

(** [d.update(other)] *)
Definition dict_update (d other : dict) : dict :=
  foldl (fun acc kv => dict_set acc kv.1 kv.2) d other.

(** A dict display [{k1: v1, ...}] *)
Definition dict_of (items : list (string * value)) : dict := dict_update [] items.

(** Truth value of an object, as tested by [if], [not] and [or]. *)
Definition truthy (v : value) : bool :=
  match v with
  | VNone => false
  | VBool b => b
  | VInt z => negb (z =? 0)
  | VFloat (FFinite m _) => negb (m =? 0)
  | VFloat _ => true
  | VStr s => negb (String.eqb s "")
  | VList l => match l with [] => false | _ => true end
  | VDict d => match d with [] => false | _ => true end
  end.

(** [x or y] *)
Definition py_or (x y : value) : value := if truthy x then x else y.

(** ** Exceptions and results *)

Inductive exn : Type :=
| ValueError (msg : string)
| TypeError (msg : string)
| KeyError (msg : string)
| OverflowError (msg : string)
| FileExistsError (msg : string)
| FileNotFoundError (msg : string)
| NotADirectoryError (msg : string)
| IsADirectoryError (msg : string).

Inductive result (A : Type) : Type :=
| Ok (a : A)
| Raise (e : exn).
Arguments Ok {A} a.
Arguments Raise {A} e.

#[export] Instance result_ret : MRet result := fun _ a => Ok a.
#[export] Instance result_bind : MBind result := fun _ _ k r =>
  match r with Ok a => k a | Raise e => Raise e end.

(** [for x in xs: ...] where the body can raise: results in order. *)
Fixpoint rmap {A B} (f : A -> result B) (l : list A) : result (list B) :=
  match l with
  | [] => Ok []
  | x :: r =>
      match f x with
      | Raise e => Raise e
      | Ok y => match rmap f r with Raise e => Raise e | Ok ys => Ok (y :: ys) end
      end
  end.

(** ** The builtins of the Python runtime

    The package calls [str], [int], [list], [repr] (through f-strings) and
    [json.dumps] on values of a requirements document.  What these do on a
    string, an integer, a boolean or [None] is fixed below; the textual form
    of a float and of a container, the parsing of an integer literal and the
    JSON layout are the runtime's and stay parameters. *)
Class Builtins : Type := {
  (** [repr(v)] *)
  py_repr : value -> string;
  (** [int(s)] for a string: [None] when [s] is not an integer literal *)
  int_of_string : string -> option Z;
  (** [json.dumps(v, indent=indent, ensure_ascii=False)] *)
  json_dumps : option nat -> value -> string;
  (** [s.upper()] for a text [s] that has a character above 127 *)
  str_upper : string -> string;
}.

(** The one fact about [repr] that the package relies on: the textual form
    of an object is never the empty string. *)
Class BuiltinsOk (rt : Builtins) : Prop := {
  py_repr_nonempty : forall v, py_repr v <> EmptyString;
}.

Section Runtime.
Context {rt : Builtins}.

(** [s.upper()]: on ASCII text the letters [a-z] become [A-Z] and nothing
    else changes; on any other text the result is the runtime's. *)
Definition upper (s : string) : string :=
  if isascii s then str_map upper_char s else str_upper s.

(** [str(v)], also the rendering of [{v}] in an f-string *)
Definition py_str (v : value) : string :=
  match v with
  | VStr s => s
  | VNone => "None"
  | VBool true => "True"
  | VBool false => "False"
  | VInt z => string_of_Z z
  | VFloat _ | VList _ | VDict _ => py_repr v
  end.

(** [int(v)] *)
Definition py_int (v : value) : result Z :=
  match v with
  | VInt z => Ok z
  | VBool b => Ok (if b then 1 else 0)
  | VFloat (FFinite m e) =>
      Ok (if 0 <=? e then m * 2 ^ e else Z.quot m (2 ^ (- e)))
  | VFloat (FInf _) => Raise (OverflowError "cannot convert float infinity to integer")
  | VFloat FNaN => Raise (ValueError "cannot convert float NaN to integer")
  | VStr s =>
      match int_of_string s with
      | Some z => Ok z
      | None =>
          Raise (ValueError ("invalid literal for int() with base 10: " +:+ py_repr v))
      end
  | VNone | VList _ | VDict _ =>
      Raise (TypeError "int() argument must be a string, a bytes-like object or a real number")
  end.

Fixpoint chars_of (s : string) : list value :=
  match s with
  | EmptyString => []
  | String c r => VStr (String c EmptyString) :: chars_of r
  end.

(** [list(v)]: the items of a list, the characters of a string, the keys
    of a dict; anything else is not iterable. *)
Definition py_list (v : value) : result (list value) :=
  match v with
  | VList l => Ok l
  | VStr s => Ok (chars_of s)
  | VDict d => Ok (map (fun kv => VStr kv.1) d)
  | VNone | VBool _ | VInt _ | VFloat _ => Raise (TypeError "object is not iterable")
  end.

(** [v[key]] for a string key *)
Definition subscript (v : value) (k : string) : result value :=
  match v with
  | VDict d =>
      match dict_lookup d k with
      | Some x => Ok x
      | None => Raise (KeyError (py_repr (VStr k)))
      end
  | _ => Raise (TypeError "object is not subscriptable with a string key")
  end.
End Runtime.

(** ** The file system and the state monad *)

(** A resolved absolute path: its components below the root. *)
Abbreviation path := (list string).

Inductive node : Type :=
| Dir
| File (content : string).

Abbreviation fs := (gmap path node).

(** [str(p)] *)
Definition path_str (p : path) : string := "/" +:+ join "/" p.

(** [p / name] for a single component [name] *)
Definition path_child (p : path) (name : string) : path := p ++ [name].

(** [p.parent] *)
Definition path_parent (p : path) : path := removelast p.

Fixpoint split_on (sep : ascii) (s : string) : list string :=
  match s with
  | EmptyString => [EmptyString]
  | String c r =>
      if (code c =? code sep)%N then EmptyString :: split_on sep r
      else match split_on sep r with
           | [] => [String c EmptyString]
           | h :: t => String c h :: t
           end
  end.

Definition resolve_step (p : path) (part : string) : path :=
  if String.eqb part "" || String.eqb part "." then p
  else if String.eqb part ".." then removelast p
  else p ++ [part].

(** [(p / rel).resolve()]: an absolute [rel] replaces [p]; empty and [.]
    components vanish and [..] steps to the parent. *)
Definition path_join_resolve (p : path) (rel : string) : path :=
  foldl resolve_step (if startswith rel "/" then [] else p) (split_on "/" rel).

(** The node at a path; the root is a directory that is always there. *)
Definition node_at (f : fs) (p : path) : option node :=
  match p with
  | [] => Some Dir
  | _ => f !! p
  end.

(** [p.exists()] *)
Definition path_exists (f : fs) (p : path) : bool :=
  match node_at f p with Some _ => true | None => false end.

Definition is_dir (f : fs) (p : path) : bool :=
  match node_at f p with Some Dir => true | _ => false end.

Definition is_file (f : fs) (p : path) : bool :=
  match node_at f p with Some (File _) => true | _ => false end.

(** The non-empty prefixes of a path, shortest first, the path itself last. *)
Fixpoint prefixes (p : path) : list path :=
  match p with
  | [] => []
  | c :: r => [c] :: map (cons c) (prefixes r)
  end.

Definition make_dirs (f : fs) (p : path) : fs :=
  foldl (fun acc q => match acc !! q with Some _ => acc | None => <[q := Dir]> acc end)
        f (prefixes p).

(** A computation that can raise and that reads and writes a state. *)
Definition M (S A : Type) : Type := S -> result A * S.

#[export] Instance M_ret {S} : MRet (M S) := fun _ a s => (Ok a, s).
#[export] Instance M_bind {S} : MBind (M S) := fun _ _ k m s =>
  match m s with
  | (Ok a, s') => k a s'
  | (Raise e, s') => (Raise e, s')
  end.

Definition raise {S A} (e : exn) : M S A := fun s => (Raise e, s).
Definition lift {S A} (r : result A) : M S A := fun s => (r, s).
Definition get_state {S} : M S S := fun s => (Ok s, s).

(** [p.mkdir(parents=True, exist_ok=True)]: fails when a component of [p]
    is a regular file, and then creates nothing. *)
Definition mkdir_parents (p : path) : M fs unit := fun f =>
  if existsb (is_file f) (prefixes (path_parent p))
  then (Raise (NotADirectoryError (path_str p)), f)
  else if is_file f p then (Raise (FileExistsError (path_str p)), f)
  else (Ok tt, make_dirs f p).

(** [p.write_text(content)] *)
Definition path_write_text (p : path) (content : string) : M fs unit := fun f =>
  if existsb (is_file f) (prefixes (path_parent p))
  then (Raise (NotADirectoryError (path_str p)), f)
  else if negb (is_dir f (path_parent p)) then (Raise (FileNotFoundError (path_str p)), f)
  else if is_dir f p then (Raise (IsADirectoryError (path_str p)), f)
  else (Ok tt, <[p := File content]> f).

(** [utils.write_text] *)
Definition write_text (p : path) (content : string) : M fs unit :=
  mkdir_parents (path_parent p) ;; path_write_text p content.

(** [utils.write_json] *)
Definition write_json {rt : Builtins} (p : path) (payload : value) : M fs unit :=
  write_text p (json_dumps (Some 2%nat) payload +:+ nl).

Definition child_name (d p : path) : option string :=
  match last p with
  | Some n => if decide (p = d ++ [n]) then Some n else None
  | None => None
  end.

(** The names of the entries of directory [d] *)
Definition listdir (f : fs) (d : path) : list string :=
  omap (fun kv => child_name d kv.1) (map_to_list f).

(** [sorted(d.glob("*.yaml"))] *)
Definition sorted_glob_yaml (f : fs) (d : path) : list path :=
  map (path_child d)
      (sorted_strings (filter (fun n => Is_true (endswith n ".yaml")) (listdir f d))).

(** ** [templates/base.py] *)

Module BaseTemplate.
(** The interface of a template class: its class attributes and its two
    operations. *)
Record t : Type := {
  name : string;
  description : string;
  version : string;
  validate_requirements : dict -> result dict;
  generate_project : dict -> path -> M fs path;
}.

(** The inherited [validate_requirements] *)
Definition default_validate_requirements (requirements : dict) : result dict :=
  Ok requirements.

Definition _ensure_fields (self_name : string) (requirements : dict)
    (fields : list string) : result unit :=
  let missing := filter (fun field => Is_true (negb (dict_mem field requirements))) fields in
  match missing with
  | [] => Ok tt
  | _ =>
      let readable := join ", " missing in
      Raise (ValueError ("Missing required fields for template '" +:+ self_name
                         +:+ "': " +:+ readable))
  end.
End BaseTemplate.

(** ** [templates/simple_service.py] *)

(** The text of the generated files.  Which keys of the specification a
    renderer reads, in which order, and what it does when one is missing is
    modelled below; how the values are laid out in the file is not, and is
    taken as a parameter. *)
Class Layout : Type := {
  (** [app/__init__.py] from description, service name and version *)
  app_init_text : string -> string -> string -> string;
  (** [app/routes.py] from the service name and the JSON text of each route *)
  routes_module_text : string -> list string -> string;
  (** [app/server.py] from the service name and the port *)
  server_module_text : string -> string -> string;
  (** [tests/test_routes.py] *)
  tests_module_text : string;
  (** [README.md] from service name, description, one (method, path, JSON
      response) per route and the container image *)
  readme_text : string -> string -> list (string * string * string) -> string -> string;
  (** [Dockerfile] *)
  dockerfile_text : string;
  (** [k8s/deployment.yaml] from slug, container image and port *)
  deployment_manifest_text : string -> string -> string -> string;
  (** [k8s/service.yaml] from slug and port *)
  service_manifest_text : string -> string -> string;
}.

Module SimplePythonServiceTemplate.
Section Template.
Context {rt : Builtins} {layout : Layout}.

Definition _ALLOWED_METHODS : list string := ["GET"; "POST"; "PUT"; "DELETE"].

Definition name : string := "simple-python-service".
Definition description : string :=
  "Lightweight Python service using the standard library HTTP server.".
Definition version : string := "1.0.0".

(** [f"route_{index + 1}"] *)
Definition route_default_name (index : nat) : string :=
  "route_" +:+ string_of_Z (Z.of_nat index + 1).

(** The route synthesised when none is declared *)
Definition default_route (service_name : string) : value :=
  VDict (dict_of
    [("name", VStr "root");
     ("identifier", VStr "root");
     ("method", VStr "GET");
     ("path", VStr "/");
     ("status", VInt 200);
     ("response", VDict (dict_of [("message", VStr ("Hello from " +:+ service_name +:+ "!"))]))]).

(** The name and the identifier computed for the route of a given index *)
Definition route_name (index : nat) (route : dict) : string :=
  py_str (py_or (dict_get route "name" VNone) (VStr (route_default_name index))).

Definition route_identifier (index : nat) (name : string) : string :=
  str_or (replace_char "-" "_" (slugify name)) (route_default_name index).

Definition route_method (route : dict) : string :=
  upper (py_str (dict_get route "method" (VStr "GET"))).

(** The body of the loop over [enumerate(routes)] *)
Definition normalize_route (index : nat) (route : value) : result value :=
  match route with
  | VDict route =>
      let name := route_name index route in
      let identifier := route_identifier index name in
      let method := route_method route in
      if negb (bool_decide (method ∈ _ALLOWED_METHODS)) then
        let allowed := join ", " (sorted_strings _ALLOWED_METHODS) in
        Raise (ValueError ("Unsupported HTTP method '" +:+ method +:+ "'. Allowed: " +:+ allowed))
      else
        let path := dict_get route "path" VNone in
        if negb (truthy path) || negb (startswith (py_str path) "/") then
          Raise (ValueError "Each route must define a path starting with '/'.")
        else
          status ← py_int (dict_get route "status" (VInt 200));
          let response :=
            py_or (dict_get route "response" VNone)
                  (VDict (dict_of [("message", VStr ("Response from " +:+ name))])) in
          Ok (VDict (dict_of
            [("name", VStr name);
             ("identifier", VStr identifier);
             ("method", VStr method);
             ("path", VStr (py_str path));
             ("status", VInt status);
             ("response", response)]))
  | _ => Raise (ValueError "Each route must be described by a mapping/dictionary.")
  end.

(** The loop itself: routes are normalised in input order and the first
    failure ends it. *)
Fixpoint normalize_routes (index : nat) (routes : list value) : result (list value) :=
  match routes with
  | [] => Ok []
  | route :: rest =>
      r ← normalize_route index route;
      rs ← normalize_routes (S index) rest;
      Ok (r :: rs)
  end.

Definition validate_requirements (requirements : dict) : result dict :=
  BaseTemplate._ensure_fields name requirements ["service_name"; "description"] ;;
  let service_name := py_str (dict_get requirements "service_name" VNone) in
  let slug := slugify service_name in
  let version := py_str (dict_get requirements "version" (VStr "0.1.0")) in
  let container_image :=
    py_or (dict_get requirements "container_image" VNone)
          (VStr ("registry.example.com/" +:+ slug +:+ ":" +:+ version)) in
  routes ← py_list (py_or (dict_get requirements "routes" VNone) (VList []));
  normalized_routes ←
    match routes with
    | [] => Ok [default_route service_name]
    | _ => normalize_routes 0 routes
    end;
  port ← py_int (dict_get requirements "port" (VInt 8000));
  Ok (dict_update requirements
        [("service_name", VStr service_name);
         ("description", VStr (py_str (dict_get requirements "description" VNone)));
         ("version", VStr version);
         ("container_image", VStr (py_str container_image));
         ("slug", VStr slug);
         ("routes", VList normalized_routes);
         ("port", VInt port)]).

(** [spec[key]] *)
Definition getitem (spec : dict) (k : string) : result value :=
  subscript (VDict spec) k.

Definition _export_metadata (spec : dict) : result value :=
  service_name ← getitem spec "service_name";
  description ← getitem spec "description";
  version ← getitem spec "version";
  container_image ← getitem spec "container_image";
  routes ← getitem spec "routes";
  routes ← py_list routes;
  summaries ← rmap (fun route =>
      n ← subscript route "name";
      m ← subscript route "method";
      p ← subscript route "path";
      s ← subscript route "status";
      Ok (VDict (dict_of [("name", n); ("method", m); ("path", p); ("status", s)])))
    routes;
  Ok (VDict (dict_of
    [("template", VStr name);
     ("service_name", service_name);
     ("description", description);
     ("version", version);
     ("container_image", container_image);
     ("routes", VList summaries)])).

Definition _render_routes_module (spec : dict) : result string :=
  routes ← getitem spec "routes";
  routes ← py_list routes;
  route_blocks ← rmap (fun route =>
      n ← subscript route "name";
      i ← subscript route "identifier";
      m ← subscript route "method";
      p ← subscript route "path";
      s ← subscript route "status";
      r ← subscript route "response";
      let payload := VDict (dict_of
        [("name", n); ("identifier", i); ("method", m);
         ("path", p); ("status", s); ("response", r)]) in
      Ok (json_dumps (Some 4%nat) payload))
    routes;
  service_name ← getitem spec "service_name";
  Ok (routes_module_text (py_str service_name) route_blocks).

Definition _render_server_module (spec : dict) : result string :=
  service_name ← getitem spec "service_name";
  port ← getitem spec "port";
  Ok (server_module_text (py_str service_name) (py_str port)).

Definition _render_tests (spec : dict) : result string := Ok tests_module_text.

Definition _write_app_package (app_dir : path) (spec : dict) : M fs unit :=
  text ← lift (description ← getitem spec "description";
               service_name ← getitem spec "service_name";
               version ← getitem spec "version";
               Ok (app_init_text (py_str description) (py_str service_name) (py_str version)));
  write_text (path_child app_dir "__init__.py") text ;;
  text ← lift (_render_routes_module spec);
  write_text (path_child app_dir "routes.py") text ;;
  text ← lift (_render_server_module spec);
  write_text (path_child app_dir "server.py") text.

Definition _write_tests (tests_dir : path) (spec : dict) : M fs unit :=
  write_text (path_child tests_dir "__init__.py") "" ;;
  text ← lift (_render_tests spec);
  write_text (path_child tests_dir "test_routes.py") text.

Definition _write_project_readme (project_dir : path) (spec : dict) : M fs unit :=
  text ← lift (routes ← getitem spec "routes";
               routes ← py_list routes;
               routes_section ← rmap (fun route =>
                   m ← subscript route "method";
                   p ← subscript route "path";
                   r ← subscript route "response";
                   Ok (py_str m, py_str p, json_dumps None r))
                 routes;
               service_name ← getitem spec "service_name";
               description ← getitem spec "description";
               container_image ← getitem spec "container_image";
               Ok (readme_text (py_str service_name) (py_str description)
                               routes_section (py_str container_image)));
  write_text (path_child project_dir "README.md") text.

Definition _write_dockerfile (project_dir : path) : M fs unit :=
  write_text (path_child project_dir "Dockerfile") dockerfile_text.

Definition _write_k8s_manifests (k8s_dir : path) (spec : dict) : M fs unit :=
  texts ← lift (slug ← getitem spec "slug";
                container_image ← getitem spec "container_image";
                port ← getitem spec "port";
                Ok (deployment_manifest_text (py_str slug) (py_str container_image) (py_str port),
                    service_manifest_text (py_str slug) (py_str port)));
  write_text (path_child k8s_dir "deployment.yaml") texts.1 ;;
  write_text (path_child k8s_dir "service.yaml") texts.2.

(** The directory a project is generated into:
    [(destination / f"{slug}-service").resolve()] *)
Definition project_dir_of (destination : path) (slug : value) : path :=
  path_join_resolve destination (py_str slug +:+ "-service").

Definition generate_project (requirements : dict) (destination : path) : M fs path :=
  requirements ←
    (if dict_mem "slug" requirements then mret requirements
     else lift (validate_requirements requirements));
  slug ← lift (getitem requirements "slug");
  let project_dir := project_dir_of destination slug in
  f ← get_state;
  if path_exists f project_dir then
    raise (FileExistsError ("Target project directory already exists: "
                            +:+ path_str project_dir))
  else
    let app_dir := path_child project_dir "app" in
    let tests_dir := path_child project_dir "tests" in
    let k8s_dir := path_child project_dir "k8s" in
    mkdir_parents app_dir ;;
    mkdir_parents tests_dir ;;
    mkdir_parents k8s_dir ;;
    _write_app_package app_dir requirements ;;
    _write_tests tests_dir requirements ;;
    _write_project_readme project_dir requirements ;;
    _write_dockerfile project_dir ;;
    _write_k8s_manifests k8s_dir requirements ;;
    metadata ← lift (_export_metadata requirements);
    write_json (path_child project_dir "project-metadata.json") metadata ;;
    mret project_dir.

Definition cls : BaseTemplate.t :=
  {| BaseTemplate.name := name;
     BaseTemplate.description := description;
     BaseTemplate.version := version;
     BaseTemplate.validate_requirements := validate_requirements;
     BaseTemplate.generate_project := generate_project |}.
End Template.
End SimplePythonServiceTemplate.

(** ** [templates/__init__.py] and [template_manager.py] *)

(** A registry maps a template identifier to a template class. *)
Definition registry : Type := list (string * BaseTemplate.t).

Definition TEMPLATE_REGISTRY {rt : Builtins} {layout : Layout} : registry :=
  [(SimplePythonServiceTemplate.name, SimplePythonServiceTemplate.cls)].

Record TemplateInfo : Type := {
  info_name : string;
  info_description : string;
  info_version : option string;
}.

Module TemplateManager.
Section Manager.
Context {rt : Builtins} {layout : Layout}.

Record t : Type := { _registry : registry }.

(** [registry or dict(TEMPLATE_REGISTRY)] *)
Definition init (registry : option registry) : t :=
  {| _registry :=
       match registry with
       | Some ((_ :: _) as r) => r
       | Some [] | None => TEMPLATE_REGISTRY
       end |}.

Definition list_templates (self : t) : list TemplateInfo :=
  map (fun entry =>
         let template := entry.2 in
         {| info_name := BaseTemplate.name template;
            info_description := BaseTemplate.description template;
            info_version := Some (BaseTemplate.version template) |})
      (_registry self).

Fixpoint registry_lookup (r : registry) (name : string) : option BaseTemplate.t :=
  match r with
  | [] => None
  | (k, c) :: rest => if String.eqb name k then Some c else registry_lookup rest name
  end.

Definition get_template (self : t) (name : string) : result BaseTemplate.t :=
  match registry_lookup (_registry self) name with
  | Some template_cls => Ok template_cls
  | None =>
      Raise (KeyError ("Unknown template '" +:+ name +:+ "'. Available: "
                       +:+ py_repr (VList (map VStr (sorted_strings (map fst (_registry self)))))))
  end.
End Manager.
End TemplateManager.

(** ** External processes *)

(** [subprocess.CompletedProcess] with captured text output *)
Record CompletedProcess : Type := {
  returncode : Z;
  stdout : string;
  stderr : string;
}.

(** One call of [subprocess.run]: the command, the working directory and
    what came of it. *)
Record proc_event : Type := {
  ev_command : list string;
  ev_cwd : option path;
  ev_outcome : result CompletedProcess;
}.

(** What the pipeline acts on: the file system and the processes spawned so
    far, oldest first. *)
Record world : Type := {
  files : fs;
  proc_log : list proc_event;
}.

(** The host: what a spawned process answers and does to the file system,
    given everything that happened before.  A [Raise] is a process that
    could not be started. *)
Class Host : Type := {
  spawn : world -> list string -> option path -> result CompletedProcess * fs;
}.

(** [subprocess.run(command, cwd=cwd, capture_output=True, text=True,
    check=False)] *)
Definition subprocess_run {host : Host} (command : list string) (cwd : option path)
    : M world CompletedProcess := fun w =>
  let '(outcome, f) := spawn w command cwd in
  (outcome,
   {| files := f;
      proc_log := proc_log w ++ [{| ev_command := command; ev_cwd := cwd;
                                    ev_outcome := outcome |}] |}).

(** Run a file-system computation on the files of the world. *)
Definition on_files {A} (m : M fs A) : M world A := fun w =>
  let '(r, f) := m (files w) in (r, {| files := f; proc_log := proc_log w |}).

(** ** [test_runner.py] *)

Record TestResult : Type := {
  passed : bool;
  command : list string;
  output : string;
  return_code : Z;
}.

Module TestRunner.
Section Runner.
Context {host : Host}.

Record t : Type := { _python : string }.

(** [python_executable or sys.executable] *)
Definition init (python_executable : option string) (sys_executable : string) : t :=
  {| _python := match python_executable with
                | Some p => str_or p sys_executable
                | None => sys_executable
                end |}.

Definition run (self : t) (project_path : path) : M world TestResult :=
  let command := [_python self; "-m"; "unittest"; "discover"] in
  completed ← subprocess_run command (Some project_path);
  let output := str_or (stdout completed) "" +:+ str_or (stderr completed) "" in
  mret {| passed := returncode completed =? 0;
          command := command;
          output := output;
          return_code := returncode completed |}.
End Runner.
End TestRunner.

(** ** [deployer.py] *)

Record DeploymentResult : Type := {
  applied : bool;
  manifest_files : list string;
  message : string;
  command_sequence : list (list string);
}.

Module KubernetesDeployer.
Section Deployer.
Context {host : Host}.

Record t : Type := { _kubectl : option string }.

(** [kubectl_path or shutil.which("kubectl")] *)
Definition init (kubectl_path which_kubectl : option string) : t :=
  {| _kubectl := match kubectl_path with
                 | Some (String _ _ as p) => Some p
                 | _ => which_kubectl
                 end |}.

(** The [kubectl apply] command for one manifest *)
Definition apply_command (kubectl : string) (namespace : option string)
    (manifest : path) : list string :=
  [kubectl; "apply"; "-f"; path_str manifest]
  ++ match namespace with
     | Some (String _ _ as ns) => ["-n"; ns]
     | _ => []
     end.

(** [(completed.stderr or completed.stdout or "Unknown kubectl error").strip()] *)
Definition failure_text (completed : CompletedProcess) : string :=
  strip (str_or (stderr completed) (str_or (stdout completed) "Unknown kubectl error")).

(** The loop over the manifests; [executed_commands] holds the commands
    run so far and [manifests] those still to apply. *)
Fixpoint apply_manifests (kubectl : string) (namespace : option string)
    (manifest_paths : list string) (manifests : list path)
    (executed_commands : list (list string)) : M world DeploymentResult :=
  match manifests with
  | [] =>
      mret {| applied := true;
              manifest_files := manifest_paths;
              message := "Applied Kubernetes manifests successfully.";
              command_sequence := executed_commands |}
  | manifest :: rest =>
      let command := apply_command kubectl namespace manifest in
      completed ← subprocess_run command None;
      let executed_commands := executed_commands ++ [command] in
      if negb (returncode completed =? 0) then
        mret {| applied := false;
                manifest_files := manifest_paths;
                message := "kubectl failed for " +:+ path_str manifest +:+ ": "
                           +:+ failure_text completed;
                command_sequence := executed_commands |}
      else apply_manifests kubectl namespace manifest_paths rest executed_commands
  end.

Definition deploy (self : t) (project_path : path) (namespace : option string)
    : M world DeploymentResult :=
  let manifest_dir := path_child project_path "k8s" in
  w ← get_state;
  let manifest_files := sorted_glob_yaml (files w) manifest_dir in
  let manifest_paths := map path_str manifest_files in
  match manifest_files with
  | [] =>
      mret {| applied := false;
              manifest_files := manifest_paths;
              message := "No Kubernetes manifests found.";
              command_sequence := [] |}
  | _ =>
      match _kubectl self with
      | None | Some EmptyString =>
          let plan_path := path_child manifest_dir "deployment-plan.txt" in
          let summary_lines :=
            ["kubectl command not found; generated dry-run deployment plan.";
             "Apply the following manifests manually:"] ++ manifest_paths in
          on_files (path_write_text plan_path (join nl summary_lines +:+ nl)) ;;
          mret {| applied := false;
                  manifest_files := manifest_paths;
                  message := "kubectl not available. Plan written to "
                             +:+ path_str plan_path +:+ ".";
                  command_sequence := [] |}
      | Some kubectl =>
          apply_manifests kubectl namespace manifest_paths manifest_files []
      end
  end.
End Deployer.
End KubernetesDeployer.

(** ** [orchestrator.py] *)

Record PipelineResult : Type := {
  project_path : path;
  template_name : string;
  requirements : dict;
  test_result : option TestResult;
  deployment_result : option DeploymentResult;
}.

Module K8sAutoDevPlatform.
Section Platform.
Context {rt : Builtins} {layout : Layout} {host : Host}.

Record t : Type := {
  template_manager : TemplateManager.t;
  test_runner : TestRunner.t;
  deployer : KubernetesDeployer.t;
}.

(** The collaborators that are not given are built with their defaults;
    [sys_executable] and [which_kubectl] are what the interpreter and
    [shutil.which] report on the host. *)
Definition init (template_manager : option TemplateManager.t)
    (tester : option TestRunner.t) (deployer : option KubernetesDeployer.t)
    (sys_executable : string) (which_kubectl : option string) : t :=
  {| template_manager := default (TemplateManager.init None) template_manager;
     test_runner := default (TestRunner.init None sys_executable) tester;
     deployer := default (KubernetesDeployer.init None which_kubectl) deployer |}.

(** [output_dir] is the resolved output path. *)
Definition run_pipeline (self : t) (requirements : dict) (template_name : string)
    (output_dir : path) (run_tests deploy : bool) (namespace : option string)
    : M world PipelineResult :=
  let output_path := output_dir in
  on_files (mkdir_parents output_path) ;;
  template ← lift (TemplateManager.get_template (template_manager self) template_name);
  validated_requirements ← lift (BaseTemplate.validate_requirements template requirements);
  project_path ← on_files (BaseTemplate.generate_project template validated_requirements
                                                         output_path);
  test_result ←
    (if run_tests then r ← TestRunner.run (test_runner self) project_path; mret (Some r)
     else mret None);
  let should_deploy :=
    deploy && match test_result with
              | None => true
              | Some r => passed r
              end in
  deployment_result ←
    (if should_deploy
     then r ← KubernetesDeployer.deploy (deployer self) project_path namespace; mret (Some r)
     else mret None);
  mret {| project_path := project_path;
          template_name := BaseTemplate.name template;
          requirements := validated_requirements;
          test_result := test_result;
          deployment_result := deployment_result |}.
End Platform.
End K8sAutoDevPlatform.

(** ** A sample runtime, layout and host

    Concrete parameters on which the model runs.  [sample_repr] prints
    containers without escaping their strings and floats as a mantissa and an
    exponent; the examples below use documents made of strings and integers,
    on which nothing depends on it.  Its [str_upper] leaves the characters
    above 127 alone; the methods of the examples are ASCII text. *)

Fixpoint sample_repr (v : value) : string :=
  match v with
  | VNone => "None"
  | VBool true => "True"
  | VBool false => "False"
  | VInt z => string_of_Z z
  | VFloat (FFinite m e) => string_of_Z m +:+ "p" +:+ string_of_Z e
  | VFloat (FInf true) => "-inf"
  | VFloat (FInf false) => "inf"
  | VFloat FNaN => "nan"
  | VStr s => "'" +:+ s +:+ "'"
  | VList l => "[" +:+ join ", " (map sample_repr l) +:+ "]"
  | VDict d =>
      "{" +:+ join ", " (map (fun kv => "'" +:+ kv.1 +:+ "': " +:+ sample_repr kv.2) d) +:+ "}"
  end.

Fixpoint digits_value (acc : Z) (s : string) : option Z :=
  match s with
  | EmptyString => Some acc
  | String c r =>
      if is_digit c then digits_value (10 * acc + (Z.of_N (code c) - 48)) r else None
  end.

Definition sample_int_of_string (s : string) : option Z :=
  match strip s with
  | EmptyString => None
  | String c r =>
      if (code c =? 45)%N
      then match r with EmptyString => None | _ => Z.opp <$> digits_value 0 r end
      else digits_value 0 (String c r)
  end.

Definition sample_builtins : Builtins :=
  {| py_repr := sample_repr;
     int_of_string := sample_int_of_string;
     json_dumps := fun _ v => sample_repr v;
     str_upper := str_map upper_char |}.

Definition sample_layout : Layout :=
  {| app_init_text := fun d n v => join nl [d; n; v];
     routes_module_text := fun n blocks => join nl (n :: blocks);
     server_module_text := fun n p => join nl [n; p];
     tests_module_text := "import unittest";
     readme_text := fun n d routes image =>
       join nl ([n; d] ++ map (fun r => r.1.1 +:+ " " +:+ r.1.2 +:+ " " +:+ r.2) routes
                ++ [image]);
     dockerfile_text := "FROM python:3.11-slim";
     deployment_manifest_text := fun slug image port => join nl [slug; image; port];
     service_manifest_text := fun slug port => join nl [slug; port] |}.

(** A host on which a process exits with the code [exit_of] gives its
    command, prints [out] and [err], and leaves the files alone. *)
Definition scripted_host (exit_of : list string -> Z) (out err : string) : Host :=
  {| spawn := fun w command _ =>
       (Ok {| returncode := exit_of command; stdout := out; stderr := err |}, files w) |}.

(** * Specification vocabulary

    The predicates in which the properties are stated, and the sample data
    on which they are instantiated. *)

(** ** Strings *)

Fixpoint all_chars (p : ascii -> bool) (s : string) : bool :=
  match s with
  | EmptyString => true
  | String c r => p c && all_chars p r
  end.

(** The characters a slug is made of: [a-z0-9-] *)
Definition slug_char (c : ascii) : bool := is_lower_az c || is_digit c || is_dash c.

(** The characters that are neither letters nor digits *)
Definition symbol_char (c : ascii) : bool :=
  negb (is_lower_az c || is_upper_az c || is_digit c).

(** The first character, if any, is not in [p]. *)
Definition head_ok (p : ascii -> bool) (s : string) : bool :=
  match s with
  | EmptyString => true
  | String c _ => negb (p c)
  end.

(** The last character, if any, is not in [p]. *)
Fixpoint last_ok (p : ascii -> bool) (s : string) : bool :=
  match s with
  | EmptyString => true
  | String c EmptyString => negb (p c)
  | String _ r => last_ok p r
  end.

(** No two dashes in a row. *)
Fixpoint no_double_dash (s : string) : bool :=
  match s with
  | EmptyString => true
  | String a r => negb (is_dash a && negb (head_ok is_dash r)) && no_double_dash r
  end.

(** What [slugify] returns: a non-empty word over [a-z0-9-] in which dashes
    only separate. *)
Definition is_slug (s : string) : bool :=
  negb (String.eqb s "") && all_chars slug_char s && no_double_dash s
  && head_ok is_dash s && last_ok is_dash s.

(** The order in which [sorted] puts strings *)
Definition string_le (a b : string) : Prop := String.leb a b = true.

(** ** Normalised documents *)

(** A route as [normalize_route] builds it. *)
Definition route_record (n i m p : string) (st : Z) (resp : value) : value :=
  VDict [("name", VStr n); ("identifier", VStr i); ("method", VStr m);
         ("path", VStr p); ("status", VInt st); ("response", resp)].

Definition is_route_record (v : value) : Prop :=
  exists n i m p st resp, v = route_record n i m p st resp.

(** The keys that validation sets, with their values. *)
Definition validated_items (sn d v ci slug : string) (routes : list value) (port : Z)
    : list (string * value) :=
  [("service_name", VStr sn); ("description", VStr d); ("version", VStr v);
   ("container_image", VStr ci); ("slug", VStr slug); ("routes", VList routes);
   ("port", VInt port)].

Definition default_image (slug version : string) : string :=
  "registry.example.com/" +:+ slug +:+ ":" +:+ version.

(** The routes validation stores, given the routes it read. *)
Definition routes_result {rt : Builtins} (service_name : string) (routes : list value)
    : result (list value) :=
  match routes with
  | [] => Ok [SimplePythonServiceTemplate.default_route service_name]
  | _ => SimplePythonServiceTemplate.normalize_routes 0 routes
  end.

(** What validation establishes about the document it returns. *)
Definition normalized_spec (S : dict) (sn d v ci : string) (routes : list value)
    (port : Z) : Prop :=
  dict_lookup S "service_name" = Some (VStr sn)
  /\ dict_lookup S "description" = Some (VStr d)
  /\ dict_lookup S "version" = Some (VStr v)
  /\ dict_lookup S "container_image" = Some (VStr ci)
  /\ dict_lookup S "slug" = Some (VStr (slugify sn))
  /\ dict_lookup S "routes" = Some (VList routes)
  /\ dict_lookup S "port" = Some (VInt port)
  /\ Forall is_route_record routes.

(** The routes of a normalised document: each one carries the identifier
    derived from its name. *)
Definition identifier_from_name (route : value) : Prop :=
  exists d n,
    route = VDict d /\ dict_lookup d "name" = Some (VStr n)
    /\ dict_lookup d "identifier" = Some (VStr (replace_char "-" "_" (slugify n))).

(** The error raised for a method outside the allowed set *)
Definition unsupported_method_error (method : string) : exn :=
  ValueError ("Unsupported HTTP method '" +:+ method
              +:+ "'. Allowed: DELETE, GET, POST, PUT").

(** The summary of a route that the metadata file records. *)
Definition route_summary (route : value) : value :=
  match route with
  | VDict d =>
      VDict [("name", dict_get d "name" VNone); ("method", dict_get d "method" VNone);
             ("path", dict_get d "path" VNone); ("status", dict_get d "status" VNone)]
  | _ => VNone
  end.

(** The metadata of a normalised document *)
Definition metadata_of (sn d v ci : string) (routes : list value) : value :=
  VDict [("template", VStr SimplePythonServiceTemplate.name);
         ("service_name", VStr sn); ("description", VStr d);
         ("version", VStr v); ("container_image", VStr ci);
         ("routes", VList (map route_summary routes))].

(** A route summary that records the method, the path and the status of a
    route and nothing else. *)
Definition summary_only_method_path_status (summary : value) : Prop :=
  exists d, summary = VDict d
            /\ forall k, dict_mem k d = true -> k ∈ ["method"; "path"; "status"].

(** ** The file system and project generation *)

(** In a well-formed file system every entry sits in a directory. *)
Definition fs_wf (f : fs) : Prop :=
  map_Forall (fun p _ => is_dir f (path_parent p) = true) f.

(** [p] and all its ancestors are directories. *)
Definition dir_chain (f : fs) (p : path) : Prop :=
  Forall (fun q => f !! q = Some Dir) (prefixes p).

(** A computation on the file system that keeps every directory. *)
Definition keeps_dirs {A} (m : M fs A) : Prop :=
  forall f r f' q, m f = (r, f') -> f !! q = Some Dir -> f' !! q = Some Dir.

(** The files of a generated project *)
Definition project_targets (pd : path) : list path :=
  [path_child (path_child pd "app") "__init__.py";
   path_child (path_child pd "app") "routes.py";
   path_child (path_child pd "app") "server.py";
   path_child (path_child pd "tests") "__init__.py";
   path_child (path_child pd "tests") "test_routes.py";
   path_child pd "README.md";
   path_child pd "Dockerfile";
   path_child (path_child pd "k8s") "deployment.yaml";
   path_child (path_child pd "k8s") "service.yaml";
   path_child pd "project-metadata.json"].

(** The state of the project directory while its files are written: the
    three directories are there and no file name is taken by a directory. *)
Definition gen_inv (pd : path) (f : fs) : Prop :=
  dir_chain f (path_child pd "app")
  /\ dir_chain f (path_child pd "tests")
  /\ dir_chain f (path_child pd "k8s")
  /\ Forall (fun t => f !! t <> Some Dir) (project_targets pd).

(** The document a project is generated from: the requirements as they
    are when they carry a slug, else their validation. *)
Definition effective_spec {rt : Builtins} (requirements : dict) : result dict :=
  if dict_mem "slug" requirements then Ok requirements
  else SimplePythonServiceTemplate.validate_requirements requirements.

Definition already_exists (project_dir : path) : exn :=
  FileExistsError ("Target project directory already exists: " +:+ path_str project_dir).

(** ** The pipeline and the deployer *)

(** The deploy gate of a run *)
Definition gate (deploy : bool) (test_result : option TestResult) : bool :=
  deploy && match test_result with None => true | Some r => passed r end.

(** Every manifest of the list is applied with exit code zero, one after
    the other, taking the world from [w] to [w']. *)
Inductive applies_ok {host : Host} (kubectl : string) (namespace : option string)
    : world -> list path -> world -> Prop :=
| applies_ok_nil w : applies_ok kubectl namespace w [] w
| applies_ok_cons w manifest rest completed w1 w2 :
    subprocess_run (KubernetesDeployer.apply_command kubectl namespace manifest) None w
    = (Ok completed, w1) ->
    returncode completed = 0 ->
    applies_ok kubectl namespace w1 rest w2 ->
    applies_ok kubectl namespace w (manifest :: rest) w2.

(** ** Sample data *)

(** The requirements of [tests/test_platform.py] *)
Definition inventory_requirements : dict :=
  [("service_name", VStr "Inventory");
   ("description", VStr "Inventory management microservice.");
   ("version", VStr "0.2.0");
   ("routes", VList
      [VDict [("name", VStr "list_items"); ("method", VStr "GET"); ("path", VStr "/items");
              ("status", VInt 200);
              ("response", VDict [("items", VList
                 [VDict [("sku", VStr "SKU-001"); ("quantity", VInt 5)];
                  VDict [("sku", VStr "SKU-002"); ("quantity", VInt 7)]])])];
       VDict [("name", VStr "health"); ("method", VStr "GET"); ("path", VStr "/healthz");
              ("status", VInt 200); ("response", VDict [("status", VStr "ok")])]])].

(** The validated requirements of the test suite *)
Definition inventory_spec : dict :=
  Eval vm_compute in
    match SimplePythonServiceTemplate.validate_requirements (rt := sample_builtins)
            inventory_requirements with
    | Ok spec => spec
    | Raise _ => []
    end.

Definition empty_world : world := {| files := ∅; proc_log := [] |}.

(** A platform with the default template manager and test runner and a
    deployer that was given [kubectl] as the path of the cluster CLI. *)
Definition sample_platform (kubectl : option string) : K8sAutoDevPlatform.t :=
  K8sAutoDevPlatform.init (rt := sample_builtins) (layout := sample_layout)
    None None (Some (KubernetesDeployer.init kubectl None)) "python3" None.

Definition passing_tests_host : Host := scripted_host (fun _ => 0) "OK" "".

Definition failing_tests_host : Host := scripted_host (fun _ => 1) "" "FAILED (failures=1)".

(** A project with its two manifests, and a host on which applying the
    service manifest fails. *)
Definition two_manifests_world : world :=
  {| files := {[ ["p"] := Dir; ["p"; "k8s"] := Dir;
                 ["p"; "k8s"; "service.yaml"] := File "kind: Service";
                 ["p"; "k8s"; "deployment.yaml"] := File "kind: Deployment";
                 ["p"; "k8s"; "notes.txt"] := File "" ]};
     proc_log := [] |}.

Definition service_fails_host : Host :=
  scripted_host
    (fun command => if bool_decide ("/p/k8s/service.yaml" ∈ command) then 1 else 0)
    "" (" error: connection refused" +:+ nl).

(** ** Vocabulary of the further properties *)

(** The characters of a route identifier: [a-z0-9_] *)
Definition identifier_char (c : ascii) : bool :=
  is_lower_az c || is_digit c || (code c =? 95)%N.

(** The keys that validation sets *)
Definition validated_keys : list string :=
  ["service_name"; "description"; "version"; "container_image"; "slug"; "routes"; "port"].

(** A normalised route that satisfies the invariants of a route
    specification. *)
Definition wellformed_route (route : value) : Prop :=
  exists n i m p st resp,
    route = route_record n i m p st resp
    /\ m ∈ SimplePythonServiceTemplate._ALLOWED_METHODS
    /\ startswith p "/" = true
    /\ truthy resp = true
    /\ all_chars identifier_char i = true.

(** A computation on the file system that changes nothing outside the
    paths in [P]. *)
Definition confined {A} (P : path -> Prop) (m : M fs A) : Prop :=
  forall f r f' q, m f = (r, f') -> ~ P q -> f' !! q = f !! q.

(** A computation on the file system that keeps the regular file at [t] a
    regular file, and one that, when it succeeds, leaves a regular file at
    [t]. *)
Definition keeps_file {A} (t : path) (m : M fs A) : Prop :=
  forall f r f', m f = (r, f') -> is_file f t = true -> is_file f' t = true.

Definition makes_file {A} (t : path) (m : M fs A) : Prop :=
  forall f a f', m f = (Ok a, f') -> is_file f' t = true.

Definition makes_dir {A} (t : path) (m : M fs A) : Prop :=
  forall f a f', m f = (Ok a, f') -> is_dir f' t = true.

(** The directories of a generated project *)
Definition project_dirs (pd : path) : list path :=
  [pd; path_child pd "app"; path_child pd "tests"; path_child pd "k8s"].

(** Everything generation may create: the ancestors of the project
    directory, the directories of the project and its files. *)
Definition project_paths (pd : path) : list path :=
  prefixes pd ++ project_dirs pd ++ project_targets pd.

(** What [generate_project] does once it has found that the project
    directory is not there: the directories, the files, and the path it
    returns. *)
Definition generate_files {rt : Builtins} {layout : Layout}
    (project_dir : path) (requirements : dict) : M fs path :=
  let app_dir := path_child project_dir "app" in
  let tests_dir := path_child project_dir "tests" in
  let k8s_dir := path_child project_dir "k8s" in
  mkdir_parents app_dir ;;
  mkdir_parents tests_dir ;;
  mkdir_parents k8s_dir ;;
  SimplePythonServiceTemplate._write_app_package app_dir requirements ;;
  SimplePythonServiceTemplate._write_tests tests_dir requirements ;;
  SimplePythonServiceTemplate._write_project_readme project_dir requirements ;;
  SimplePythonServiceTemplate._write_dockerfile project_dir ;;
  SimplePythonServiceTemplate._write_k8s_manifests k8s_dir requirements ;;
  metadata ← lift (SimplePythonServiceTemplate._export_metadata requirements);
  write_json (path_child project_dir "project-metadata.json") metadata ;;
  mret project_dir.


(** The text of the dry-run deployment plan for the given manifests *)
Definition dry_run_plan (manifest_paths : list string) : string :=
  join nl (["kubectl command not found; generated dry-run deployment plan.";
            "Apply the following manifests manually:"] ++ manifest_paths) +:+ nl.

(** A computation on the file system that keeps it well formed. *)
Definition keeps_wf {A} (m : M fs A) : Prop :=
  forall f r f', m f = (r, f') -> fs_wf f -> fs_wf f'.

(** The outcome of a dry-run deployment of the given manifests *)
Definition dry_run_result (manifest_dir : path) (manifests : list path) : DeploymentResult :=
  {| applied := false;
     manifest_files := map path_str manifests;
     message := "kubectl not available. Plan written to "
                +:+ path_str (path_child manifest_dir "deployment-plan.txt") +:+ ".";
     command_sequence := [] |}.

(** The manifests of a generated project, in the order of the listing *)
Definition project_manifests (pd : path) : list path :=
  [path_child (path_child pd "k8s") "deployment.yaml";
   path_child (path_child pd "k8s") "service.yaml"].

(** ** More sample data *)

(** Requirements with a service name that is not fit for a path, a slug
    of their own and a port given as text *)
Definition hostile_requirements : dict :=
  [("service_name", VStr "../../etc/Passwd "); ("description", VNone);
   ("slug", VStr "../../root"); ("owner", VStr "ops"); ("port", VStr "8080")].

(** Requirements that were not validated: they carry a slug and lack the
    description. *)
Definition unvalidated_requirements : dict :=
  [("service_name", VStr "Shop"); ("slug", VStr "../../shop")].

(** A file system with one file *)
Definition notes_fs : fs := {[ ["notes.txt"] := File "keep" ]}.

(** A world in which the project of the test suite is already there *)
Definition existing_project_world : world :=
  {| files := {[ ["out"] := Dir; ["out"; "inventory-service"] := Dir ]};
     proc_log := [] |}.

(** * Properties *)

(** ** Characters and strings *)

Local Ltac char_cases c := destruct c as [[] [] [] [] [] [] [] []].

Lemma slug_char_not_space c : slug_char c = true -> is_space c = false.
Proof. char_cases c; vm_compute; congruence. Qed.

Lemma slug_char_lower c : slug_char c = true -> lower_char c = c.
Proof. char_cases c; vm_compute; congruence. Qed.

Lemma class_dash c : slug_char c = true -> SLUGIFY_PATTERN_class c = is_dash c.
Proof. char_cases c; vm_compute; congruence. Qed.

Lemma not_class_slug_char c : SLUGIFY_PATTERN_class c = false -> slug_char c = true.
Proof. char_cases c; vm_compute; congruence. Qed.

Lemma not_class_not_dash c : SLUGIFY_PATTERN_class c = false -> is_dash c = false.
Proof. char_cases c; vm_compute; congruence. Qed.

Lemma is_dash_eq c : is_dash c = true -> c = "-"%char.
Proof. char_cases c; vm_compute; congruence. Qed.

Lemma str_map_id f s :
  all_chars (fun c => bool_decide (f c = c)) s = true -> str_map f s = s.
Proof.
  induction s as [|c r IH]; simpl; [done|].
  intros [Hc Hr]%andb_true_iff. apply bool_decide_eq_true in Hc. by rewrite Hc, IH.
Qed.

Lemma all_chars_impl (p q : ascii -> bool) s :
  (forall c, p c = true -> q c = true) -> all_chars p s = true -> all_chars q s = true.
Proof.
  intros Hpq. induction s as [|c r IH]; simpl; [done|].
  intros [Hc Hr]%andb_true_iff. rewrite (Hpq _ Hc). by apply IH.
Qed.

Lemma lower_slug s : all_chars slug_char s = true -> lower s = s.
Proof.
  intros Hs. apply str_map_id.
  revert Hs. apply all_chars_impl. intros c Hc.
  apply bool_decide_eq_true. by apply slug_char_lower.
Qed.

(** *** Stripping *)

Lemma lstrip_head_ok p s : head_ok p (lstrip_with p s) = true.
Proof.
  induction s as [|c r IH]; simpl; [done|].
  destruct (p c) eqn:Hc; [done|]. simpl. by rewrite Hc.
Qed.

Lemma lstrip_id p s : head_ok p s = true -> lstrip_with p s = s.
Proof. destruct s as [|c r]; simpl; [done|]. by destruct (p c). Qed.

Lemma rstrip_id p s : last_ok p s = true -> rstrip_with p s = s.
Proof.
  induction s as [|c r IH]; [done|].
  cbn [last_ok rstrip_with]. destruct r as [|c' r'].
  - simpl. by destruct (p c).
  - intros Hl. by rewrite (IH Hl).
Qed.

Lemma rstrip_last_ok p s : last_ok p (rstrip_with p s) = true.
Proof.
  induction s as [|c r IH]; [done|].
  cbn [rstrip_with]. destruct (rstrip_with p r) as [|c' r'] eqn:Hr.
  - destruct (p c) eqn:Hc; [done|]. simpl. by rewrite Hc.
  - exact IH.
Qed.

Lemma rstrip_head p s c r' :
  rstrip_with p s = String c r' -> exists r, s = String c r.
Proof.
  destruct s as [|a r]; [done|]. cbn [rstrip_with].
  destruct (rstrip_with p r); [destruct (p a)|]; intros; simplify_eq; eauto.
Qed.

Lemma rstrip_head_ok p s : head_ok p s = true -> head_ok p (rstrip_with p s) = true.
Proof.
  intros Hs. destruct (rstrip_with p s) as [|c r'] eqn:Hr; [done|].
  apply rstrip_head in Hr as [r ->]. exact Hs.
Qed.

Lemma lstrip_all_chars q p s :
  all_chars q s = true -> all_chars q (lstrip_with p s) = true.
Proof.
  induction s as [|c r IH]; simpl; [done|].
  intros [Hc Hr]%andb_true_iff. destruct (p c); [by apply IH|].
  simpl. by rewrite Hc, Hr.
Qed.

Lemma rstrip_all_chars q p s :
  all_chars q s = true -> all_chars q (rstrip_with p s) = true.
Proof.
  induction s as [|c r IH]; [done|].
  cbn [rstrip_with all_chars]. intros [Hc Hr]%andb_true_iff.
  specialize (IH Hr). destruct (rstrip_with p r) as [|c' r'].
  - destruct (p c); [done|]. simpl. by rewrite Hc.
  - cbn [all_chars] in IH |- *. by rewrite Hc, IH.
Qed.

Lemma lstrip_no_double_dash p s :
  no_double_dash s = true -> no_double_dash (lstrip_with p s) = true.
Proof.
  induction s as [|c r IH]; [done|].
  cbn [lstrip_with]. intros Hs. destruct (p c); [|done].
  apply IH. cbn [no_double_dash] in Hs. by apply andb_true_iff in Hs as [_ ?].
Qed.

Lemma rstrip_no_double_dash p s :
  no_double_dash s = true -> no_double_dash (rstrip_with p s) = true.
Proof.
  induction s as [|c r IH]; [done|].
  cbn [rstrip_with no_double_dash]. intros [Hc Hr]%andb_true_iff.
  specialize (IH Hr). destruct (rstrip_with p r) as [|c' r'] eqn:Hrs.
  - destruct (p c); [done|]. simpl. by rewrite andb_false_r.
  - cbn [no_double_dash] in IH |- *. rewrite IH, andb_true_r.
    apply rstrip_head in Hrs as [r0 ->]. exact Hc.
Qed.

(** *** The substitution of the runs *)

Lemma sub_shape b s :
  let out := SLUGIFY_PATTERN_sub "-" b s in
  all_chars slug_char out = true /\ no_double_dash out = true
  /\ (b = true -> head_ok is_dash out = true).
Proof.
  revert b. induction s as [|c r IH]; intros b; [done|].
  cbn [SLUGIFY_PATTERN_sub]. destruct (SLUGIFY_PATTERN_class c) eqn:Hc.
  - destruct b.
    + apply IH.
    + destruct (IH true) as (Ha & Hd & Hh). specialize (Hh eq_refl).
      change ("-" +:+ ?x) with (String "-" x). cbn [all_chars no_double_dash].
      rewrite Ha, Hd, Hh. done.
  - destruct (IH false) as (Ha & Hd & _).
    cbn [all_chars no_double_dash head_ok].
    rewrite Ha, Hd, (not_class_slug_char _ Hc), (not_class_not_dash _ Hc). done.
Qed.

Lemma sub_fixed b s :
  all_chars slug_char s = true -> no_double_dash s = true ->
  (b = true -> head_ok is_dash s = true) ->
  SLUGIFY_PATTERN_sub "-" b s = s.
Proof.
  revert b. induction s as [|c r IH]; intros b; [done|].
  cbn [SLUGIFY_PATTERN_sub all_chars no_double_dash head_ok].
  intros [Hc Hr]%andb_true_iff [Hd Hdr]%andb_true_iff Hb.
  rewrite (class_dash _ Hc). destruct (is_dash c) eqn:Hdash.
  - destruct b; [by specialize (Hb eq_refl)|].
    rewrite (is_dash_eq _ Hdash). change ("-" +:+ ?x) with (String "-" x).
    f_equal. apply IH; [done..|]. intros _.
    simpl in Hd. by apply negb_true_iff, negb_false_iff in Hd.
  - f_equal. apply IH; done.
Qed.

Lemma sub_true_all_class s :
  all_chars SLUGIFY_PATTERN_class s = true -> SLUGIFY_PATTERN_sub "-" true s = EmptyString.
Proof.
  induction s as [|c r IH]; [done|]. cbn [all_chars SLUGIFY_PATTERN_sub].
  intros [-> Hr]%andb_true_iff. by apply IH.
Qed.

Lemma sub_all_class b s :
  all_chars SLUGIFY_PATTERN_class s = true ->
  strip_with is_dash (SLUGIFY_PATTERN_sub "-" b s) = EmptyString.
Proof.
  destruct s as [|c r]; [done|]. cbn [all_chars SLUGIFY_PATTERN_sub].
  intros [-> Hr]%andb_true_iff. rewrite (sub_true_all_class _ Hr). by destruct b.
Qed.

(** *** [slugify] *)

Lemma strip_with_shape p s :
  all_chars slug_char s = true -> no_double_dash s = true ->
  let out := strip_with p s in
  all_chars slug_char out = true /\ no_double_dash out = true
  /\ head_ok p out = true /\ last_ok p out = true.
Proof.
  intros Ha Hd. unfold strip_with. repeat split.
  - by apply rstrip_all_chars, lstrip_all_chars.
  - by apply rstrip_no_double_dash, lstrip_no_double_dash.
  - apply rstrip_head_ok, lstrip_head_ok.
  - apply rstrip_last_ok.
Qed.

Lemma slugify_is_slug s : is_slug (slugify s) = true.
Proof.
  unfold slugify.
  destruct (sub_shape false (lower (strip s))) as (Ha & Hd & _).
  destruct (strip_with_shape is_dash _ Ha Hd) as (Ha' & Hd' & Hh & Hl).
  destruct (strip_with is_dash _) as [|c r]; [done|].
  unfold is_slug, str_or. rewrite Ha', Hd', Hh, Hl. done.
Qed.

Lemma all_chars_head_last (q p : ascii -> bool) s :
  (forall c, q c = true -> p c = false) -> all_chars q s = true ->
  head_ok p s = true /\ last_ok p s = true.
Proof.
  intros Hqp. induction s as [|c r IH]; [done|].
  cbn [all_chars head_ok last_ok]. intros [Hc Hr]%andb_true_iff.
  rewrite (Hqp _ Hc). split; [done|]. destruct r; [done|]. by apply IH.
Qed.

Lemma is_slug_fixed s : is_slug s = true -> slugify s = s.
Proof.
  unfold is_slug. intros Hs.
  repeat match goal with H : _ && _ = true |- _ => apply andb_true_iff in H as [? ?] end.
  match goal with H : all_chars _ _ = true |- _ => rename H into Ha end.
  destruct (all_chars_head_last slug_char is_space s slug_char_not_space Ha) as [Hsh Hsl].
  unfold slugify, strip, strip_with.
  rewrite (lstrip_id _ _ Hsh), (rstrip_id _ _ Hsl), (lower_slug _ Ha).
  rewrite (sub_fixed false s Ha); [|done..].
  rewrite lstrip_id, rstrip_id by done.
  by destruct s.
Qed.

Lemma slugify_nonempty s : slugify s <> EmptyString.
Proof.
  pose proof (slugify_is_slug s) as Hs. intros He. rewrite He in Hs. done.
Qed.

Lemma head_ok_startswith s : head_ok is_dash s = true -> startswith s "-" = false.
Proof.
  destruct s as [|c r]; [done|]. cbn [head_ok startswith]. unfold is_dash.
  change (code "-") with 45%N.
  intros Hc%negb_true_iff. by rewrite N.eqb_sym, Hc.
Qed.

Lemma last_ok_endswith s : last_ok is_dash s = true -> endswith s "-" = false.
Proof.
  induction s as [|c r IH]; [done|]. cbn [last_ok endswith].
  destruct r as [|c' r'].
  - intros Hc%negb_true_iff. simpl.
    destruct (Ascii.eqb c "-") eqn:He; [|done].
    apply Ascii.eqb_eq in He. by subst.
  - intros Hl. rewrite (IH Hl), orb_false_r. simpl. by destruct (Ascii.eqb c "-").
Qed.

Lemma symbol_lower_class c :
  symbol_char c = true -> SLUGIFY_PATTERN_class (lower_char c) = true.
Proof. char_cases c; vm_compute; congruence. Qed.

Lemma all_chars_str_map (p q : ascii -> bool) f s :
  (forall c, p c = true -> q (f c) = true) ->
  all_chars p s = true -> all_chars q (str_map f s) = true.
Proof.
  intros Hf. induction s as [|c r IH]; [done|]. cbn [all_chars str_map].
  intros [Hc Hr]%andb_true_iff. by rewrite (Hf _ Hc), IH.
Qed.

Lemma slugify_all_symbols s : all_chars symbol_char s = true -> slugify s = "project".
Proof.
  intros Hs. unfold slugify. rewrite sub_all_class; [done|].
  apply (all_chars_str_map symbol_char); [apply symbol_lower_class|].
  by apply rstrip_all_chars, lstrip_all_chars.
Qed.

(** ** Dictionaries *)

Lemma dict_lookup_set d k v k' :
  dict_lookup (dict_set d k v) k' = if String.eqb k' k then Some v else dict_lookup d k'.
Proof.
  induction d as [|[k0 v0] r IH]; simpl.
  - by destruct (String.eqb k' k).
  - destruct (String.eqb k k0) eqn:Hk; simpl.
    + apply String.eqb_eq in Hk as ->. by destruct (String.eqb k' k0).
    + rewrite IH. destruct (String.eqb k' k0) eqn:Hk'; [|done].
      apply String.eqb_eq in Hk' as ->. by rewrite String.eqb_sym, Hk.
Qed.

Lemma dict_set_id d k v : dict_lookup d k = Some v -> dict_set d k v = d.
Proof.
  induction d as [|[k0 v0] r IH]; simpl; [done|].
  destruct (String.eqb k k0); [congruence|]. intros Hr. by rewrite IH.
Qed.

Lemma dict_mem_lookup d k v : dict_lookup d k = Some v -> dict_mem k d = true.
Proof.
  induction d as [|[k0 v0] r IH]; simpl; [done|].
  destruct (String.eqb k k0); [done|]. exact IH.
Qed.

Lemma dict_mem_lookup_None d k : dict_mem k d = false <-> dict_lookup d k = None.
Proof.
  induction d as [|[k0 v0] r IH]; simpl; [done|].
  destruct (String.eqb k k0); [split; discriminate|]. exact IH.
Qed.

Lemma dict_get_lookup d k v dflt : dict_lookup d k = Some v -> dict_get d k dflt = v.
Proof. unfold dict_get. by intros ->. Qed.

Lemma ensure_fields_ok n d a b :
  dict_mem a d = true -> dict_mem b d = true ->
  BaseTemplate._ensure_fields n d [a; b] = Ok tt.
Proof.
  intros Ha Hb. unfold BaseTemplate._ensure_fields.
  rewrite !filter_cons, filter_nil. rewrite Ha, Hb. simpl.
  repeat case_decide; done.
Qed.

Lemma ensure_fields_inv n d a b :
  BaseTemplate._ensure_fields n d [a; b] = Ok tt ->
  dict_mem a d = true /\ dict_mem b d = true.
Proof.
  unfold BaseTemplate._ensure_fields. rewrite !filter_cons, filter_nil.
  destruct (dict_mem a d), (dict_mem b d); simpl; repeat case_decide; simpl; done.
Qed.

(** ** Builtins *)

Lemma string_of_Z_nonempty z : string_of_Z z <> EmptyString.
Proof.
  unfold string_of_Z, NilZero.string_of_int.
  destruct (Z.to_int z) as [d|d]; [|done]. by destruct d.
Qed.

Lemma py_or_truthy x y : truthy y = true -> truthy (py_or x y) = true.
Proof. unfold py_or. by destruct (truthy x) eqn:Hx. Qed.

Lemma py_or_left x y : truthy x = true -> py_or x y = x.
Proof. unfold py_or. by intros ->. Qed.

Lemma truthy_VStr s : truthy (VStr s) = true <-> s <> EmptyString.
Proof. simpl. destruct s; simpl; split; done. Qed.

Lemma startswith_nonempty s c p : startswith s (String c p) = true -> s <> EmptyString.
Proof. by destruct s. Qed.

Section RuntimeFacts.
Context {rt : Builtins} {rt_ok : BuiltinsOk rt}.

(** The text of an object that counts as true is not empty. *)
Lemma truthy_py_str v : truthy v = true -> py_str v <> EmptyString.
Proof.
  destruct v as [|[]|z|f|s|l|d]; simpl; try done.
  - intros _. apply string_of_Z_nonempty.
  - intros _. apply py_repr_nonempty.
  - by destruct s.
  - intros _. apply py_repr_nonempty.
  - intros _. apply py_repr_nonempty.
Qed.

Lemma py_str_or_nonempty x y : y <> EmptyString -> py_str (py_or x (VStr y)) <> EmptyString.
Proof.
  intros Hy. unfold py_or. destruct (truthy x) eqn:Hx; [|done].
  by apply truthy_py_str.
Qed.
End RuntimeFacts.

(** ** Route normalisation *)

Lemma upper_allowed {rt : Builtins} m :
  m ∈ SimplePythonServiceTemplate._ALLOWED_METHODS -> upper m = m.
Proof.
  unfold SimplePythonServiceTemplate._ALLOWED_METHODS.
  rewrite !elem_of_cons, elem_of_nil. intros [->|[->|[->|[->|[]]]]]; reflexivity.
Qed.

Lemma route_default_name_nonempty i :
  SimplePythonServiceTemplate.route_default_name i <> EmptyString.
Proof. done. Qed.

Lemma replace_char_nonempty a b s : s <> EmptyString -> replace_char a b s <> EmptyString.
Proof. by destruct s. Qed.

(** The fallback of the identifier is never taken. *)
Lemma route_identifier_eq i n :
  SimplePythonServiceTemplate.route_identifier i n = replace_char "-" "_" (slugify n).
Proof.
  unfold SimplePythonServiceTemplate.route_identifier.
  pose proof (replace_char_nonempty "-" "_" _ (slugify_nonempty n)) as Hne.
  by destruct (replace_char "-" "_" (slugify n)).
Qed.

Section Normalisation.
Context {rt : Builtins}.

Import SimplePythonServiceTemplate.

(** What a successful normalisation of a route returns. *)
Lemma normalize_route_inv index route v :
  normalize_route index route = Ok v ->
  exists d st,
    route = VDict d
    /\ route_method d ∈ _ALLOWED_METHODS
    /\ truthy (dict_get d "path" VNone) = true
    /\ startswith (py_str (dict_get d "path" VNone)) "/" = true
    /\ py_int (dict_get d "status" (VInt 200)) = Ok st
    /\ v = route_record (route_name index d)
             (route_identifier index (route_name index d))
             (route_method d)
             (py_str (dict_get d "path" VNone))
             st
             (py_or (dict_get d "response" VNone)
                    (VDict [("message", VStr ("Response from " +:+ route_name index d))])).
Proof.
  destruct route as [| | | | | |d]; try done. cbn [normalize_route].
  destruct (bool_decide (route_method d ∈ _ALLOWED_METHODS)) eqn:Hm; [|done].
  apply bool_decide_eq_true in Hm. cbn [negb].
  destruct (truthy (dict_get d "path" VNone)) eqn:Hp; [|done].
  destruct (startswith (py_str (dict_get d "path" VNone)) "/") eqn:Hs; [|done].
  cbn [negb orb].
  destruct (py_int (dict_get d "status" (VInt 200))) as [st|e] eqn:Hst; [|done].
  intros [= <-]. exists d, st. repeat split; done.
Qed.

(** A route built by [normalize_route] is left as it is by it. *)
Lemma normalize_route_record index n m p st resp :
  n <> EmptyString -> m ∈ _ALLOWED_METHODS -> startswith p "/" = true ->
  truthy resp = true ->
  normalize_route index (route_record n (route_identifier index n) m p st resp)
  = Ok (route_record n (route_identifier index n) m p st resp).
Proof.
  intros Hn Hm Hp Hr. unfold route_record. cbn [normalize_route].
  assert (route_name index
            [("name", VStr n); ("identifier", VStr (route_identifier index n));
             ("method", VStr m); ("path", VStr p); ("status", VInt st);
             ("response", resp)] = n) as ->.
  { unfold route_name. change (dict_get _ "name" VNone) with (VStr n).
    rewrite py_or_left; [done|]. by apply truthy_VStr. }
  assert (route_method
            [("name", VStr n); ("identifier", VStr (route_identifier index n));
             ("method", VStr m); ("path", VStr p); ("status", VInt st);
             ("response", resp)] = m) as ->.
  { unfold route_method. change (dict_get _ "method" _) with (VStr m).
    cbn [py_str]. by apply upper_allowed. }
  rewrite bool_decide_eq_true_2 by done. cbn [negb].
  change (dict_get _ "path" VNone) with (VStr p).
  change (dict_get _ "status" _) with (VInt st).
  change (dict_get _ "response" VNone) with resp.
  cbn [py_str py_int]. rewrite Hp.
  assert (truthy (VStr p) = true) as ->.
  { apply truthy_VStr. by eapply startswith_nonempty. }
  cbn [negb orb mbind result_bind]. by rewrite (py_or_left resp).
Qed.

Context {rt_ok : BuiltinsOk rt}.

Lemma normalize_route_idempotent index route v :
  normalize_route index route = Ok v -> normalize_route index v = Ok v.
Proof.
  intros (d & st & -> & Hm & Hpt & Hps & Hst & ->)%normalize_route_inv.
  apply normalize_route_record; [|done..|].
  - apply py_str_or_nonempty, route_default_name_nonempty.
  - by apply py_or_truthy.
Qed.

Lemma normalize_routes_idempotent index routes vs :
  normalize_routes index routes = Ok vs -> normalize_routes index vs = Ok vs.
Proof.
  revert index vs. induction routes as [|r rs IH]; intros index vs.
  - by intros [= <-].
  - cbn [normalize_routes].
    destruct (normalize_route index r) as [v|e] eqn:Hr; [|done].
    cbn [mbind result_bind].
    destruct (normalize_routes (S index) rs) as [vs'|e] eqn:Hrs; [|done].
    intros [= <-]. cbn [normalize_routes].
    by rewrite (normalize_route_idempotent _ _ _ Hr), (IH _ _ Hrs).
Qed.

Lemma normalize_routes_length index routes vs :
  normalize_routes index routes = Ok vs -> length vs = length routes.
Proof.
  revert index vs. induction routes as [|r rs IH]; intros index vs.
  - by intros [= <-].
  - cbn [normalize_routes].
    destruct (normalize_route index r) as [v|e]; [|done]. cbn [mbind result_bind].
    destruct (normalize_routes (S index) rs) as [vs'|e] eqn:Hrs; [|done].
    intros [= <-]. simpl. by rewrite (IH _ _ Hrs).
Qed.

Lemma default_route_fixed service_name :
  normalize_route 0 (default_route service_name) = Ok (default_route service_name).
Proof.
  change (default_route service_name) with
    (route_record "root" "root" "GET" "/" 200
       (VDict [("message", VStr ("Hello from " +:+ service_name +:+ "!"))])).
  change "root" with (route_identifier 0 "root") at 2 4.
  apply normalize_route_record; [done| |done..].
  unfold _ALLOWED_METHODS. set_solver.
Qed.
End Normalisation.

(** ** Validation of a requirements document *)

Section Validation.
Context {rt : Builtins}.

Import SimplePythonServiceTemplate.

Lemma validate_requirements_inv requirements S :
  validate_requirements requirements = Ok S ->
  let sn := py_str (dict_get requirements "service_name" VNone) in
  let v := py_str (dict_get requirements "version" (VStr "0.1.0")) in
  exists routes nroutes port,
    dict_mem "service_name" requirements = true
    /\ dict_mem "description" requirements = true
    /\ py_list (py_or (dict_get requirements "routes" VNone) (VList [])) = Ok routes
    /\ routes_result sn routes = Ok nroutes
    /\ py_int (dict_get requirements "port" (VInt 8000)) = Ok port
    /\ S = dict_update requirements
             (validated_items sn
                (py_str (dict_get requirements "description" VNone)) v
                (py_str (py_or (dict_get requirements "container_image" VNone)
                               (VStr (default_image (slugify sn) v))))
                (slugify sn) nroutes port).
Proof.
  unfold validate_requirements.
  destruct (BaseTemplate._ensure_fields _ _ _) as [[]|e] eqn:He; [|done].
  apply ensure_fields_inv in He as [Hs Hd]. cbn [mbind result_bind].
  destruct (py_list _) as [routes|e] eqn:Hl; [|done]. cbn [mbind result_bind].
  fold (routes_result (py_str (dict_get requirements "service_name" VNone)) routes).
  destruct (routes_result _ routes) as [nroutes|e] eqn:Hr; [|done].
  cbn [mbind result_bind].
  destruct (py_int _) as [port|e] eqn:Hp; [|done]. cbn [mbind result_bind].
  intros [= <-]. exists routes, nroutes, port. repeat split; done.
Qed.

Lemma dict_update_validated_lookup r sn d v ci slug routes port :
  let S := dict_update r (validated_items sn d v ci slug routes port) in
  dict_lookup S "service_name" = Some (VStr sn)
  /\ dict_lookup S "description" = Some (VStr d)
  /\ dict_lookup S "version" = Some (VStr v)
  /\ dict_lookup S "container_image" = Some (VStr ci)
  /\ dict_lookup S "slug" = Some (VStr slug)
  /\ dict_lookup S "routes" = Some (VList routes)
  /\ dict_lookup S "port" = Some (VInt port).
Proof.
  unfold dict_update, validated_items. cbn [foldl fst snd].
  repeat split; rewrite !dict_lookup_set; reflexivity.
Qed.

(** A document that already holds the values validation would set is
    returned unchanged. *)
Lemma validate_requirements_fixed S sn d v ci routes port :
  dict_lookup S "service_name" = Some (VStr sn) ->
  dict_lookup S "description" = Some (VStr d) ->
  dict_lookup S "version" = Some (VStr v) ->
  dict_lookup S "container_image" = Some (VStr ci) ->
  dict_lookup S "slug" = Some (VStr (slugify sn)) ->
  dict_lookup S "routes" = Some (VList routes) ->
  dict_lookup S "port" = Some (VInt port) ->
  ci <> EmptyString -> routes <> [] -> normalize_routes 0 routes = Ok routes ->
  validate_requirements S = Ok S.
Proof.
  intros Hsn Hd Hv Hci Hslug Hroutes Hport Hne Hrne Hfix.
  unfold validate_requirements.
  rewrite (ensure_fields_ok _ _ _ _ (dict_mem_lookup _ _ _ Hsn) (dict_mem_lookup _ _ _ Hd)).
  cbn [mbind result_bind].
  rewrite (dict_get_lookup _ _ _ _ Hsn), (dict_get_lookup _ _ _ _ Hd),
    (dict_get_lookup _ _ _ _ Hv), (dict_get_lookup _ _ _ _ Hci),
    (dict_get_lookup _ _ _ _ Hroutes), (dict_get_lookup _ _ _ _ Hport).
  cbn [py_str py_int].
  rewrite (py_or_left (VStr ci)) by by apply truthy_VStr.
  rewrite (py_or_left (VList routes)) by by destruct routes.
  cbn [py_list py_str mbind result_bind]. destruct routes as [|r0 rs]; [done|].
  rewrite Hfix. cbn [mbind result_bind].
  unfold dict_update. cbn [foldl fst snd].
  by rewrite (dict_set_id _ _ _ Hsn), (dict_set_id _ _ _ Hd), (dict_set_id _ _ _ Hv),
    (dict_set_id _ _ _ Hci), (dict_set_id _ _ _ Hslug), (dict_set_id _ _ _ Hroutes),
    (dict_set_id _ _ _ Hport).
Qed.

Lemma routes_result_fixed {rt_ok : BuiltinsOk rt} sn routes nroutes :
  routes_result sn routes = Ok nroutes ->
  nroutes <> [] /\ normalize_routes 0 nroutes = Ok nroutes.
Proof.
  destruct routes as [|r0 rs]; cbn [routes_result].
  - intros [= <-]. split; [done|]. cbn [normalize_routes].
    by rewrite default_route_fixed.
  - intros Hn. split; [|by eapply normalize_routes_idempotent].
    apply normalize_routes_length in Hn. by destruct nroutes.
Qed.

Lemma normalize_routes_identifier index routes vs :
  normalize_routes index routes = Ok vs -> Forall identifier_from_name vs.
Proof.
  revert index vs. induction routes as [|r rs IH]; intros index vs.
  - intros [= <-]. constructor.
  - cbn [normalize_routes].
    destruct (normalize_route index r) as [v|e] eqn:Hr; [|done]. cbn [mbind result_bind].
    destruct (normalize_routes (S index) rs) as [vs'|e] eqn:Hrs; [|done].
    intros [= <-]. constructor; [|by eapply IH].
    apply normalize_route_inv in Hr as (d & st & -> & _ & _ & _ & _ & ->).
    eexists _, _. split; [reflexivity|]. split; [reflexivity|].
    cbn [dict_lookup]. change (String.eqb "identifier" "name") with false.
    change (String.eqb "identifier" "identifier") with true.
    cbv iota. by rewrite route_identifier_eq.
Qed.

Lemma routes_result_identifier sn routes nroutes :
  routes_result sn routes = Ok nroutes -> Forall identifier_from_name nroutes.
Proof.
  destruct routes as [|r0 rs]; cbn [routes_result].
  - intros [= <-]. constructor; [|constructor].
    eexists _, "root". split; [reflexivity|]. split; reflexivity.
  - apply normalize_routes_identifier.
Qed.

Lemma normalize_route_unsupported index route :
  route_method route ∉ _ALLOWED_METHODS ->
  normalize_route index (VDict route) = Raise (unsupported_method_error (route_method route)).
Proof.
  intros Hm. cbn [normalize_route]. by rewrite bool_decide_eq_false_2.
Qed.

Lemma normalize_routes_reach index before route after vs :
  normalize_routes index before = Ok vs ->
  route_method route ∉ _ALLOWED_METHODS ->
  normalize_routes index (before ++ VDict route :: after)
  = Raise (unsupported_method_error (route_method route)).
Proof.
  revert index vs. induction before as [|r rs IH]; intros index vs.
  - intros _ Hm. cbn [app normalize_routes]. by rewrite normalize_route_unsupported.
  - cbn [app normalize_routes].
    destruct (normalize_route index r) as [v|e]; [|done]. cbn [mbind result_bind].
    destruct (normalize_routes (S index) rs) as [vs'|e] eqn:Hrs; [|done].
    intros _ Hm. by rewrite (IH _ _ Hrs Hm).
Qed.

Lemma normalize_routes_fail index before route after :
  route_method route ∉ _ALLOWED_METHODS ->
  exists e, normalize_routes index (before ++ VDict route :: after) = Raise e.
Proof.
  intros Hm. destruct (normalize_routes index before) as [vs|e] eqn:Hb.
  - eexists. by eapply normalize_routes_reach.
  - revert index e Hb. induction before as [|r rs IH]; intros index e; [done|].
    cbn [app normalize_routes].
    destruct (normalize_route index r) as [v|e']; [|by eexists]. cbn [mbind result_bind].
    destruct (normalize_routes (S index) rs) as [vs'|e'] eqn:Hrs; [done|].
    intros _. destruct (IH _ _ Hrs) as [e2 ->]. by eexists.
Qed.
End Validation.

(** ** Sequencing *)

Lemma M_bind_ok {S A B} (m : M S A) (k : A -> M S B) s a s' :
  m s = (Ok a, s') -> (m ≫= k) s = k a s'.
Proof. unfold mbind, M_bind. by intros ->. Qed.

Lemma M_bind_raise {S A B} (m : M S A) (k : A -> M S B) s e s' :
  m s = (Raise e, s') -> (m ≫= k) s = (Raise e, s').
Proof. unfold mbind, M_bind. by intros ->. Qed.

Lemma M_bind_lift_ok {S A B} (r : result A) (k : A -> M S B) s a :
  r = Ok a -> (lift r ≫= k) s = k a s.
Proof. intros ->. by apply M_bind_ok. Qed.

Lemma M_bind_lift_raise {S A B} (r : result A) (k : A -> M S B) s e :
  r = Raise e -> (lift r ≫= k) s = (Raise e, s).
Proof. intros ->. by apply M_bind_raise. Qed.

Lemma M_bind_ret {S A B} (a : A) (k : A -> M S B) s : (mret a ≫= k) s = k a s.
Proof. by apply M_bind_ok. Qed.

Lemma M_bind_get_state {S B} (k : S -> M S B) s : (get_state ≫= k) s = k s s.
Proof. by apply M_bind_ok. Qed.

(** ** The file system *)

Lemma prefixes_snoc (p : path) x : prefixes (p ++ [x]) = prefixes p ++ [p ++ [x]].
Proof.
  induction p as [|c r IH]; [done|]. simpl. by rewrite IH, map_app.
Qed.

Lemma elem_of_prefixes (q p : path) :
  q ∈ prefixes p <-> q <> [] /\ q `prefix_of` p.
Proof.
  revert q. induction p as [|c r IH]; intros q; simpl.
  - rewrite elem_of_nil. split; [done|]. intros [Hq [k Hk]].
    symmetry in Hk. by apply app_eq_nil in Hk as [? _].
  - rewrite elem_of_cons, list_elem_of_fmap. split.
    + intros [->|(q' & -> & Hq')]; [split; [done|]; by exists r|].
      apply IH in Hq' as [_ Hp]. split; [done|]. by apply prefix_cons.
    + intros [Hq [k Hk]]. destruct q as [|c' q']; [done|]. simplify_eq/=.
      destruct q' as [|c'' q'']; [by left|]. right. eexists. split; [done|].
      apply IH. split; [done|]. by eexists.
Qed.

Lemma not_elem_of_prefixes_app (pd l l' : path) :
  ¬ l `prefix_of` l' -> pd ++ l ∉ prefixes (pd ++ l').
Proof.
  intros Hn [_ [k Hk]]%elem_of_prefixes. apply Hn. exists k.
  rewrite <- (assoc_L (++)) in Hk. by apply app_inv_head in Hk.
Qed.

Lemma path_parent_snoc (p : path) x : path_parent (p ++ [x]) = p.
Proof. apply removelast_last. Qed.

Lemma node_at_lookup (f : fs) p : p <> [] -> node_at f p = f !! p.
Proof. by destruct p. Qed.

Lemma fs_wf_absent f p q :
  fs_wf f -> p <> [] -> f !! p = None -> f !! (p ++ q) = None.
Proof.
  intros Hwf Hp Hnone. induction q as [|x q IH] using rev_ind.
  - by rewrite app_nil_r.
  - destruct (f !! (p ++ q ++ [x])) as [n|] eqn:Hl; [|done].
    apply Hwf in Hl. simpl in Hl.
    rewrite (assoc_L (++)), path_parent_snoc in Hl.
    unfold is_dir in Hl. rewrite node_at_lookup in Hl by by destruct p.
    by rewrite IH in Hl.
Qed.

Lemma make_dirs_lookup f p q :
  make_dirs f p !! q =
  match f !! q with
  | Some n => Some n
  | None => if bool_decide (q ∈ prefixes p) then Some Dir else None
  end.
Proof.
  unfold make_dirs. generalize (prefixes p) as l. intros l. revert f.
  induction l as [|a l IH]; intros f; cbn [foldl].
  - destruct (f !! q); [done|]. by rewrite bool_decide_eq_false_2 by set_solver.
  - destruct (f !! a) as [n|] eqn:Ha; rewrite IH.
    + destruct (f !! q) eqn:Hq; [done|].
      assert (q <> a) by congruence.
      rewrite (bool_decide_ext (q ∈ a :: l) (q ∈ l)); [done|].
      rewrite elem_of_cons. split; [by intros [?|?]|by right].
    + destruct (decide (a = q)) as [->|Hne].
      * rewrite lookup_insert_eq, Ha. by rewrite bool_decide_eq_true_2 by set_solver.
      * rewrite lookup_insert_ne by done. destruct (f !! q); [done|].
        rewrite (bool_decide_ext (q ∈ a :: l) (q ∈ l)); [done|].
      rewrite elem_of_cons. split; [by intros [?|?]|by right].
Qed.

Lemma make_dirs_lookup_other f p q : q ∉ prefixes p -> make_dirs f p !! q = f !! q.
Proof.
  intros Hq. rewrite make_dirs_lookup. destruct (f !! q); [done|].
  by rewrite bool_decide_eq_false_2.
Qed.

Lemma make_dirs_preserves f p q n : f !! q = Some n -> make_dirs f p !! q = Some n.
Proof. intros Hq. by rewrite make_dirs_lookup, Hq. Qed.

Lemma make_dirs_id f p : dir_chain f p -> make_dirs f p = f.
Proof.
  intros Hc. apply map_eq. intros q. rewrite make_dirs_lookup.
  destruct (f !! q) eqn:Hq; [done|]. case_bool_decide as Hin; [|done].
  unfold dir_chain in Hc. rewrite Forall_forall in Hc. apply Hc in Hin. congruence.
Qed.

Lemma no_file_prefix f p :
  existsb (is_file f) (prefixes p) = false <-> Forall (fun q => is_file f q = false) (prefixes p).
Proof.
  generalize (prefixes p) as l. intros l.
  induction l as [|a l IH]; simpl; [by split; [constructor|]|].
  rewrite orb_false_iff, Forall_cons, IH. done.
Qed.

Lemma dir_chain_no_file f p : dir_chain f p -> existsb (is_file f) (prefixes p) = false.
Proof.
  intros Hc. apply no_file_prefix. eapply Forall_impl; [exact Hc|].
  intros q Hq. unfold is_file. destruct q; [done|]. simpl. by rewrite Hq.
Qed.

Lemma dir_chain_is_dir f p : dir_chain f p -> is_dir f p = true.
Proof.
  induction p as [|c r _] using rev_ind; [done|].
  unfold dir_chain. rewrite prefixes_snoc, Forall_app, Forall_singleton.
  intros [_ Hp]. unfold is_dir. rewrite node_at_lookup by by destruct r.
  by rewrite Hp.
Qed.

Lemma dir_chain_parent f p : dir_chain f p -> dir_chain f (path_parent p).
Proof.
  induction p as [|c r _] using rev_ind; [done|].
  rewrite path_parent_snoc. unfold dir_chain. rewrite prefixes_snoc, Forall_app.
  by intros [? _].
Qed.

Lemma make_dirs_chain f p :
  existsb (is_file f) (prefixes p) = false -> dir_chain (make_dirs f p) p.
Proof.
  intros Hn%no_file_prefix. unfold dir_chain. rewrite Forall_forall in Hn |- *.
  intros q Hq. rewrite make_dirs_lookup. specialize (Hn q Hq).
  unfold is_file in Hn. assert (q <> []) by (apply elem_of_prefixes in Hq; tauto).
  rewrite node_at_lookup in Hn by done.
  destruct (f !! q) as [[]|]; [done|done|]. by rewrite bool_decide_eq_true_2.
Qed.

Lemma dir_chain_make_dirs f p q : dir_chain f q -> dir_chain (make_dirs f p) q.
Proof.
  unfold dir_chain. intros Hc. eapply Forall_impl; [exact Hc|].
  intros r Hr. by apply make_dirs_preserves.
Qed.

Lemma dir_chain_insert_file f p t c :
  f !! t <> Some Dir -> dir_chain f p -> dir_chain (<[t := File c]> f) p.
Proof.
  intros Ht. unfold dir_chain. intros Hc. eapply Forall_impl; [exact Hc|].
  intros q Hq. rewrite lookup_insert_ne; [done|]. congruence.
Qed.

(** [mkdir] succeeds when no component of the path is a regular file. *)
Lemma mkdir_parents_ok f p :
  existsb (is_file f) (prefixes p) = false ->
  mkdir_parents p f = (Ok tt, make_dirs f p).
Proof.
  intros Hn. unfold mkdir_parents. induction p as [|c r _] using rev_ind; [done|].
  rewrite path_parent_snoc. rewrite prefixes_snoc, existsb_app in Hn.
  apply orb_false_iff in Hn as [-> Hp]. simpl in Hp. rewrite orb_false_r in Hp.
  by rewrite Hp.
Qed.

Lemma mkdir_parents_chain f p : dir_chain f p -> mkdir_parents p f = (Ok tt, f).
Proof.
  intros Hc. rewrite mkdir_parents_ok by by apply dir_chain_no_file.
  by rewrite make_dirs_id.
Qed.

(** Writing a file into a directory that is there *)
Lemma write_text_chain f t c :
  t <> [] -> dir_chain f (path_parent t) -> f !! t <> Some Dir ->
  write_text t c f = (Ok tt, <[t := File c]> f).
Proof.
  intros Ht Hc Hn. unfold write_text.
  rewrite (M_bind_ok _ _ _ _ _ (mkdir_parents_chain _ _ Hc)). unfold path_write_text.
  rewrite (dir_chain_no_file _ _ Hc), (dir_chain_is_dir _ _ Hc). cbn [negb].
  unfold is_dir. rewrite node_at_lookup by done.
  destruct (f !! t) as [[]|]; done.
Qed.

(** ** Normalised documents *)

Lemma rmap_ok {A B} (f : A -> result B) (g : A -> B) l :
  Forall (fun x => f x = Ok (g x)) l -> rmap f l = Ok (map g l).
Proof.
  induction 1 as [|x l Hx _ IH]; [done|]. cbn [rmap map]. by rewrite Hx, IH.
Qed.

Lemma rmap_total {A B} (f : A -> result B) l :
  Forall (fun x => exists y, f x = Ok y) l -> exists ys, rmap f l = Ok ys.
Proof.
  induction 1 as [|x l [y Hx] _ [ys IH]]; [by eexists|].
  cbn [rmap]. rewrite Hx, IH. by eexists.
Qed.

Section Rendering.
Context {rt : Builtins} {layout : Layout}.

Import SimplePythonServiceTemplate.

Lemma normalize_routes_records index routes vs :
  normalize_routes index routes = Ok vs -> Forall is_route_record vs.
Proof.
  revert index vs. induction routes as [|r rs IH]; intros index vs.
  - intros [= <-]. constructor.
  - cbn [normalize_routes].
    destruct (normalize_route index r) as [v|e] eqn:Hr; [|done]. cbn [mbind result_bind].
    destruct (normalize_routes (S index) rs) as [vs'|e] eqn:Hrs; [|done].
    intros [= <-]. constructor; [|by eapply IH].
    apply normalize_route_inv in Hr as (d & st & -> & _ & _ & _ & _ & ->).
    by repeat eexists.
Qed.

Lemma validate_requirements_normalized requirements S :
  validate_requirements requirements = Ok S ->
  exists sn d v ci routes port, normalized_spec S sn d v ci routes port.
Proof.
  intros (routes & nroutes & port & _ & _ & _ & Hr & _ & ->)%validate_requirements_inv.
  eexists _, _, _, _, nroutes, port. unfold normalized_spec.
  destruct (dict_update_validated_lookup requirements
    (py_str (dict_get requirements "service_name" VNone))
    (py_str (dict_get requirements "description" VNone))
    (py_str (dict_get requirements "version" (VStr "0.1.0")))
    (py_str (py_or (dict_get requirements "container_image" VNone)
       (VStr (default_image (slugify (py_str (dict_get requirements "service_name" VNone)))
                (py_str (dict_get requirements "version" (VStr "0.1.0")))))))
    (slugify (py_str (dict_get requirements "service_name" VNone))) nroutes port)
    as (H1 & H2 & H3 & H4 & H5 & H6 & H7).
  repeat (split; [eassumption|]).
  destruct routes as [|r0 rs]; cbn [routes_result] in Hr.
  - injection Hr as <-. constructor; [|constructor]. by repeat eexists.
  - by eapply normalize_routes_records.
Qed.

Lemma getitem_lookup S k v : dict_lookup S k = Some v -> getitem S k = Ok v.
Proof. unfold getitem, subscript. by intros ->. Qed.

Lemma export_metadata_normalized S sn d v ci routes port :
  normalized_spec S sn d v ci routes port ->
  _export_metadata S = Ok (metadata_of sn d v ci routes).
Proof.
  intros (H1 & H2 & H3 & H4 & H5 & H6 & H7 & Hr). unfold _export_metadata.
  rewrite (getitem_lookup _ _ _ H1), (getitem_lookup _ _ _ H2),
    (getitem_lookup _ _ _ H3), (getitem_lookup _ _ _ H4), (getitem_lookup _ _ _ H6).
  cbn [mbind result_bind py_list].
  erewrite (rmap_ok _ route_summary); [done|].
  eapply Forall_impl; [exact Hr|]. by intros ? (n & i & m & p & st & resp & ->).
Qed.

Lemma render_routes_module_normalized S sn d v ci routes port :
  normalized_spec S sn d v ci routes port ->
  exists text, _render_routes_module S = Ok text.
Proof.
  intros (H1 & H2 & H3 & H4 & H5 & H6 & H7 & Hr). unfold _render_routes_module.
  rewrite (getitem_lookup _ _ _ H1), (getitem_lookup _ _ _ H6).
  cbn [mbind result_bind py_list].
  match goal with
  | |- context [rmap ?f ?l] => destruct (rmap_total f l) as [blocks ->]; [|by eexists]
  end.
  eapply Forall_impl; [exact Hr|].
  intros ? (n & i & m & p & st & resp & ->). by eexists.
Qed.

Lemma render_server_module_normalized S sn d v ci routes port :
  normalized_spec S sn d v ci routes port ->
  exists text, _render_server_module S = Ok text.
Proof.
  intros (H1 & H2 & H3 & H4 & H5 & H6 & H7 & Hr). unfold _render_server_module.
  rewrite (getitem_lookup _ _ _ H1), (getitem_lookup _ _ _ H7). by eexists.
Qed.
End Rendering.

(** ** Project generation *)

Lemma slug_char_not_slash c : slug_char c = true -> (code c =? code "/")%N = false.
Proof. char_cases c; vm_compute; congruence. Qed.

Lemma all_chars_app p s t :
  all_chars p (s +:+ t) = all_chars p s && all_chars p t.
Proof. induction s as [|c r IH]; simpl; [done|]. by rewrite IH, andb_assoc. Qed.

Lemma split_on_no_sep sep s :
  all_chars (fun c => negb (code c =? code sep)%N) s = true -> split_on sep s = [s].
Proof.
  induction s as [|c r IH]; [done|]. cbn [all_chars split_on].
  intros [Hc Hr]%andb_true_iff. apply negb_true_iff in Hc. by rewrite Hc, IH.
Qed.

Lemma append_length s t : String.length (s +:+ t) = (String.length s + String.length t)%nat.
Proof. induction s as [|c r IH]; simpl; [done|]. by rewrite IH. Qed.

Lemma resolve_step_long p part :
  (2 < String.length part)%nat -> resolve_step p part = p ++ [part].
Proof.
  intros Hl. unfold resolve_step.
  destruct (String.eqb_spec part "") as [->|_]; [simpl in Hl; lia|].
  destruct (String.eqb_spec part ".") as [->|_]; [simpl in Hl; lia|].
  destruct (String.eqb_spec part "..") as [->|_]; [simpl in Hl; lia|]. done.
Qed.

(** A project named by a slug is generated right below the destination. *)
Lemma project_dir_of_slug {rt : Builtins} dest s :
  all_chars slug_char s = true ->
  SimplePythonServiceTemplate.project_dir_of dest (VStr s) = dest ++ [s +:+ "-service"].
Proof.
  intros Hs. unfold SimplePythonServiceTemplate.project_dir_of, path_join_resolve.
  cbn [py_str].
  assert (all_chars (fun c => negb (code c =? code "/")%N) (s +:+ "-service") = true) as Hns.
  { rewrite all_chars_app. apply andb_true_iff. split; [|done].
    revert Hs. apply all_chars_impl. intros c Hc. by rewrite slug_char_not_slash. }
  rewrite (split_on_no_sep _ _ Hns). cbn [foldl].
  assert (startswith (s +:+ "-service") "/" = false) as ->.
  { destruct s as [|c r]; [done|]. cbn [all_chars] in Hs.
    apply andb_true_iff in Hs as [Hc _]. apply slug_char_not_slash in Hc.
    change (String c r +:+ "-service") with (String c (r +:+ "-service")).
    cbn [startswith]. by rewrite N.eqb_sym, Hc. }
  apply resolve_step_long. rewrite append_length. simpl. lia.
Qed.

Lemma gen_inv_project_dir pd f : gen_inv pd f -> dir_chain f pd.
Proof.
  intros (Ha & _). apply dir_chain_parent in Ha.
  unfold path_child in Ha. by rewrite path_parent_snoc in Ha.
Qed.

Lemma gen_inv_write pd f t c :
  gen_inv pd f -> t ∈ project_targets pd ->
  write_text t c f = (Ok tt, <[t := File c]> f) /\ gen_inv pd (<[t := File c]> f).
Proof.
  intros Hinv Ht. pose proof (gen_inv_project_dir _ _ Hinv) as Hpd.
  destruct Hinv as (Ha & Hte & Hk & Hf).
  assert (f !! t <> Some Dir) as Hnd by (rewrite Forall_forall in Hf; by apply Hf).
  split.
  - unfold project_targets in Ht. rewrite !elem_of_cons, elem_of_nil in Ht.
    unfold path_child in *.
    destruct Ht as [->|[->|[->|[->|[->|[->|[->|[->|[->|[->|[]]]]]]]]]]];
      (apply write_text_chain; [by destruct pd| by rewrite path_parent_snoc |done]).
  - repeat split; try by apply dir_chain_insert_file.
    eapply Forall_impl; [exact Hf|]. intros t' Ht'.
    destruct (decide (t = t')) as [->|Hne].
    + by rewrite lookup_insert_eq.
    + by rewrite lookup_insert_ne.
Qed.

Lemma fresh_after_mkdirs f pd l :
  fs_wf f -> pd <> [] -> f !! pd = None ->
  ¬ l `prefix_of` ["app"] -> ¬ l `prefix_of` ["tests"] -> ¬ l `prefix_of` ["k8s"] ->
  make_dirs (make_dirs (make_dirs f (pd ++ ["app"])) (pd ++ ["tests"])) (pd ++ ["k8s"])
    !! (pd ++ l) = None.
Proof.
  intros Hwf Hpd Hnone H1 H2 H3.
  rewrite !make_dirs_lookup_other by by apply not_elem_of_prefixes_app.
  by apply fs_wf_absent.
Qed.

Lemma is_file_absent (f : fs) p : f !! p = None -> is_file f p = false.
Proof. unfold is_file. destruct p; [done|]. simpl. by intros ->. Qed.

(** The three directories of a fresh project are created. *)
Lemma gen_inv_init f dest x :
  let pd := dest ++ [x] in
  fs_wf f -> existsb (is_file f) (prefixes dest) = false -> f !! pd = None ->
  exists f1 f2 f3,
    mkdir_parents (path_child pd "app") f = (Ok tt, f1)
    /\ mkdir_parents (path_child pd "tests") f1 = (Ok tt, f2)
    /\ mkdir_parents (path_child pd "k8s") f2 = (Ok tt, f3)
    /\ gen_inv pd f3.
Proof.
  intros pd Hwf Hdest Hnone. unfold path_child.
  assert (pd <> []) as Hpd by (subst pd; by destruct dest).
  assert (forall l, f !! (pd ++ l) = None) as Habs by (intros; by apply fs_wf_absent).
  assert (existsb (is_file f) (prefixes (pd ++ ["app"])) = false) as H1.
  { subst pd. rewrite !prefixes_snoc, !existsb_app, Hdest. simpl.
    by rewrite !is_file_absent. }
  pose proof (make_dirs_chain _ _ H1) as Hc1.
  assert (dir_chain (make_dirs f (pd ++ ["app"])) pd) as Hpd1.
  { apply dir_chain_parent in Hc1. by rewrite path_parent_snoc in Hc1. }
  assert (existsb (is_file (make_dirs f (pd ++ ["app"]))) (prefixes (pd ++ ["tests"])) = false)
    as H2.
  { rewrite prefixes_snoc, existsb_app, (dir_chain_no_file _ _ Hpd1). simpl.
    rewrite is_file_absent; [done|].
    rewrite make_dirs_lookup_other; [done|].
    apply not_elem_of_prefixes_app. intros [k Hk]. simplify_eq. }
  pose proof (make_dirs_chain _ _ H2) as Hc2.
  assert (dir_chain (make_dirs (make_dirs f (pd ++ ["app"])) (pd ++ ["tests"])) pd) as Hpd2.
  { apply dir_chain_parent in Hc2. by rewrite path_parent_snoc in Hc2. }
  assert (existsb (is_file (make_dirs (make_dirs f (pd ++ ["app"])) (pd ++ ["tests"])))
            (prefixes (pd ++ ["k8s"])) = false) as H3.
  { rewrite prefixes_snoc, existsb_app, (dir_chain_no_file _ _ Hpd2). simpl.
    rewrite is_file_absent; [done|].
    rewrite !make_dirs_lookup_other; [done|..];
      apply not_elem_of_prefixes_app; intros [k Hk]; simplify_eq. }
  pose proof (make_dirs_chain _ _ H3) as Hc3.
  eexists _, _, _. split; [by apply mkdir_parents_ok|].
  split; [by apply mkdir_parents_ok|]. split; [by apply mkdir_parents_ok|].
  unfold gen_inv, path_child. split; [by do 2 apply dir_chain_make_dirs|].
  split; [by apply dir_chain_make_dirs|]. split; [done|].
  unfold project_targets, path_child. rewrite <- !(assoc_L (++)). simpl.
  repeat (apply Forall_cons; split;
    [rewrite fresh_after_mkdirs; [done|done..| | |]; intros [k Hk]; simplify_eq|]).
  constructor.
Qed.

Section Generation.
Context {rt : Builtins} {layout : Layout}.

Import SimplePythonServiceTemplate.

Local Ltac target := unfold project_targets; rewrite !elem_of_cons; tauto.

(** One write of a project file, keeping the invariant. *)
Local Ltac write_step Hinv t c :=
  let Hw := fresh "Hw" in
  let Hinv' := fresh "Hinv" in
  destruct (gen_inv_write _ _ t c Hinv ltac:(target)) as [Hw Hinv'];
  rewrite (M_bind_ok _ _ _ _ _ Hw) || rewrite Hw;
  clear Hw Hinv; rename Hinv' into Hinv; cbv beta.

Lemma write_app_package_ok pd S sn d v ci routes port f :
  normalized_spec S sn d v ci routes port -> gen_inv pd f ->
  exists f', _write_app_package (path_child pd "app") S f = (Ok tt, f') /\ gen_inv pd f'.
Proof.
  intros Hn Hinv. unfold _write_app_package.
  destruct (render_routes_module_normalized _ _ _ _ _ _ _ Hn) as [t1 Ht1].
  destruct (render_server_module_normalized _ _ _ _ _ _ _ Hn) as [t2 Ht2].
  destruct Hn as (H1 & H2 & H3 & H4 & H5 & H6 & H7 & Hr).
  rewrite (getitem_lookup _ _ _ H1), (getitem_lookup _ _ _ H2), (getitem_lookup _ _ _ H3).
  cbn [mbind result_bind]. rewrite M_bind_lift_ok with (a := app_init_text d sn v) by done.
  write_step Hinv (path_child (path_child pd "app") "__init__.py") (app_init_text d sn v).
  rewrite (M_bind_lift_ok _ _ _ _ Ht1).
  write_step Hinv (path_child (path_child pd "app") "routes.py") t1.
  rewrite (M_bind_lift_ok _ _ _ _ Ht2).
  write_step Hinv (path_child (path_child pd "app") "server.py") t2.
  by eexists.
Qed.

Lemma write_tests_ok pd S f :
  gen_inv pd f ->
  exists f', _write_tests (path_child pd "tests") S f = (Ok tt, f') /\ gen_inv pd f'.
Proof.
  intros Hinv. unfold _write_tests, _render_tests.
  write_step Hinv (path_child (path_child pd "tests") "__init__.py") "".
  rewrite M_bind_lift_ok with (a := tests_module_text) by done.
  write_step Hinv (path_child (path_child pd "tests") "test_routes.py") tests_module_text.
  by eexists.
Qed.

Lemma write_project_readme_ok pd S sn d v ci routes port f :
  normalized_spec S sn d v ci routes port -> gen_inv pd f ->
  exists f', _write_project_readme pd S f = (Ok tt, f') /\ gen_inv pd f'.
Proof.
  intros (H1 & H2 & H3 & H4 & H5 & H6 & H7 & Hr) Hinv. unfold _write_project_readme.
  rewrite (getitem_lookup _ _ _ H1), (getitem_lookup _ _ _ H2),
    (getitem_lookup _ _ _ H4), (getitem_lookup _ _ _ H6).
  cbn [mbind result_bind py_list].
  match goal with
  | |- context [rmap ?g ?l] => destruct (rmap_total g l) as [section Hs]
  end.
  { eapply Forall_impl; [exact Hr|].
    intros ? (n & i & m & p & st & resp & ->). by eexists. }
  rewrite Hs. cbn [mbind result_bind py_str].
  rewrite M_bind_lift_ok with (a := readme_text sn d section ci) by done.
  write_step Hinv (path_child pd "README.md") (readme_text sn d section ci).
  by eexists.
Qed.

Lemma write_dockerfile_ok pd f :
  gen_inv pd f ->
  exists f', _write_dockerfile pd f = (Ok tt, f') /\ gen_inv pd f'.
Proof.
  intros Hinv. unfold _write_dockerfile.
  write_step Hinv (path_child pd "Dockerfile") dockerfile_text.
  by eexists.
Qed.

Lemma write_k8s_manifests_ok pd S sn d v ci routes port f :
  normalized_spec S sn d v ci routes port -> gen_inv pd f ->
  exists f', _write_k8s_manifests (path_child pd "k8s") S f = (Ok tt, f') /\ gen_inv pd f'.
Proof.
  intros (H1 & H2 & H3 & H4 & H5 & H6 & H7 & Hr) Hinv. unfold _write_k8s_manifests.
  rewrite (getitem_lookup _ _ _ H4), (getitem_lookup _ _ _ H5), (getitem_lookup _ _ _ H7).
  cbn [mbind result_bind py_str].
  erewrite M_bind_lift_ok by done. cbn [fst snd].
  write_step Hinv (path_child (path_child pd "k8s") "deployment.yaml")
    (deployment_manifest_text (slugify sn) ci (string_of_Z port)).
  write_step Hinv (path_child (path_child pd "k8s") "service.yaml")
    (service_manifest_text (slugify sn) (string_of_Z port)).
  by eexists.
Qed.

(** Generation from a normalised document, into a destination that can
    hold it and where the project is not there yet, succeeds: it returns
    the project directory, which then exists, and the metadata file holds
    the metadata of the document. *)
Lemma generate_project_normalized S sn d v ci routes port dest f :
  let pd := dest ++ [slugify sn +:+ "-service"] in
  normalized_spec S sn d v ci routes port ->
  fs_wf f -> existsb (is_file f) (prefixes dest) = false -> f !! pd = None ->
  exists f',
    generate_project S dest f = (Ok pd, f')
    /\ f' !! path_child pd "project-metadata.json"
       = Some (File (json_dumps (Some 2%nat) (metadata_of sn d v ci routes) +:+ nl))
    /\ dir_chain f' pd.
Proof.
  intros pd Hn Hwf Hdest Hnone. unfold generate_project.
  pose proof Hn as (H1 & H2 & H3 & H4 & H5 & H6 & H7 & Hr).
  rewrite (dict_mem_lookup _ _ _ H5), M_bind_ret.
  rewrite (M_bind_lift_ok _ _ _ _ (getitem_lookup _ _ _ H5)).
  rewrite project_dir_of_slug.
  2:{ pose proof (slugify_is_slug sn) as Hs. unfold is_slug in Hs.
      repeat match goal with H : _ && _ = true |- _ => apply andb_true_iff in H as [H ?] end.
      done. }
  fold pd. rewrite M_bind_get_state.
  assert (path_exists f pd = false) as ->.
  { unfold path_exists. rewrite node_at_lookup by (subst pd; by destruct dest).
    by rewrite Hnone. }
  destruct (gen_inv_init f dest _ Hwf Hdest Hnone) as (f1 & f2 & f3 & Hm1 & Hm2 & Hm3 & Hinv).
  fold pd in Hm1, Hm2, Hm3, Hinv.
  rewrite (M_bind_ok _ _ _ _ _ Hm1), (M_bind_ok _ _ _ _ _ Hm2), (M_bind_ok _ _ _ _ _ Hm3).
  destruct (write_app_package_ok _ _ _ _ _ _ _ _ _ Hn Hinv) as (f4 & Hw4 & Hinv4).
  rewrite (M_bind_ok _ _ _ _ _ Hw4).
  destruct (write_tests_ok pd S _ Hinv4) as (f5 & Hw5 & Hinv5).
  rewrite (M_bind_ok _ _ _ _ _ Hw5).
  destruct (write_project_readme_ok _ _ _ _ _ _ _ _ _ Hn Hinv5) as (f6 & Hw6 & Hinv6).
  rewrite (M_bind_ok _ _ _ _ _ Hw6).
  destruct (write_dockerfile_ok _ _ Hinv6) as (f7 & Hw7 & Hinv7).
  rewrite (M_bind_ok _ _ _ _ _ Hw7).
  destruct (write_k8s_manifests_ok _ _ _ _ _ _ _ _ _ Hn Hinv7) as (f8 & Hw8 & Hinv8).
  rewrite (M_bind_ok _ _ _ _ _ Hw8).
  rewrite (M_bind_lift_ok _ _ _ _ (export_metadata_normalized _ _ _ _ _ _ _ Hn)).
  unfold write_json.
  destruct (gen_inv_write _ _ (path_child pd "project-metadata.json")
              (json_dumps (Some 2%nat) (metadata_of sn d v ci routes) +:+ nl) Hinv8
              ltac:(target)) as [Hw9 Hinv9].
  rewrite (M_bind_ok _ _ _ _ _ Hw9).
  eexists. split; [reflexivity|]. split; [by rewrite lookup_insert_eq|].
  by apply gen_inv_project_dir.
Qed.
End Generation.

(** ** Directories are never removed *)

Lemma keeps_dirs_ret {A} (a : A) : keeps_dirs (mret a).
Proof. intros f r f' q [= _ <-]. done. Qed.

Lemma keeps_dirs_lift {A} (r : result A) : keeps_dirs (lift r).
Proof. intros f r' f' q [= _ <-]. done. Qed.

Lemma keeps_dirs_bind {A B : Type} (m : M fs A) (k : A -> M fs B) :
  keeps_dirs m -> (forall a, keeps_dirs (k a)) -> keeps_dirs (m ≫= k).
Proof.
  intros Hm Hk f r f' q. unfold mbind, M_bind.
  destruct (m f) as [[a|e] f1] eqn:Hmf.
  - intros Hka Hq. eapply Hk; [exact Hka|]. by eapply Hm.
  - intros [= _ <-] Hq. by eapply Hm.
Qed.

Lemma keeps_dirs_mkdir_parents p : keeps_dirs (mkdir_parents p).
Proof.
  intros f r f' q. unfold mkdir_parents.
  repeat case_match; intros [= _ <-]; try done. apply make_dirs_preserves.
Qed.

Lemma keeps_dirs_path_write_text p c : keeps_dirs (path_write_text p c).
Proof.
  intros f r f' q. unfold path_write_text.
  repeat case_match; intros [= _ <-]; try done.
  intros Hq. rewrite lookup_insert_ne; [done|]. intros ->.
  unfold is_dir in *. destruct q; [done|]. simpl in *.
  by match goal with H : match f !! _ with _ => _ end = false |- _ => rewrite Hq in H end.
Qed.

Lemma keeps_dirs_write_text p c : keeps_dirs (write_text p c).
Proof.
  apply keeps_dirs_bind; [apply keeps_dirs_mkdir_parents|].
  intros _. apply keeps_dirs_path_write_text.
Qed.

Section GenerationShape.
Context {rt : Builtins} {layout : Layout}.

Import SimplePythonServiceTemplate.

Local Ltac keeps :=
  repeat first
    [ apply keeps_dirs_write_text
    | apply keeps_dirs_mkdir_parents
    | apply keeps_dirs_lift
    | apply keeps_dirs_ret
    | apply keeps_dirs_bind; [|intros ?] ].

Lemma keeps_dirs_write_app_package d S : keeps_dirs (_write_app_package d S).
Proof. unfold _write_app_package. keeps. Qed.

Lemma keeps_dirs_write_tests d S : keeps_dirs (_write_tests d S).
Proof. unfold _write_tests. keeps. Qed.

Lemma keeps_dirs_write_project_readme d S : keeps_dirs (_write_project_readme d S).
Proof. unfold _write_project_readme. keeps. Qed.

Lemma keeps_dirs_write_dockerfile d : keeps_dirs (_write_dockerfile d).
Proof. unfold _write_dockerfile. keeps. Qed.

Lemma keeps_dirs_write_k8s_manifests d S : keeps_dirs (_write_k8s_manifests d S).
Proof. unfold _write_k8s_manifests. keeps. Qed.

Lemma effective_spec_slug requirements spec :
  effective_spec requirements = Ok spec -> exists slug, dict_lookup spec "slug" = Some slug.
Proof.
  unfold effective_spec. destruct (dict_mem "slug" requirements) eqn:Hm.
  - intros [= <-]. destruct (dict_lookup requirements "slug") eqn:Hl; [by eexists|].
    apply dict_mem_lookup_None in Hl. congruence.
  - intros (sn & d & v & ci & routes & port & Hn)%validate_requirements_normalized.
    destruct Hn as (_ & _ & _ & _ & H5 & _). by eexists.
Qed.

(** The shape of [generate_project]: the existence check, then the
    creation of the first directory, then steps that keep directories. *)
Lemma generate_project_shape requirements spec slug destination :
  effective_spec requirements = Ok spec -> dict_lookup spec "slug" = Some slug ->
  let project_dir := project_dir_of destination slug in
  exists tail : M fs path,
    keeps_dirs tail
    /\ forall f,
         generate_project requirements destination f =
         if path_exists f project_dir then (Raise (already_exists project_dir), f)
         else (mkdir_parents (path_child project_dir "app") ≫= fun _ => tail) f.
Proof.
  intros He Hslug project_dir. eexists. split; cycle 1.
  - intros f. unfold generate_project.
    assert ((if dict_mem "slug" requirements then mret requirements
             else lift (validate_requirements requirements)) f = (Ok spec, f)) as Hspec.
    { unfold effective_spec in He. destruct (dict_mem "slug" requirements).
      - by injection He as ->.
      - unfold lift. by rewrite He. }
    rewrite (M_bind_ok _ _ _ _ _ Hspec).
    rewrite (M_bind_lift_ok _ _ _ _ (getitem_lookup _ _ _ Hslug)).
    rewrite M_bind_get_state. fold project_dir.
    destruct (path_exists f project_dir); reflexivity.
  - keeps.
Qed.
End GenerationShape.

(** ** The sample runtime and the test suite *)

Lemma sample_builtins_ok : BuiltinsOk sample_builtins.
Proof.
  split. intros v. destruct v as [|[]|z|[m e|[]|]|s|l|d]; try done.
  - apply string_of_Z_nonempty.
  - simpl. pose proof (string_of_Z_nonempty m). by destruct (string_of_Z m).
Qed.

(** * The claims *)

(** C5: for every input string [s], [slugify] is idempotent, its result is
    lower-case, contains only characters of [a-z0-9-], neither starts nor
    ends with a dash, and an input made of symbols only, such as ["!!!"],
    gives ["project"]. *)
Theorem slugify_spec (s : string) :
  slugify (slugify s) = slugify s
  /\ lower (slugify s) = slugify s
  /\ all_chars slug_char (slugify s) = true
  /\ startswith (slugify s) "-" = false
  /\ endswith (slugify s) "-" = false
  /\ slugify "!!!" = "project"
  /\ (all_chars symbol_char s = true -> slugify s = "project").
Proof.
  pose proof (slugify_is_slug s) as Hs.
  split; [by apply is_slug_fixed|].
  unfold is_slug in Hs.
  repeat match goal with H : _ && _ = true |- _ => apply andb_true_iff in H as [H ?] end.
  split; [by apply lower_slug|]. split; [done|].
  split; [by apply head_ok_startswith|]. split; [by apply last_ok_endswith|].
  split; [reflexivity|]. apply slugify_all_symbols.
Qed.

Lemma slugify_spec_witness :
  all_chars symbol_char "?!*" = true /\ slugify "?!*" = "project".
Proof.
  split; [reflexivity|]. apply (slugify_spec "?!*"). reflexivity.
Defined.

Section Claims.
Context {rt : Builtins}.

Import SimplePythonServiceTemplate.

(** C10: [slugify] never returns the empty string, so in route
    normalisation [slugify(name).replace("-", "_")] is never empty, the
    fallback ["route_{index}"] is never taken, and the identifier of every
    normalised route is the slug of its name with dashes replaced by
    underscores (["project"] for a name made of symbols only). *)
Theorem route_identifier_never_falls_back :
  (forall s, slugify s <> "")
  /\ (forall s, replace_char "-" "_" (slugify s) <> "")
  /\ (forall index name,
        route_identifier index name = replace_char "-" "_" (slugify name))
  /\ (forall requirements S,
        validate_requirements requirements = Ok S ->
        exists routes,
          dict_lookup S "routes" = Some (VList routes)
          /\ Forall identifier_from_name routes)
  /\ (forall index name,
        all_chars symbol_char name = true -> route_identifier index name = "project").
Proof.
  split; [apply slugify_nonempty|].
  split; [intros s; apply replace_char_nonempty, slugify_nonempty|].
  split; [apply route_identifier_eq|]. split.
  - intros requirements S Hv.
    apply validate_requirements_inv in Hv as (routes & nroutes & port & _ & _ & _ & Hr & _ & ->).
    exists nroutes. split; [|by eapply routes_result_identifier].
    apply dict_update_validated_lookup.
  - intros index name Hn. by rewrite route_identifier_eq, slugify_all_symbols.
Qed.

(** C7: in route normalisation the method of a route defaults to ["GET"]
    and is upper-cased; a route whose upper-cased method is not one of
    GET, POST, PUT, DELETE is rejected with a [ValueError] whose message
    lists the allowed methods, and so is the document, at the latest when
    the loop reaches that route; a route with method ["PATCH"] is such a
    route.  The upper-cased method is [upper] of the text of the method:
    computed for ASCII text and the runtime's [str_upper] for any other, so
    that a method which Unicode case mapping turns into an allowed one is
    accepted, and the message echoes what the runtime gives. *)
Theorem unsupported_method_rejected :
  (forall route, dict_lookup route "method" = None -> route_method route = "GET")
  /\ (forall route m,
        dict_lookup route "method" = Some m -> route_method route = upper (py_str m))
  /\ (forall index route,
        route_method route ∉ _ALLOWED_METHODS ->
        normalize_route index (VDict route)
        = Raise (ValueError ("Unsupported HTTP method '" +:+ route_method route
                             +:+ "'. Allowed: DELETE, GET, POST, PUT")))
  /\ (forall index route v,
        normalize_route index (VDict route) = Ok v ->
        route_method route ∈ _ALLOWED_METHODS
        /\ exists d, v = VDict d /\ dict_lookup d "method" = Some (VStr (route_method route)))
  /\ (forall requirements before route after vs,
        dict_mem "service_name" requirements = true ->
        dict_mem "description" requirements = true ->
        dict_lookup requirements "routes" = Some (VList (before ++ VDict route :: after)) ->
        normalize_routes 0 before = Ok vs ->
        route_method route ∉ _ALLOWED_METHODS ->
        validate_requirements requirements
        = Raise (ValueError ("Unsupported HTTP method '" +:+ route_method route
                             +:+ "'. Allowed: DELETE, GET, POST, PUT")))
  /\ (forall requirements before route after,
        dict_lookup requirements "routes" = Some (VList (before ++ VDict route :: after)) ->
        route_method route ∉ _ALLOWED_METHODS ->
        exists e, validate_requirements requirements = Raise e)
  /\ (forall index route,
        dict_lookup route "method" = Some (VStr "PATCH") ->
        normalize_route index (VDict route)
        = Raise (ValueError "Unsupported HTTP method 'PATCH'. Allowed: DELETE, GET, POST, PUT")).
Proof.
  assert (forall requirements l,
    dict_lookup requirements "routes" = Some (VList l) -> l <> [] ->
    py_list (py_or (dict_get requirements "routes" VNone) (VList [])) = Ok l) as Hlist.
  { intros requirements l Hl Hne. rewrite (dict_get_lookup _ _ _ _ Hl).
    rewrite py_or_left; [done|]. by destruct l. }
  split; [|split; [|split; [|split; [|split; [|split]]]]].
  - intros route Hm. unfold route_method, dict_get. by rewrite Hm.
  - intros route m Hm. unfold route_method, dict_get. by rewrite Hm.
  - intros index route. apply normalize_route_unsupported.
  - intros index route v (d & st & [= <-] & Hm & _ & _ & _ & ->)%normalize_route_inv.
    split; [done|]. by eexists.
  - intros requirements before route after vs Hs Hd Hl Hb Hm.
    unfold validate_requirements. rewrite (ensure_fields_ok _ _ _ _ Hs Hd).
    cbn [mbind result_bind]. rewrite (Hlist _ _ Hl) by by destruct before.
    cbn [mbind result_bind].
    rewrite (normalize_routes_reach _ _ _ _ _ Hb Hm). by destruct before.
  - intros requirements before route after Hl Hm. unfold validate_requirements.
    destruct (BaseTemplate._ensure_fields _ _ _) as [[]|e]; [|by eexists].
    cbn [mbind result_bind]. rewrite (Hlist _ _ Hl) by by destruct before.
    cbn [mbind result_bind].
    destruct (normalize_routes_fail 0 before route after Hm) as [e He].
    rewrite He. destruct before; by eexists.
  - intros index route Hm.
    assert (route_method route = "PATCH") as Hp.
    { unfold route_method, dict_get. by rewrite Hm. }
    rewrite normalize_route_unsupported; rewrite Hp; [done|].
    unfold _ALLOWED_METHODS. rewrite !elem_of_cons, elem_of_nil.
    intros [?|[?|[?|[?|[]]]]]; done.
Qed.

(** C2: validation is idempotent: when it succeeds on a requirements
    mapping and returns the document [S], it succeeds on [S] and returns
    [S]. *)
Theorem validate_requirements_idempotent {rt_ok : BuiltinsOk rt} requirements S :
  validate_requirements requirements = Ok S ->
  validate_requirements S = Ok S.
Proof.
  intros (routes & nroutes & port & _ & _ & _ & Hr & _ & ->)%validate_requirements_inv.
  apply routes_result_fixed in Hr as [Hne Hfix].
  match goal with
  | |- validate_requirements (dict_update _ (validated_items ?sn ?d ?v ?ci ?slug _ _)) = _ =>
      destruct (dict_update_validated_lookup requirements sn d v ci slug nroutes port)
        as (H1 & H2 & H3 & H4 & H5 & H6 & H7)
  end.
  eapply validate_requirements_fixed; try eassumption.
  by apply py_str_or_nonempty.
Qed.
End Claims.

Lemma route_identifier_never_falls_back_witness :
  SimplePythonServiceTemplate.route_identifier 3 "?!*" = "project".
Proof.
  apply (route_identifier_never_falls_back (rt := sample_builtins)). reflexivity.
Defined.

Lemma unsupported_method_rejected_witness :
  SimplePythonServiceTemplate.normalize_route (rt := sample_builtins) 0
    (VDict [("name", VStr "update"); ("method", VStr "patch"); ("path", VStr "/items")])
  = Raise (ValueError "Unsupported HTTP method 'PATCH'. Allowed: DELETE, GET, POST, PUT").
Proof.
  destruct (unsupported_method_rejected (rt := sample_builtins)) as (_ & _ & Hreject & _).
  apply (Hreject 0%nat [("name", VStr "update"); ("method", VStr "patch");
                        ("path", VStr "/items")]).
  apply (bool_decide_eq_false_1 _). vm_compute. reflexivity.
Defined.

Lemma validate_requirements_idempotent_witness :
  exists S,
    SimplePythonServiceTemplate.validate_requirements (rt := sample_builtins)
      inventory_requirements = Ok S
    /\ SimplePythonServiceTemplate.validate_requirements (rt := sample_builtins) S = Ok S.
Proof.
  eexists. split; [vm_compute; reflexivity|].
  apply (validate_requirements_idempotent (rt_ok := sample_builtins_ok) inventory_requirements).
  vm_compute. reflexivity.
Defined.

Section ManagerClaims.
Context {rt : Builtins} {layout : Layout}.

(** C9: a template manager built with an explicitly empty registry is not
    empty: the empty mapping is discarded and the manager falls back to
    [TEMPLATE_REGISTRY], so that [list_templates] yields the built-in
    template and [get_template "simple-python-service"] succeeds. *)
Theorem empty_registry_falls_back :
  TemplateManager.init (Some []) = TemplateManager.init None
  /\ TemplateManager._registry (TemplateManager.init (Some [])) = TEMPLATE_REGISTRY
  /\ TemplateManager.list_templates (TemplateManager.init (Some []))
     = [{| info_name := "simple-python-service";
           info_description :=
             "Lightweight Python service using the standard library HTTP server.";
           info_version := Some "1.0.0" |}]
  /\ TemplateManager.get_template (TemplateManager.init (Some [])) "simple-python-service"
     = Ok SimplePythonServiceTemplate.cls.
Proof. repeat split. Qed.
End ManagerClaims.

(** ** The pipeline *)

Lemma on_files_ok {A} (m : M fs A) w a f :
  m (files w) = (Ok a, f) -> on_files m w = (Ok a, {| files := f; proc_log := proc_log w |}).
Proof. unfold on_files. by intros ->. Qed.

Lemma on_files_raise {A} (m : M fs A) w e f :
  m (files w) = (Raise e, f) ->
  on_files m w = (Raise e, {| files := f; proc_log := proc_log w |}).
Proof. unfold on_files. by intros ->. Qed.

Section PipelineClaims.
Context {rt : Builtins} {layout : Layout} {host : Host}.

Import K8sAutoDevPlatform.

(** What a run that gets past generation does: the tests run iff asked
    for, and the deployer runs iff the gate is open. *)
Lemma run_pipeline_inv self requirements template_name output_dir run_tests deploy
    namespace w res w' :
  run_pipeline self requirements template_name output_dir run_tests deploy namespace w
  = (Ok res, w') ->
  exists w1,
    (if run_tests
     then exists t w0,
            TestRunner.run (test_runner self) (project_path res) w0 = (Ok t, w1)
            /\ test_result res = Some t
     else test_result res = None)
    /\ (if gate deploy (test_result res)
        then exists d,
               KubernetesDeployer.deploy (deployer self) (project_path res) namespace w1
               = (Ok d, w')
               /\ deployment_result res = Some d
        else deployment_result res = None /\ w' = w1).
Proof.
  unfold run_pipeline, mbind, M_bind.
  destruct (on_files _ w) as [[[]|e] w0]; [|done].
  unfold lift at 1. destruct (TemplateManager.get_template _ _) as [template|e]; [|done].
  unfold lift at 1.
  destruct (BaseTemplate.validate_requirements template requirements) as [S|e]; [|done].
  destruct (on_files _ w0) as [[pp|e] w2]; [|done].
  destruct run_tests.
  - destruct (TestRunner.run _ pp w2) as [[t|e] w1] eqn:Ht; [|done].
    unfold mret, M_ret. unfold gate. destruct (deploy && passed t) eqn:Hg.
    + destruct (KubernetesDeployer.deploy _ pp namespace w1) as [[d|e] w3] eqn:Hd; [|done].
      intros [= <- <-]. exists w1. cbn. rewrite Hg. split; [by eexists _, _|by eexists].
    + intros [= <- <-]. exists w1. cbn. rewrite Hg. split; [by eexists _, _|done].
  - unfold mret, M_ret. unfold gate. destruct deploy; cbn [andb].
    + destruct (KubernetesDeployer.deploy _ pp namespace w2) as [[d|e] w3] eqn:Hd; [|done].
      intros [= <- <-]. exists w2. cbn. split; [done|by eexists].
    + intros [= <- <-]. exists w2. cbn. done.
Qed.

(** The steps of a run that returns a result, and the worlds between
    them: [w_out] after the output directory is there, [w_gen] after
    generation, [w_test] after the tests.  A run returns exactly when its
    steps do. *)
Lemma run_pipeline_steps self reqs tname output_dir run_tests deploy
    namespace w res w' :
  run_pipeline self reqs tname output_dir run_tests deploy namespace w
  = (Ok res, w')
  <-> exists template w_out w_gen w_test,
        on_files (mkdir_parents output_dir) w = (Ok tt, w_out)
        /\ TemplateManager.get_template (template_manager self) tname = Ok template
        /\ BaseTemplate.validate_requirements template reqs = Ok (requirements res)
        /\ on_files (BaseTemplate.generate_project template (requirements res) output_dir)
             w_out
           = (Ok (project_path res), w_gen)
        /\ template_name res = BaseTemplate.name template
        /\ (if run_tests
            then exists t,
                   TestRunner.run (test_runner self) (project_path res) w_gen
                   = (Ok t, w_test)
                   /\ test_result res = Some t
            else test_result res = None /\ w_test = w_gen)
        /\ (if gate deploy (test_result res)
            then exists d,
                   KubernetesDeployer.deploy (deployer self) (project_path res) namespace
                     w_test
                   = (Ok d, w')
                   /\ deployment_result res = Some d
            else deployment_result res = None /\ w' = w_test).
Proof.
  split.
  - unfold run_pipeline, mbind, M_bind.
    destruct (on_files _ w) as [[[]|e] w0] eqn:Hout; [|done].
    unfold lift at 1.
    destruct (TemplateManager.get_template _ _) as [template|e] eqn:Htm; [|done].
    unfold lift at 1.
    destruct (BaseTemplate.validate_requirements template reqs) as [S|e] eqn:Hv; [|done].
    destruct (on_files _ w0) as [[pp|e] w2] eqn:Hgen; [|done].
    destruct run_tests.
    + destruct (TestRunner.run _ pp w2) as [[t|e] w1] eqn:Ht; [|done].
      unfold mret, M_ret. unfold gate. destruct (deploy && passed t) eqn:Hg.
      * destruct (KubernetesDeployer.deploy _ pp namespace w1) as [[d|e] w3] eqn:Hd; [|done].
        intros [= <- <-]. exists template, w0, w2, w1. cbn. rewrite Hg.
        repeat split; try done; by eexists.
      * intros [= <- <-]. exists template, w0, w2, w1. cbn. rewrite Hg.
        repeat split; try done; by eexists.
    + unfold mret, M_ret. unfold gate. destruct deploy; cbn [andb].
      * destruct (KubernetesDeployer.deploy _ pp namespace w2) as [[d|e] w3] eqn:Hd; [|done].
        intros [= <- <-]. exists template, w0, w2, w2. cbn.
        repeat split; try done; by eexists.
      * intros [= <- <-]. exists template, w0, w2, w2. by cbn.
  - intros (template & w_out & w_gen & w_test & Hout & Ht & Hv & Hgen & Hname & Htest & Hd).
    destruct res as [pp tn S tr dr]. cbn in *. subst tn.
    unfold run_pipeline.
    rewrite (M_bind_ok _ _ _ _ _ Hout), (M_bind_lift_ok _ _ _ _ Ht).
    rewrite (M_bind_lift_ok _ _ _ _ Hv), (M_bind_ok _ _ _ _ _ Hgen).
    destruct run_tests.
    + destruct Htest as (t & Hrun & ->).
      rewrite (M_bind_ok _ _ _ _ _ (M_bind_ok _ (fun r => mret (Some r)) _ _ _ Hrun)).
      unfold gate in Hd. destruct (deploy && passed t).
      * destruct Hd as (d & Hdep & ->).
        by rewrite (M_bind_ok _ _ _ _ _ (M_bind_ok _ (fun r => mret (Some r)) _ _ _ Hdep)).
      * by destruct Hd as [-> ->].
    + destruct Htest as [-> ->]. rewrite M_bind_ret.
      unfold gate in Hd. destruct deploy; cbn [andb] in *.
      * destruct Hd as (d & Hdep & ->).
        by rewrite (M_bind_ok _ _ _ _ _ (M_bind_ok _ (fun r => mret (Some r)) _ _ _ Hdep)).
      * by destruct Hd as [-> ->].
Qed.

(** C1: the deployment step of a pipeline run executes if and only if
    [deploy] is true and either the tests were skipped or the test outcome
    passed.  A run returns a result exactly when its steps succeed one after
    the other; the last of them takes the world [w_test] that the tests (or,
    without tests, generation) left: when the gate is open it is the call of
    the deployer on the project, whose outcome is the deployment outcome of
    the result and whose final world is the final world of the run; when
    the gate is closed nothing is run, the final world is [w_test] itself
    and the deployment outcome is unset.  So the deployment outcome is set
    exactly when the gate is open; and when the tests ran and failed it is
    unset whatever [deploy] is, and the run is the same as with the other
    value of [deploy]. *)
Theorem deploy_gate self reqs tname output_dir run_tests deploy
    namespace w res w' :
  (run_pipeline self reqs tname output_dir run_tests deploy namespace w
   = (Ok res, w')
   <-> exists template w_out w_gen w_test,
         on_files (mkdir_parents output_dir) w = (Ok tt, w_out)
         /\ TemplateManager.get_template (template_manager self) tname = Ok template
         /\ BaseTemplate.validate_requirements template reqs = Ok (requirements res)
         /\ on_files (BaseTemplate.generate_project template (requirements res) output_dir)
              w_out
            = (Ok (project_path res), w_gen)
         /\ template_name res = BaseTemplate.name template
         /\ (if run_tests
             then exists t,
                    TestRunner.run (test_runner self) (project_path res) w_gen
                    = (Ok t, w_test)
                    /\ test_result res = Some t
             else test_result res = None /\ w_test = w_gen)
         /\ (if deploy && match test_result res with
                          | None => true
                          | Some t => passed t
                          end
             then exists d,
                    KubernetesDeployer.deploy (deployer self) (project_path res) namespace
                      w_test
                    = (Ok d, w')
                    /\ deployment_result res = Some d
             else deployment_result res = None /\ w' = w_test))
  /\ (run_pipeline self reqs tname output_dir run_tests deploy namespace w
      = (Ok res, w') ->
      (run_tests = false <-> test_result res = None)
      /\ (is_Some (deployment_result res) <->
          deploy = true
          /\ (run_tests = false \/ exists t, test_result res = Some t /\ passed t = true))
      /\ (forall d, deployment_result res = Some d ->
            exists w1, KubernetesDeployer.deploy (deployer self) (project_path res) namespace w1
                       = (Ok d, w'))
      /\ (forall t, run_tests = true -> test_result res = Some t -> passed t = false ->
            deployment_result res = None
            /\ forall deploy',
                 run_pipeline self reqs tname output_dir run_tests deploy'
                   namespace w = (Ok res, w'))).
Proof.
  split; [apply run_pipeline_steps|].
  intros Hrun. pose proof (run_pipeline_inv _ _ _ _ _ _ _ _ _ _ Hrun) as (w1 & Ht & Hd).
  assert (run_tests = false <-> test_result res = None) as Hskip.
  { destruct run_tests; [|done]. destruct Ht as (t & w0 & _ & ->). done. }
  split; [done|]. split; [|split].
  - unfold gate in Hd. destruct deploy; cbn [andb] in Hd.
    + destruct (test_result res) as [t|] eqn:Hres.
      * destruct (passed t) eqn:Hp.
        -- destruct Hd as (d & _ & ->). split; [|by eexists].
           intros _. split; [done|]. right. by eexists.
        -- destruct Hd as [-> _]. split; [by intros [? ?]|].
           intros [_ [Hf|(t' & [= <-] & Hp')]]; [|congruence].
           apply Hskip in Hf. done.
      * destruct Hd as (d & _ & ->). split; [|by eexists].
        intros _. split; [done|]. left. by apply Hskip.
    + destruct Hd as [-> _]. split; [by intros [? ?]|]. by intros [? _].
  - intros d Hsome. destruct (gate deploy (test_result res)).
    + destruct Hd as (d' & Hdep & Hres). exists w1. congruence.
    + destruct Hd as [Hnone _]. congruence.
  - intros t -> Hres Hp.
    apply run_pipeline_steps in Hrun
      as (template & w_out & w_gen & w_test & Hout & Htm & Hv & Hgen & Hname & Htest & Hg).
    unfold gate in Hg. rewrite Hres, Hp, andb_false_r in Hg. destruct Hg as [Hnone ->].
    split; [done|]. intros deploy'. apply run_pipeline_steps.
    exists template, w_out, w_gen, w_test. repeat split; try done.
    unfold gate. by rewrite Hres, Hp, andb_false_r.
Qed.

(** C3, as amended: when validation fails, [run_pipeline] raises the
    validation error after it has made sure that the output directory
    exists and before anything else: the only change to the file system is
    the creation of the output directory and of its missing ancestors (no
    change at all when the output directory was there), no project file or
    directory is written and no process is started. *)
Theorem validation_error_only_creates_output_dir self requirements template_name
    output_dir run_tests deploy namespace w template e :
  existsb (is_file (files w)) (prefixes output_dir) = false ->
  TemplateManager.get_template (template_manager self) template_name = Ok template ->
  BaseTemplate.validate_requirements template requirements = Raise e ->
  run_pipeline self requirements template_name output_dir run_tests deploy namespace w
  = (Raise e, {| files := make_dirs (files w) output_dir; proc_log := proc_log w |})
  /\ (forall q, q ∉ prefixes output_dir ->
        make_dirs (files w) output_dir !! q = files w !! q)
  /\ (forall q n, files w !! q = Some n -> make_dirs (files w) output_dir !! q = Some n)
  /\ (forall q, q ∈ prefixes output_dir -> make_dirs (files w) output_dir !! q = Some Dir)
  /\ (dir_chain (files w) output_dir -> make_dirs (files w) output_dir = files w).
Proof.
  intros Hout Ht Hv. split; [|split; [|split; [|split]]].
  - unfold run_pipeline.
    rewrite (M_bind_ok _ _ _ _ _ (on_files_ok _ _ _ _ (mkdir_parents_ok _ _ Hout))).
    rewrite (M_bind_lift_ok _ _ _ _ Ht).
    by rewrite (M_bind_lift_raise _ _ _ _ Hv).
  - intros q. apply make_dirs_lookup_other.
  - intros q n. apply make_dirs_preserves.
  - intros q Hq. pose proof (make_dirs_chain _ _ Hout) as Hc.
    unfold dir_chain in Hc. rewrite Forall_forall in Hc. by apply Hc.
  - apply make_dirs_id.
Qed.
End PipelineClaims.

Lemma deploy_gate_witness :
  exists res w',
    K8sAutoDevPlatform.run_pipeline (rt := sample_builtins) (host := failing_tests_host)
      (sample_platform None) inventory_requirements "simple-python-service" ["tmp"; "out"]
      true true None empty_world
    = (Ok res, w')
    /\ deployment_result res = None.
Proof.
  set (run := K8sAutoDevPlatform.run_pipeline (rt := sample_builtins)
                (host := failing_tests_host) (sample_platform None) inventory_requirements
                "simple-python-service" ["tmp"; "out"] true true None empty_world).
  set (res := match run.1 with
              | Ok r => r
              | Raise _ => {| project_path := []; template_name := ""; requirements := [];
                              test_result := None; deployment_result := None |}
              end).
  assert (run = (Ok res, run.2)) as Hrun by (vm_cast_no_check (eq_refl run)).
  exists res, run.2. split; [exact Hrun|].
  destruct (deploy_gate (rt := sample_builtins) (host := failing_tests_host)
              (sample_platform None) inventory_requirements "simple-python-service"
              ["tmp"; "out"] true true None empty_world res run.2) as [_ Hgate].
  destruct (Hgate Hrun) as (_ & _ & _ & Hfail).
  eapply Hfail; [reflexivity|vm_compute; reflexivity|vm_compute; reflexivity].
Defined.

(** C3 as stated fails: on an empty file system, a document without the
    required fields makes the pipeline raise the validation error after the
    output directory has been created. *)
Lemma validation_error_after_mkdir :
  ~ (forall (rt : Builtins) (layout : Layout) (host : Host) self requirements template_name
       output_dir run_tests deploy namespace w template e w',
       TemplateManager.get_template (K8sAutoDevPlatform.template_manager self) template_name
       = Ok template ->
       BaseTemplate.validate_requirements template requirements = Raise e ->
       K8sAutoDevPlatform.run_pipeline self requirements template_name output_dir
         run_tests deploy namespace w = (Raise e, w') ->
       files w' = files w).
Proof.
  intros Hclaim.
  specialize (Hclaim sample_builtins sample_layout failing_tests_host (sample_platform None)
    [] "simple-python-service" ["out"] true true None empty_world
    SimplePythonServiceTemplate.cls
    (ValueError
       "Missing required fields for template 'simple-python-service': service_name, description")
    {| files := {[ ["out"] := Dir ]}; proc_log := [] |}
    eq_refl eq_refl).
  assert (files {| files := {[ ["out"] := Dir ]}; proc_log := [] |} !! ["out"]
          = files empty_world !! ["out"]) as Hne.
  { rewrite Hclaim; [done|]. vm_compute. reflexivity. }
  cbn [files empty_world] in Hne.
  rewrite lookup_singleton_eq, lookup_empty in Hne. discriminate.
Qed.

Lemma validation_error_only_creates_output_dir_witness :
  K8sAutoDevPlatform.run_pipeline (rt := sample_builtins) (host := failing_tests_host)
    (sample_platform None) [("service_name", VStr "Inventory")] "simple-python-service"
    ["out"] true true None empty_world
  = (Raise (ValueError
       "Missing required fields for template 'simple-python-service': description"),
     {| files := make_dirs ∅ ["out"]; proc_log := [] |}).
Proof.
  refine (proj1 (validation_error_only_creates_output_dir (rt := sample_builtins)
           (host := failing_tests_host) (sample_platform None)
           [("service_name", VStr "Inventory")]
           "simple-python-service" ["out"] true true None empty_world
           SimplePythonServiceTemplate.cls _ _ _ _)); reflexivity.
Defined.

Section GenerationClaims.
Context {rt : Builtins} {layout : Layout}.

Import SimplePythonServiceTemplate.

Lemma generate_project_effective requirements spec destination f :
  effective_spec requirements = Ok spec ->
  generate_project requirements destination f = generate_project spec destination f.
Proof.
  intros He. destruct (effective_spec_slug _ _ He) as [slug Hslug].
  unfold generate_project.
  rewrite (dict_mem_lookup _ _ _ Hslug), M_bind_ret.
  assert ((if dict_mem "slug" requirements then mret requirements
           else lift (validate_requirements requirements)) f = (Ok spec, f)) as Hspec.
  { unfold effective_spec in He. destruct (dict_mem "slug" requirements).
    - by injection He as ->.
    - unfold lift. by rewrite He. }
  by rewrite (M_bind_ok _ _ _ _ _ Hspec).
Qed.

Lemma effective_spec_validated requirements S :
  validate_requirements requirements = Ok S -> effective_spec S = Ok S.
Proof.
  intros (sn & d & v & ci & routes & port & Hn)%validate_requirements_normalized.
  destruct Hn as (_ & _ & _ & _ & H5 & _).
  unfold effective_spec. by rewrite (dict_mem_lookup _ _ _ H5).
Qed.

(** C4: [generate_project] raises [FileExistsError] whenever the target
    project directory exists and then writes nothing; hence, on a
    well-formed file system where no regular file is in the way of the
    project directory, a second call with the same requirements and
    destination raises [FileExistsError] and changes nothing, whatever the
    first call did; and for validated requirements the first call does
    return the project directory [destination/{slug}-service]. *)
Theorem generate_project_refuses_existing :
  (forall requirements spec slug destination f,
     effective_spec requirements = Ok spec -> dict_lookup spec "slug" = Some slug ->
     path_exists f (project_dir_of destination slug) = true ->
     generate_project requirements destination f
     = (Raise (already_exists (project_dir_of destination slug)), f))
  /\ (forall requirements spec slug destination f r1 f1,
        effective_spec requirements = Ok spec -> dict_lookup spec "slug" = Some slug ->
        fs_wf f ->
        existsb (is_file f) (prefixes (path_parent (project_dir_of destination slug))) = false ->
        generate_project requirements destination f = (r1, f1) ->
        generate_project requirements destination f1
        = (Raise (already_exists (project_dir_of destination slug)), f1))
  /\ (forall raw requirements S destination f,
        validate_requirements raw = Ok S -> effective_spec requirements = Ok S ->
        fs_wf f -> existsb (is_file f) (prefixes destination) = false ->
        exists slug,
          dict_lookup S "slug" = Some (VStr slug)
          /\ project_dir_of destination (VStr slug) = destination ++ [slug +:+ "-service"]
          /\ (f !! (destination ++ [slug +:+ "-service"]) = None ->
              exists f1,
                generate_project requirements destination f
                = (Ok (destination ++ [slug +:+ "-service"]), f1)
                /\ generate_project requirements destination f1
                   = (Raise (already_exists (destination ++ [slug +:+ "-service"])), f1))).
Proof.
  assert (forall requirements spec slug destination f,
     effective_spec requirements = Ok spec -> dict_lookup spec "slug" = Some slug ->
     path_exists f (project_dir_of destination slug) = true ->
     generate_project requirements destination f
     = (Raise (already_exists (project_dir_of destination slug)), f)) as Hexists.
  { intros requirements spec slug destination f He Hslug Hex.
    destruct (generate_project_shape _ _ _ destination He Hslug) as (tail & _ & Heq).
    by rewrite Heq, Hex. }
  split; [exact Hexists|]. split.
  - intros requirements spec slug destination f r1 f1 He Hslug Hwf Hparent Hfirst.
    apply (Hexists _ _ _ _ _ He Hslug).
    destruct (generate_project_shape _ _ _ destination He Hslug) as (tail & Hkeeps & Heq).
    rewrite Heq in Hfirst. set (pd := project_dir_of destination slug) in *.
    destruct (path_exists f pd) eqn:Hex; [by injection Hfirst as _ <-|].
    assert (pd <> []) as Hpd by (by intros Hnil; rewrite Hnil in Hex).
    assert (f !! pd = None) as Hnone.
    { unfold path_exists in Hex. rewrite node_at_lookup in Hex by done.
      by destruct (f !! pd). }
    assert (existsb (is_file f) (prefixes (path_child pd "app")) = false) as Happ.
    { unfold path_child. rewrite prefixes_snoc, existsb_app. simpl.
      rewrite (is_file_absent _ _ (fs_wf_absent _ _ ["app"] Hwf Hpd Hnone)).
      rewrite orb_false_r. revert Hparent.
      destruct pd as [|x p _] using rev_ind; [done|].
      rewrite path_parent_snoc, prefixes_snoc, existsb_app. intros ->. simpl.
      by rewrite (is_file_absent _ _ Hnone). }
    rewrite (M_bind_ok _ _ _ _ _ (mkdir_parents_ok _ _ Happ)) in Hfirst.
    pose proof (make_dirs_chain _ _ Happ) as Hchain.
    apply dir_chain_parent in Hchain. unfold path_child in Hchain.
    rewrite path_parent_snoc in Hchain. apply dir_chain_is_dir in Hchain.
    unfold is_dir in Hchain. rewrite node_at_lookup in Hchain by done.
    destruct (make_dirs f (pd ++ ["app"]) !! pd) as [[]|] eqn:Hdir; [|done..].
    pose proof (Hkeeps _ _ _ _ Hfirst Hdir) as Hkept.
    unfold path_exists. rewrite node_at_lookup by done. by rewrite Hkept.
  - intros raw requirements S destination f Hv He Hwf Hdest.
    destruct (validate_requirements_normalized _ _ Hv) as (sn & d & v & ci & routes & port & Hn).
    pose proof Hn as (_ & _ & _ & _ & H5 & _).
    assert (all_chars slug_char (slugify sn) = true) as Hslug.
    { pose proof (slugify_is_slug sn) as Hs. unfold is_slug in Hs.
      repeat match goal with H : _ && _ = true |- _ => apply andb_true_iff in H as [H ?] end.
      done. }
    exists (slugify sn). split; [done|]. split; [by apply project_dir_of_slug|].
    intros Hnone.
    destruct (generate_project_normalized _ _ _ _ _ _ _ destination f Hn Hwf Hdest Hnone)
      as (f1 & Hgen & _ & Hchain).
    exists f1. rewrite (generate_project_effective _ _ _ _ He). split; [done|].
    rewrite (generate_project_effective _ _ _ _ He).
    rewrite <- (project_dir_of_slug destination (slugify sn) Hslug).
    apply (Hexists S S _ _ _ (effective_spec_validated _ _ Hv) H5).
    rewrite (project_dir_of_slug destination (slugify sn) Hslug).
    unfold path_exists, is_dir. apply dir_chain_is_dir in Hchain. unfold is_dir in Hchain.
    by destruct (node_at f1 _).
Qed.
End GenerationClaims.

Lemma generate_project_refuses_existing_witness :
  exists f1,
    SimplePythonServiceTemplate.validate_requirements (rt := sample_builtins)
      inventory_requirements = Ok inventory_spec
    /\ SimplePythonServiceTemplate.generate_project (rt := sample_builtins)
         (layout := sample_layout) inventory_spec ["tmp"; "out"] ∅
       = (Ok ["tmp"; "out"; "inventory-service"], f1)
    /\ SimplePythonServiceTemplate.generate_project (rt := sample_builtins)
         (layout := sample_layout) inventory_spec ["tmp"; "out"] f1
       = (Raise (already_exists ["tmp"; "out"; "inventory-service"]), f1).
Proof.
  destruct (generate_project_refuses_existing (rt := sample_builtins) (layout := sample_layout))
    as (_ & _ & Htwice).
  destruct (Htwice inventory_requirements inventory_spec inventory_spec ["tmp"; "out"] ∅)
    as (slug & Hslug & _ & Hgen).
  - vm_compute. reflexivity.
  - vm_compute. reflexivity.
  - apply map_Forall_empty.
  - reflexivity.
  - vm_compute in Hslug. injection Hslug as <-.
    destruct (Hgen (lookup_empty _)) as (f1 & Hfirst & Hsecond).
    exists f1. split; [vm_compute; reflexivity|]. split; [exact Hfirst|exact Hsecond].
Defined.

(** ** Deployment *)

Section DeployerClaims.
Context {host : Host}.

Import KubernetesDeployer.

Lemma subprocess_run_log command cwd w r w' :
  subprocess_run command cwd w = (r, w') ->
  map ev_command (proc_log w') = map ev_command (proc_log w) ++ [command].
Proof.
  unfold subprocess_run. destruct (spawn w command cwd) as [outcome f].
  intros [= _ <-]. cbn. by rewrite map_app.
Qed.

Lemma applies_ok_log kubectl namespace w manifests w' :
  applies_ok kubectl namespace w manifests w' ->
  map ev_command (proc_log w')
  = map ev_command (proc_log w) ++ map (apply_command kubectl namespace) manifests.
Proof.
  induction 1 as [w|w manifest rest completed w1 w2 Hrun _ _ IH].
  - by rewrite app_nil_r.
  - rewrite IH, (subprocess_run_log _ _ _ _ _ Hrun). by rewrite <- (assoc_L (++)).
Qed.

Lemma apply_manifests_all kubectl namespace paths manifests executed w w' :
  applies_ok kubectl namespace w manifests w' ->
  apply_manifests kubectl namespace paths manifests executed w
  = (Ok {| applied := true;
           manifest_files := paths;
           message := "Applied Kubernetes manifests successfully.";
           command_sequence := executed ++ map (apply_command kubectl namespace) manifests |},
     w').
Proof.
  intros Hok. revert executed.
  induction Hok as [w|w manifest rest completed w1 w2 Hrun Hzero _ IH]; intros executed.
  - cbn. by rewrite app_nil_r.
  - cbn [apply_manifests]. rewrite (M_bind_ok _ _ _ _ _ Hrun).
    rewrite Hzero. cbn [Z.eqb negb]. rewrite IH. cbn [map].
    by rewrite <- (assoc_L (++)).
Qed.

Lemma apply_manifests_stop kubectl namespace paths before manifest after executed
    w w1 completed w2 :
  applies_ok kubectl namespace w before w1 ->
  subprocess_run (apply_command kubectl namespace manifest) None w1 = (Ok completed, w2) ->
  returncode completed <> 0 ->
  apply_manifests kubectl namespace paths (before ++ manifest :: after) executed w
  = (Ok {| applied := false;
           manifest_files := paths;
           message := "kubectl failed for " +:+ path_str manifest +:+ ": "
                      +:+ failure_text completed;
           command_sequence :=
             executed ++ map (apply_command kubectl namespace) (before ++ [manifest]) |},
     w2).
Proof.
  intros Hok Hrun Hne. revert executed.
  induction Hok as [w|w m rest c w1 w1' Hrun1 Hzero _ IH]; intros executed.
  - cbn [app apply_manifests]. rewrite (M_bind_ok _ _ _ _ _ Hrun).
    apply Z.eqb_neq in Hne. rewrite Hne. reflexivity.
  - cbn [app apply_manifests]. rewrite (M_bind_ok _ _ _ _ _ Hrun1).
    rewrite Hzero. cbn [Z.eqb negb]. rewrite (IH Hrun). cbn [map app].
    by rewrite <- (assoc_L (++)).
Qed.

(** C6: with a cluster CLI, the manifests are applied in the order of the
    sorted listing; the first command that exits with a non-zero code ends
    the sequence: the outcome has [applied = false], its message names the
    failing manifest and carries the captured error text, its command
    sequence and the processes started are exactly the commands up to and
    including the failing one; when every command exits with zero the
    outcome has [applied = true]. *)
Theorem deploy_stops_at_first_failure self project_path namespace w kubectl :
  _kubectl self = Some kubectl -> kubectl <> "" ->
  let manifests := sorted_glob_yaml (files w) (path_child project_path "k8s") in
  (forall before manifest after w1 completed w2,
     manifests = before ++ manifest :: after ->
     applies_ok kubectl namespace w before w1 ->
     subprocess_run (apply_command kubectl namespace manifest) None w1 = (Ok completed, w2) ->
     returncode completed <> 0 ->
     deploy self project_path namespace w
     = (Ok {| applied := false;
              manifest_files := map path_str manifests;
              message := "kubectl failed for " +:+ path_str manifest +:+ ": "
                         +:+ strip (str_or (stderr completed)
                                      (str_or (stdout completed) "Unknown kubectl error"));
              command_sequence :=
                map (apply_command kubectl namespace) (before ++ [manifest]) |},
        w2)
     /\ map ev_command (proc_log w2)
        = map ev_command (proc_log w)
          ++ map (apply_command kubectl namespace) (before ++ [manifest]))
  /\ (forall w2,
        manifests <> [] ->
        applies_ok kubectl namespace w manifests w2 ->
        deploy self project_path namespace w
        = (Ok {| applied := true;
                 manifest_files := map path_str manifests;
                 message := "Applied Kubernetes manifests successfully.";
                 command_sequence := map (apply_command kubectl namespace) manifests |},
           w2)
        /\ map ev_command (proc_log w2)
           = map ev_command (proc_log w)
             ++ map (apply_command kubectl namespace) manifests).
Proof.
  intros Hk Hne manifests.
  assert (manifests <> [] ->
          deploy self project_path namespace w
          = apply_manifests kubectl namespace (map path_str manifests) manifests [] w)
    as Hdeploy.
  { intros Hm. unfold deploy. rewrite M_bind_get_state. fold manifests.
    destruct manifests as [|m0 ms]; [done|]. rewrite Hk. by destruct kubectl. }
  split.
  - intros before manifest after w1 completed w2 Hsplit Hok Hrun Hfail.
    rewrite Hdeploy by (rewrite Hsplit; by destruct before).
    rewrite Hsplit at 2.
    rewrite (apply_manifests_stop _ _ _ _ _ _ _ _ _ _ _ Hok Hrun Hfail).
    split; [done|].
    rewrite (subprocess_run_log _ _ _ _ _ Hrun), (applies_ok_log _ _ _ _ _ Hok).
    by rewrite map_app, <- (assoc_L (++)).
  - intros w2 Hm Hok. rewrite (Hdeploy Hm).
    rewrite (apply_manifests_all _ _ _ _ _ _ _ Hok). split; [done|].
    by apply applies_ok_log.
Qed.
End DeployerClaims.

Lemma deploy_stops_at_first_failure_witness :
  exists w2,
    KubernetesDeployer.deploy (host := service_fails_host)
      {| KubernetesDeployer._kubectl := Some "kubectl" |} ["p"] (Some "prod")
      two_manifests_world
    = (Ok {| applied := false;
             manifest_files := ["/p/k8s/deployment.yaml"; "/p/k8s/service.yaml"];
             message := "kubectl failed for /p/k8s/service.yaml: error: connection refused";
             command_sequence :=
               [["kubectl"; "apply"; "-f"; "/p/k8s/deployment.yaml"; "-n"; "prod"];
                ["kubectl"; "apply"; "-f"; "/p/k8s/service.yaml"; "-n"; "prod"]] |},
       w2).
Proof.
  destruct (deploy_stops_at_first_failure (host := service_fails_host)
              {| KubernetesDeployer._kubectl := Some "kubectl" |} ["p"] (Some "prod")
              two_manifests_world "kubectl" eq_refl ltac:(done)) as [Hstop _].
  edestruct (Hstop [["p"; "k8s"; "deployment.yaml"]] ["p"; "k8s"; "service.yaml"] [])
    as [Hdeploy _].
  - vm_compute. reflexivity.
  - eapply applies_ok_cons; [vm_compute; reflexivity|reflexivity|apply applies_ok_nil].
  - vm_compute. reflexivity.
  - done.
  - eexists. rewrite Hdeploy. vm_compute. reflexivity.
Defined.

(** ** The metadata file *)

(** C8 as stated fails: the route summaries of the metadata also record the
    name of each route. *)
Lemma metadata_route_summary_has_name :
  ~ (forall (rt : Builtins) requirements spec meta routes,
       SimplePythonServiceTemplate.validate_requirements requirements = Ok spec ->
       SimplePythonServiceTemplate._export_metadata spec = Ok (VDict meta) ->
       dict_lookup meta "routes" = Some (VList routes) ->
       Forall summary_only_method_path_status routes).
Proof.
  intros Hclaim.
  epose proof (Hclaim sample_builtins inventory_requirements _ _ _
                 ltac:(vm_compute; reflexivity) ltac:(vm_compute; reflexivity)
                 ltac:(vm_compute; reflexivity)) as Hall.
  apply Forall_cons in Hall as [(d & Hd & Hkeys) _]. injection Hd as <-.
  specialize (Hkeys "name" eq_refl).
  rewrite !elem_of_cons, elem_of_nil in Hkeys. destruct Hkeys as [?|[?|[?|[]]]]; done.
Qed.

Section MetadataClaims.
Context {rt : Builtins} {layout : Layout}.

Import SimplePythonServiceTemplate.

(** C8, as amended: for every valid requirements mapping, generation
    writes [project-metadata.json] from a mapping that holds the template
    name, the service name and description, the version, the container
    image and one summary per route, in order; a summary records the name,
    the method, the path and the status of its route and nothing else: no
    response body and no identifier. *)
Theorem metadata_file_records_route_summaries requirements S destination f :
  validate_requirements requirements = Ok S ->
  fs_wf f -> existsb (is_file f) (prefixes destination) = false ->
  exists sn d v ci routes port,
    normalized_spec S sn d v ci routes port
    /\ _export_metadata S
       = Ok (VDict [("template", VStr "simple-python-service");
                    ("service_name", VStr sn); ("description", VStr d);
                    ("version", VStr v); ("container_image", VStr ci);
                    ("routes", VList (map route_summary routes))])
    /\ Forall (fun route =>
                 exists n i m p st resp,
                   route = route_record n i m p st resp
                   /\ route_summary route
                      = VDict [("name", VStr n); ("method", VStr m);
                               ("path", VStr p); ("status", VInt st)]) routes
    /\ (f !! (destination ++ [slugify sn +:+ "-service"]) = None ->
        exists f',
          generate_project S destination f
          = (Ok (destination ++ [slugify sn +:+ "-service"]), f')
          /\ f' !! path_child (destination ++ [slugify sn +:+ "-service"])
                             "project-metadata.json"
             = Some (File (json_dumps (Some 2%nat)
                             (VDict [("template", VStr "simple-python-service");
                                     ("service_name", VStr sn); ("description", VStr d);
                                     ("version", VStr v); ("container_image", VStr ci);
                                     ("routes", VList (map route_summary routes))])
                           +:+ nl))).
Proof.
  intros Hv Hwf Hdest.
  destruct (validate_requirements_normalized _ _ Hv) as (sn & d & v & ci & routes & port & Hn).
  exists sn, d, v, ci, routes, port. split; [done|].
  split; [by apply (export_metadata_normalized _ _ _ _ _ _ _ Hn)|]. split.
  - destruct Hn as (_ & _ & _ & _ & _ & _ & _ & Hr).
    eapply Forall_impl; [exact Hr|].
    intros route (n & i & m & p & st & resp & ->). by eexists n, i, m, p, st, resp.
  - intros Hnone.
    destruct (generate_project_normalized _ _ _ _ _ _ _ destination f Hn Hwf Hdest Hnone)
      as (f' & Hgen & Hmeta & _).
    by exists f'.
Qed.
End MetadataClaims.

Lemma metadata_file_records_route_summaries_witness :
  exists f' content,
    SimplePythonServiceTemplate.generate_project (rt := sample_builtins)
      (layout := sample_layout) inventory_spec ["tmp"; "out"] ∅
    = (Ok ["tmp"; "out"; "inventory-service"], f')
    /\ f' !! ["tmp"; "out"; "inventory-service"; "project-metadata.json"]
       = Some (File content).
Proof.
  destruct (metadata_file_records_route_summaries (rt := sample_builtins)
              (layout := sample_layout) inventory_requirements inventory_spec ["tmp"; "out"] ∅)
    as (sn & d & v & ci & routes & port & Hn & _ & _ & Hgen).
  - vm_compute. reflexivity.
  - apply map_Forall_empty.
  - reflexivity.
  - destruct Hn as (Hsn & _). vm_compute in Hsn. injection Hsn as <-.
    destruct (Hgen (lookup_empty _)) as (f' & Hrun & Hfile).
    exists f'. eexists. split; [exact Hrun|exact Hfile].
Defined.

(** * Further properties of the package *)

(** ** [utils.slugify] *)

Lemma lower_upper_char c : lower_char (upper_char c) = lower_char c.
Proof. char_cases c; reflexivity. Qed.

Lemma lower_lower_char c : lower_char (lower_char c) = lower_char c.
Proof. char_cases c; reflexivity. Qed.

Lemma is_space_upper_char c : is_space (upper_char c) = is_space c.
Proof. char_cases c; reflexivity. Qed.

Lemma is_space_lower_char c : is_space (lower_char c) = is_space c.
Proof. char_cases c; reflexivity. Qed.

Lemma str_map_str_map f g s : str_map f (str_map g s) = str_map (fun c => f (g c)) s.
Proof. induction s as [|c r IH]; simpl; [done|]. by rewrite IH. Qed.

Lemma str_map_ext f g s : (forall c, f c = g c) -> str_map f s = str_map g s.
Proof. intros Hfg. induction s as [|c r IH]; simpl; [done|]. by rewrite Hfg, IH. Qed.

Lemma lstrip_str_map p f s :
  (forall c, p (f c) = p c) -> lstrip_with p (str_map f s) = str_map f (lstrip_with p s).
Proof.
  intros Hp. induction s as [|c r IH]; simpl; [done|]. rewrite Hp.
  by destruct (p c).
Qed.

Lemma rstrip_str_map p f s :
  (forall c, p (f c) = p c) -> rstrip_with p (str_map f s) = str_map f (rstrip_with p s).
Proof.
  intros Hp. induction s as [|c r IH]; [done|]. cbn [str_map rstrip_with].
  rewrite IH, Hp. destruct (rstrip_with p r); simpl; [by destruct (p c)|done].
Qed.

Lemma strip_str_map p f s :
  (forall c, p (f c) = p c) -> strip_with p (str_map f s) = str_map f (strip_with p s).
Proof.
  intros Hp. unfold strip_with. by rewrite lstrip_str_map, rstrip_str_map.
Qed.

Lemma lstrip_idempotent p s : lstrip_with p (lstrip_with p s) = lstrip_with p s.
Proof. apply lstrip_id, lstrip_head_ok. Qed.

Lemma rstrip_idempotent p s : rstrip_with p (rstrip_with p s) = rstrip_with p s.
Proof. apply rstrip_id, rstrip_last_ok. Qed.

Lemma strip_with_idempotent p s : strip_with p (strip_with p s) = strip_with p s.
Proof.
  unfold strip_with.
  rewrite (lstrip_id p (rstrip_with p (lstrip_with p s))).
  - apply rstrip_idempotent.
  - apply rstrip_head_ok, lstrip_head_ok.
Qed.

(** X1: the strings that [slugify] leaves unchanged are exactly the slugs:
    the non-empty words over [a-z0-9-] that neither start nor end with a
    dash and have no two dashes in a row. *)
Theorem slugify_fixed_points (s : string) : slugify s = s <-> is_slug s = true.
Proof.
  split.
  - intros <-. apply slugify_is_slug.
  - apply is_slug_fixed.
Qed.

(** X2: [slugify] does not see the case of ASCII letters nor the whitespace
    around the name.  A name and its lower-cased and stripped forms have the
    same slug, and so has the upper-cased form of a name that is ASCII text;
    upper-casing other text can bring in letters (as it does for the sharp
    s) and is not covered. *)
Theorem slugify_ignores_case_and_padding {rt : Builtins} (s : string) :
  (isascii s = true -> slugify (upper s) = slugify s)
  /\ slugify (lower s) = slugify s
  /\ slugify (strip s) = slugify s.
Proof.
  split; [|split].
  - intros Hascii. unfold upper. rewrite Hascii. unfold slugify, strip, lower.
    rewrite (strip_str_map is_space upper_char s is_space_upper_char).
    rewrite str_map_str_map.
    by rewrite (str_map_ext _ lower_char _ lower_upper_char).
  - unfold slugify, strip, lower.
    rewrite (strip_str_map is_space lower_char s is_space_lower_char).
    rewrite str_map_str_map.
    by rewrite (str_map_ext _ lower_char _ lower_lower_char).
  - unfold slugify, strip. by rewrite strip_with_idempotent.
Qed.

Lemma slugify_ignores_case_and_padding_witness :
  slugify (upper (rt := sample_builtins) " Inventory Service ") = "inventory-service".
Proof.
  rewrite (proj1 (slugify_ignores_case_and_padding (rt := sample_builtins)
                    " Inventory Service ") eq_refl).
  reflexivity.
Defined.

(** ** [BaseTemplate._ensure_fields] *)

(** X3: [_ensure_fields] succeeds exactly when every required field is a
    key of the requirements; otherwise it raises a [ValueError] that names
    the template and lists the missing fields, and only those, in the order
    in which they are required. *)
Theorem ensure_fields_spec self_name (requirements : dict) (fields : list string) :
  (BaseTemplate._ensure_fields self_name requirements fields = Ok tt
   <-> forall field, field ∈ fields -> dict_mem field requirements = true)
  /\ (forall e,
        BaseTemplate._ensure_fields self_name requirements fields = Raise e ->
        exists missing,
          missing <> []
          /\ missing `sublist_of` fields
          /\ (forall field,
                field ∈ missing <-> field ∈ fields /\ dict_mem field requirements = false)
          /\ e = ValueError ("Missing required fields for template '" +:+ self_name
                             +:+ "': " +:+ join ", " missing)).
Proof.
  unfold BaseTemplate._ensure_fields.
  set (missing := filter (fun field => Is_true (negb (dict_mem field requirements))) fields).
  assert (forall field,
            field ∈ missing <-> field ∈ fields /\ dict_mem field requirements = false) as Hin.
  { intros field. unfold missing. rewrite list_elem_of_filter.
    destruct (dict_mem field requirements); simpl; split; intros [? ?]; done. }
  split.
  - split.
    + intros Hok field Hf. destruct missing as [|m ms]; [|done].
      destruct (dict_mem field requirements) eqn:Hm; [done|].
      assert (field ∈ @nil string) as Hnil by (by apply Hin). by apply elem_of_nil in Hnil.
    + intros Hall. destruct missing as [|m ms]; [done|].
      assert (m ∈ m :: ms) as Hm by left. apply Hin in Hm as [Hf Hm].
      rewrite (Hall _ Hf) in Hm. done.
  - intros e He. exists missing. destruct missing as [|m ms] eqn:Hmiss; [done|].
    split; [done|]. split; [rewrite <- Hmiss; apply sublist_filter|].
    split; [done|]. by injection He as <-.
Qed.

Lemma ensure_fields_spec_witness :
  exists missing,
    missing <> []
    /\ BaseTemplate._ensure_fields "simple-python-service"
         [("description", VStr "d"); ("port", VInt 80)] ["service_name"; "description"]
       = Raise (ValueError ("Missing required fields for template 'simple-python-service': "
                            +:+ join ", " missing)).
Proof.
  destruct (ensure_fields_spec "simple-python-service"
              [("description", VStr "d"); ("port", VInt 80)] ["service_name"; "description"])
    as [_ Hraise].
  destruct (Hraise _ eq_refl) as (missing & Hne & _ & _ & He).
  exists missing. split; [exact Hne|].
  exact (eq_trans eq_refl (f_equal Raise He)).
Defined.

(** ** [SimplePythonServiceTemplate.validate_requirements] *)

Lemma dict_lookup_update_other d items k :
  k ∉ map fst items -> dict_lookup (dict_update d items) k = dict_lookup d k.
Proof.
  unfold dict_update. revert d. induction items as [|[k0 v0] items IH]; intros d Hk; [done|].
  cbn [foldl fst snd]. rewrite IH by (intros Hin; apply Hk; cbn; by right).
  rewrite dict_lookup_set. destruct (String.eqb_spec k k0) as [->|Hne]; [|done].
  exfalso. apply Hk. cbn. left.
Qed.

Lemma dict_mem_keys (d : dict) k : dict_mem k d = true <-> k ∈ map fst d.
Proof.
  induction d as [|[k0 v0] r IH]; simpl.
  - rewrite elem_of_nil. split; [done|tauto].
  - rewrite elem_of_cons, <- IH.
    destruct (String.eqb_spec k k0) as [->|Hne]; simpl; [tauto|]. split; [tauto|].
    by intros [?|?].
Qed.

Lemma dict_keys_set d k v :
  map fst (dict_set d k v) = if dict_mem k d then map fst d else map fst d ++ [k].
Proof.
  induction d as [|[k0 v0] r IH]; simpl; [done|].
  destruct (String.eqb k k0); simpl; [done|]. rewrite IH. by destruct (dict_mem k r).
Qed.

Lemma dict_keys_update d items : map fst d `prefix_of` map fst (dict_update d items).
Proof.
  unfold dict_update. revert d. induction items as [|[k0 v0] items IH]; intros d; [done|].
  cbn [foldl fst snd]. etrans; [|apply IH]. rewrite dict_keys_set.
  destruct (dict_mem k0 d); [done|]. by apply prefix_app_r.
Qed.

Lemma all_chars_replace_dash s :
  all_chars slug_char s = true ->
  all_chars identifier_char (replace_char "-" "_" s) = true.
Proof.
  unfold replace_char. apply all_chars_str_map.
  intros c. char_cases c; vm_compute; congruence.
Qed.

Lemma is_slug_all_chars s : is_slug s = true -> all_chars slug_char s = true.
Proof.
  unfold is_slug. intros Hs.
  repeat match goal with H : _ && _ = true |- _ => apply andb_true_iff in H as [H ?] end.
  done.
Qed.

Section ValidationExtras.
Context {rt : Builtins}.

Import SimplePythonServiceTemplate.

Lemma normalize_routes_wellformed index routes vs :
  normalize_routes index routes = Ok vs -> Forall wellformed_route vs.
Proof.
  revert index vs. induction routes as [|r rs IH]; intros index vs.
  - intros [= <-]. constructor.
  - cbn [normalize_routes].
    destruct (normalize_route index r) as [v|e] eqn:Hr; [|done]. cbn [mbind result_bind].
    destruct (normalize_routes (S index) rs) as [vs'|e] eqn:Hrs; [|done].
    intros [= <-]. constructor; [|by eapply IH].
    apply normalize_route_inv in Hr as (d & st & -> & Hm & Hpt & Hps & Hst & ->).
    eexists _, _, _, _, _, _. split; [reflexivity|].
    split; [done|]. split; [done|]. split.
    + apply py_or_truthy. done.
    + rewrite route_identifier_eq. apply all_chars_replace_dash, is_slug_all_chars.
      apply slugify_is_slug.
Qed.

Lemma default_route_wellformed service_name : wellformed_route (default_route service_name).
Proof.
  exists "root", "root", "GET", "/", 200,
    (VDict [("message", VStr ("Hello from " +:+ service_name +:+ "!"))]).
  split; [reflexivity|]. split; [|done]. unfold _ALLOWED_METHODS. left.
Qed.

(** X4: a requirements mapping without [service_name] or without
    [description] is rejected with a [ValueError] that names the template and
    lists the missing keys, whatever else the mapping holds: the check comes
    before any other; and a mapping that validation accepts has both keys. *)
Theorem validate_requirements_missing_fields requirements :
  (dict_mem "service_name" requirements = false ->
   dict_mem "description" requirements = true ->
   validate_requirements requirements
   = Raise (ValueError
       "Missing required fields for template 'simple-python-service': service_name"))
  /\ (dict_mem "service_name" requirements = true ->
      dict_mem "description" requirements = false ->
      validate_requirements requirements
      = Raise (ValueError
          "Missing required fields for template 'simple-python-service': description"))
  /\ (dict_mem "service_name" requirements = false ->
      dict_mem "description" requirements = false ->
      validate_requirements requirements
      = Raise (ValueError
          "Missing required fields for template 'simple-python-service': service_name, description"))
  /\ (forall S, validate_requirements requirements = Ok S ->
        dict_mem "service_name" requirements = true
        /\ dict_mem "description" requirements = true).
Proof.
  assert (forall a b,
    dict_mem "service_name" requirements = a -> dict_mem "description" requirements = b ->
    BaseTemplate._ensure_fields name requirements ["service_name"; "description"]
    = match a, b with
      | true, true => Ok tt
      | false, true =>
          Raise (ValueError
            "Missing required fields for template 'simple-python-service': service_name")
      | true, false =>
          Raise (ValueError
            "Missing required fields for template 'simple-python-service': description")
      | false, false =>
          Raise (ValueError
            "Missing required fields for template 'simple-python-service': service_name, description")
      end) as Hensure.
  { intros a b Ha Hb. unfold BaseTemplate._ensure_fields.
    rewrite !filter_cons, filter_nil, Ha, Hb.
    destruct a, b; simpl; repeat case_decide; done. }
  split; [|split; [|split]].
  - intros Ha Hb. unfold validate_requirements. by rewrite (Hensure _ _ Ha Hb).
  - intros Ha Hb. unfold validate_requirements. by rewrite (Hensure _ _ Ha Hb).
  - intros Ha Hb. unfold validate_requirements. by rewrite (Hensure _ _ Ha Hb).
  - intros S (routes & nroutes & port & Hs & Hd & _)%validate_requirements_inv. done.
Qed.

(** X5: the defaults of validation.  The service name is the text of the
    given one and the slug is its slug; the version defaults to ["0.1.0"],
    the port to 8000, the container image, when absent or empty, to
    [registry.example.com/{slug}:{version}], and the routes, when absent or
    empty, to the single route [GET /] that answers 200 with a greeting. *)
Theorem validate_requirements_defaults requirements S :
  validate_requirements requirements = Ok S ->
  exists sn version,
    sn = py_str (dict_get requirements "service_name" VNone)
    /\ (forall s, dict_lookup requirements "service_name" = Some (VStr s) -> sn = s)
    /\ dict_lookup S "service_name" = Some (VStr sn)
    /\ dict_lookup S "slug" = Some (VStr (slugify sn))
    /\ dict_lookup S "version" = Some (VStr version)
    /\ (dict_lookup requirements "version" = None -> version = "0.1.0")
    /\ (dict_lookup requirements "port" = None -> dict_lookup S "port" = Some (VInt 8000))
    /\ (truthy (dict_get requirements "container_image" VNone) = false ->
        dict_lookup S "container_image"
        = Some (VStr ("registry.example.com/" +:+ slugify sn +:+ ":" +:+ version)))
    /\ (truthy (dict_get requirements "routes" VNone) = false ->
        dict_lookup S "routes"
        = Some (VList
            [VDict [("name", VStr "root"); ("identifier", VStr "root");
                    ("method", VStr "GET"); ("path", VStr "/"); ("status", VInt 200);
                    ("response",
                     VDict [("message", VStr ("Hello from " +:+ sn +:+ "!"))])]])).
Proof.
  intros (routes & nroutes & port & _ & _ & Hl & Hr & Hp & ->)%validate_requirements_inv.
  eexists _, _. split; [reflexivity|].
  match goal with
  | |- context [dict_update _ (validated_items ?sn ?d ?v ?ci ?slug _ _)] =>
      destruct (dict_update_validated_lookup requirements sn d v ci slug nroutes port)
        as (H1 & H2 & H3 & H4 & H5 & H6 & H7)
  end.
  split; [by intros s Hs; unfold dict_get; rewrite Hs|].
  split; [exact H1|]. split; [exact H5|]. split; [exact H3|].
  split; [by intros Hv; unfold dict_get; rewrite Hv|]. split; [|split].
  - intros Hport. rewrite H7. unfold dict_get in Hp. rewrite Hport in Hp.
    by injection Hp as <-.
  - intros Hci. rewrite H4. unfold py_or. by rewrite Hci.
  - intros Hroutes. rewrite H6. unfold py_or in Hl. rewrite Hroutes in Hl.
    injection Hl as <-. cbn [routes_result] in Hr. by injection Hr as <-.
Qed.

(** X6: validation keeps what it does not know: a key that is not one of
    the seven keys it sets has the value it had, every key of the
    requirements is a key of the result, and the keys of the requirements
    keep their positions, the new keys coming after them. *)
Theorem validate_requirements_keeps_other_keys requirements S :
  validate_requirements requirements = Ok S ->
  (forall k, k ∉ validated_keys -> dict_lookup S k = dict_lookup requirements k)
  /\ (forall k, dict_mem k requirements = true -> dict_mem k S = true)
  /\ map fst requirements `prefix_of` map fst S
  /\ (forall k, k ∈ validated_keys -> dict_mem k S = true).
Proof.
  intros (routes & nroutes & port & _ & _ & _ & _ & _ & ->)%validate_requirements_inv.
  split; [|split; [|split]].
  - intros k Hk. by apply dict_lookup_update_other.
  - intros k Hk%dict_mem_keys. apply dict_mem_keys.
    match goal with
    | |- k ∈ map fst (dict_update _ ?items) =>
        destruct (dict_keys_update requirements items) as [added ->]
    end.
    apply elem_of_app. by left.
  - apply dict_keys_update.
  - intros k Hk.
    match goal with
    | |- context [dict_update _ (validated_items ?sn ?d ?v ?ci ?slug _ _)] =>
        destruct (dict_update_validated_lookup requirements sn d v ci slug nroutes port)
          as (H1 & H2 & H3 & H4 & H5 & H6 & H7)
    end.
    unfold validated_keys in Hk. rewrite !elem_of_cons, elem_of_nil in Hk.
    destruct Hk as [->|[->|[->|[->|[->|[->|[->|[]]]]]]]]; by eapply dict_mem_lookup.
Qed.

(** X7: the routes of a validated document.  There is at least one; each is
    a mapping whose method is one of GET, POST, PUT, DELETE, whose path
    starts with a slash, whose response is not empty and whose identifier
    is made of [a-z0-9_]; and declared routes are neither dropped nor
    added. *)
Theorem validated_routes_wellformed requirements S :
  validate_requirements requirements = Ok S ->
  exists routes,
    dict_lookup S "routes" = Some (VList routes)
    /\ routes <> []
    /\ Forall wellformed_route routes
    /\ (forall declared,
          dict_lookup requirements "routes" = Some (VList declared) -> declared <> [] ->
          length routes = length declared).
Proof.
  intros (routes & nroutes & port & _ & _ & Hl & Hr & _ & ->)%validate_requirements_inv.
  exists nroutes. split; [apply dict_update_validated_lookup|].
  destruct routes as [|r0 rs]; cbn [routes_result] in Hr.
  - injection Hr as <-. split; [done|]. split.
    + constructor; [apply default_route_wellformed|constructor].
    + intros declared Hd Hne. rewrite (dict_get_lookup _ _ _ _ Hd) in Hl.
      rewrite py_or_left in Hl by by destruct declared.
      injection Hl as ->. done.
  - pose proof (normalize_routes_length _ _ _ Hr) as Hlen. split; [by destruct nroutes|].
    split; [by eapply normalize_routes_wellformed|].
    intros declared Hd Hne. rewrite (dict_get_lookup _ _ _ _ Hd) in Hl.
    rewrite py_or_left in Hl by by destruct declared.
    injection Hl as ->. done.
Qed.

Lemma normalize_routes_first_failure index before route after vs e :
  normalize_routes index before = Ok vs ->
  normalize_route (index + length before) route = Raise e ->
  normalize_routes index (before ++ route :: after) = Raise e.
Proof.
  revert index vs. induction before as [|r rs IH]; intros index vs.
  - intros _. rewrite Nat.add_0_r. intros He. cbn [app normalize_routes]. by rewrite He.
  - cbn [app normalize_routes length].
    destruct (normalize_route index r) as [v|e0]; [|done]. cbn [mbind result_bind].
    destruct (normalize_routes (S index) rs) as [vs'|e0] eqn:Hrs; [|done].
    intros _ He. rewrite (IH _ _ Hrs); [done|].
    by replace (S index + length rs)%nat with (index + S (length rs))%nat by lia.
Qed.

(** X8: what makes a route invalid, and which route decides.  An entry that
    is not a mapping is rejected as such; a mapping with an allowed method
    but without a path, or with a path that does not start with a slash, is
    rejected for its path; the routes are checked in order and the error of
    the first invalid one is the error of the validation. *)
Theorem route_errors :
  (forall index route,
     (forall d, route <> VDict d) ->
     normalize_route index route
     = Raise (ValueError "Each route must be described by a mapping/dictionary."))
  /\ (forall index d,
        route_method d ∈ _ALLOWED_METHODS ->
        truthy (dict_get d "path" VNone) = false
        \/ startswith (py_str (dict_get d "path" VNone)) "/" = false ->
        normalize_route index (VDict d)
        = Raise (ValueError "Each route must define a path starting with '/'."))
  /\ (forall index before route after vs e,
        normalize_routes index before = Ok vs ->
        normalize_route (index + length before) route = Raise e ->
        normalize_routes index (before ++ route :: after) = Raise e)
  /\ (forall requirements before route after vs e,
        dict_mem "service_name" requirements = true ->
        dict_mem "description" requirements = true ->
        dict_lookup requirements "routes" = Some (VList (before ++ route :: after)) ->
        normalize_routes 0 before = Ok vs ->
        normalize_route (length before) route = Raise e ->
        validate_requirements requirements = Raise e).
Proof.
  split; [|split; [|split]].
  - intros index route Hd. destruct route; try done. by destruct (Hd items).
  - intros index d Hm Hp. cbn [normalize_route].
    rewrite bool_decide_eq_true_2 by done. cbn [negb].
    destruct Hp as [->| ->]; [done|]. by rewrite orb_true_r.
  - apply normalize_routes_first_failure.
  - intros requirements before route after vs e Hs Hd Hl Hb He.
    unfold validate_requirements. rewrite (ensure_fields_ok _ _ _ _ Hs Hd).
    cbn [mbind result_bind]. rewrite (dict_get_lookup _ _ _ _ Hl).
    rewrite (py_or_left (VList _)) by by destruct before.
    cbn [py_list mbind result_bind].
    rewrite (normalize_routes_first_failure 0 _ _ _ _ _ Hb He). by destruct before.
Qed.

(** X9: the project directory of a validated document lies directly below
    the destination, whatever the service name and whatever slug the
    requirements came with: the slug that validation stores is the slug of
    the service name, and [{slug}-service] is one path component. *)
Theorem project_dir_below_destination requirements S destination :
  validate_requirements requirements = Ok S ->
  exists slug,
    dict_lookup S "slug" = Some (VStr slug)
    /\ slug = slugify (py_str (dict_get requirements "service_name" VNone))
    /\ is_slug slug = true
    /\ project_dir_of destination (VStr slug) = destination ++ [slug +:+ "-service"].
Proof.
  intros (routes & nroutes & port & _ & _ & _ & _ & _ & ->)%validate_requirements_inv.
  eexists. split; [apply dict_update_validated_lookup|]. split; [reflexivity|].
  split; [apply slugify_is_slug|].
  apply project_dir_of_slug, is_slug_all_chars, slugify_is_slug.
Qed.
End ValidationExtras.

Lemma validate_requirements_missing_fields_witness :
  SimplePythonServiceTemplate.validate_requirements (rt := sample_builtins)
    [("description", VStr "d"); ("routes", VInt 3)]
  = Raise (ValueError
      "Missing required fields for template 'simple-python-service': service_name").
Proof.
  apply (validate_requirements_missing_fields (rt := sample_builtins)); reflexivity.
Defined.

Lemma validate_requirements_defaults_witness :
  exists S,
    SimplePythonServiceTemplate.validate_requirements (rt := sample_builtins)
      [("service_name", VStr "Inventory"); ("description", VStr "d")] = Ok S
    /\ dict_lookup S "port" = Some (VInt 8000).
Proof.
  eexists. split; [vm_compute; reflexivity|].
  destruct (validate_requirements_defaults (rt := sample_builtins)
              [("service_name", VStr "Inventory"); ("description", VStr "d")] _ eq_refl)
    as (sn & version & _ & _ & _ & _ & _ & _ & Hport & _).
  apply Hport. reflexivity.
Defined.

Lemma validate_requirements_keeps_other_keys_witness :
  exists S,
    SimplePythonServiceTemplate.validate_requirements (rt := sample_builtins)
      hostile_requirements = Ok S
    /\ dict_lookup S "owner" = Some (VStr "ops").
Proof.
  eexists. split; [vm_compute; reflexivity|].
  destruct (validate_requirements_keeps_other_keys (rt := sample_builtins)
              hostile_requirements _ eq_refl) as (Hkeep & _).
  rewrite Hkeep; [reflexivity|].
  apply (bool_decide_eq_false_1 _). vm_compute. reflexivity.
Defined.

Lemma validated_routes_wellformed_witness :
  exists routes,
    dict_lookup inventory_spec "routes" = Some (VList routes)
    /\ Forall wellformed_route routes.
Proof.
  destruct (validated_routes_wellformed (rt := sample_builtins) inventory_requirements
              inventory_spec eq_refl) as (routes & Hl & _ & Hwf & _).
  by exists routes.
Defined.

Lemma route_errors_witness :
  SimplePythonServiceTemplate.validate_requirements (rt := sample_builtins)
    [("service_name", VStr "a"); ("description", VStr "b");
     ("routes", VList [VDict [("path", VStr "/ok")]; VDict [("path", VStr "items")];
                       VStr "third"])]
  = Raise (ValueError "Each route must define a path starting with '/'.").
Proof.
  destruct (route_errors (rt := sample_builtins)) as (_ & _ & _ & Hfirst).
  eapply (Hfirst _ [VDict [("path", VStr "/ok")]] (VDict [("path", VStr "items")])
            [VStr "third"]); reflexivity.
Defined.

Lemma project_dir_below_destination_witness :
  exists S slug,
    SimplePythonServiceTemplate.validate_requirements (rt := sample_builtins)
      hostile_requirements = Ok S
    /\ SimplePythonServiceTemplate.project_dir_of (rt := sample_builtins) ["srv"; "out"]
         (VStr slug)
       = ["srv"; "out"; "etc-passwd-service"].
Proof.
  eexists.
  destruct (project_dir_below_destination (rt := sample_builtins) hostile_requirements _
              ["srv"; "out"] ltac:(vm_compute; reflexivity)) as (slug & Hl & -> & _ & Hp).
  eexists. split; [vm_compute; reflexivity|]. exact Hp.
Defined.

(** ** [utils.write_text] *)

Lemma make_dirs_is_dir_other f p q :
  q ∉ prefixes p -> is_dir (make_dirs f p) q = is_dir f q.
Proof.
  intros Hq. unfold is_dir. destruct q as [|c q]; [done|]. cbn [node_at].
  by rewrite make_dirs_lookup_other.
Qed.

Lemma not_elem_of_prefixes_parent (p : path) : p <> [] -> p ∉ prefixes (path_parent p).
Proof.
  intros Hp [_ [k Hk]]%elem_of_prefixes.
  induction p as [|x p _] using rev_ind; [done|].
  rewrite path_parent_snoc in Hk. apply (f_equal length) in Hk.
  rewrite !length_app in Hk. simpl in Hk. lia.
Qed.

(** X10: [write_text] creates the missing parent directories and then the
    file: when no component of the parent path is a regular file and the
    path is not a directory, it succeeds, the file holds the content, the
    parent and its ancestors are directories, and every other path is as it
    was; when a component of the parent path is a regular file it raises and
    changes nothing. *)
Theorem write_text_spec (p : path) (content : string) (f : fs) :
  (existsb (is_file f) (prefixes (path_parent p)) = false -> is_dir f p = false ->
   exists f',
     write_text p content f = (Ok tt, f')
     /\ f' !! p = Some (File content)
     /\ dir_chain f' (path_parent p)
     /\ (forall q, q <> p -> q ∉ prefixes (path_parent p) -> f' !! q = f !! q)
     /\ (forall q n, f !! q = Some n -> q <> p -> f' !! q = Some n))
  /\ (existsb (is_file f) (prefixes (path_parent p)) = true ->
      exists e, write_text p content f = (Raise e, f)).
Proof.
  split.
  - intros Hparent Hdir.
    assert (p <> []) as Hp by (by intros ->).
    pose proof (make_dirs_chain _ _ Hparent) as Hchain.
    exists (<[p := File content]> (make_dirs f (path_parent p))).
    split; [|split; [|split; [|split]]].
    + unfold write_text.
      rewrite (M_bind_ok _ _ _ _ _ (mkdir_parents_ok _ _ Hparent)).
      unfold path_write_text.
      rewrite (dir_chain_no_file _ _ Hchain), (dir_chain_is_dir _ _ Hchain). cbn [negb].
      rewrite make_dirs_is_dir_other by by apply not_elem_of_prefixes_parent.
      by rewrite Hdir.
    + apply lookup_insert_eq.
    + apply dir_chain_insert_file; [|done].
      rewrite make_dirs_lookup_other by by apply not_elem_of_prefixes_parent.
      unfold is_dir in Hdir. rewrite node_at_lookup in Hdir by done.
      by destruct (f !! p) as [[]|].
    + intros q Hq Hnp. rewrite lookup_insert_ne by done. by apply make_dirs_lookup_other.
    + intros q n Hq Hne. rewrite lookup_insert_ne by done. by apply make_dirs_preserves.
  - intros Hfile. unfold write_text, mkdir_parents, mbind, M_bind.
    induction (path_parent p) as [|c r _] using rev_ind; [done|].
    rewrite path_parent_snoc. rewrite prefixes_snoc, existsb_app in Hfile.
    destruct (existsb (is_file f) (prefixes r)); [by eexists|].
    simpl in Hfile. rewrite orb_false_r in Hfile. rewrite Hfile. by eexists.
Qed.

Lemma write_text_spec_witness :
  exists f',
    write_text ["srv"; "app"; "main.py"] "print()" {[ ["srv"] := Dir ]} = (Ok tt, f')
    /\ f' !! ["srv"; "app"; "main.py"] = Some (File "print()").
Proof.
  destruct (write_text_spec ["srv"; "app"; "main.py"] "print()" {[ ["srv"] := Dir ]})
    as [Hok _].
  destruct Hok as (f' & Hw & Hf & _); [vm_compute; reflexivity..|].
  by exists f'.
Defined.

(** ** [SimplePythonServiceTemplate.generate_project] *)

Lemma confined_ret {A} (P : path -> Prop) (a : A) : confined P (mret a).
Proof. by intros f r f' q [= _ <-]. Qed.

Lemma confined_lift {A} (P : path -> Prop) (r : result A) : confined P (lift r).
Proof. by intros f r' f' q [= _ <-]. Qed.

Lemma confined_bind {A B : Type} (P : path -> Prop) (m : M fs A) (k : A -> M fs B) :
  confined P m -> (forall a, confined P (k a)) -> confined P (m ≫= k).
Proof.
  intros Hm Hk f r f' q. unfold mbind, M_bind.
  destruct (m f) as [[a|e] f1] eqn:Hmf.
  - intros Hka Hq. rewrite (Hk _ _ _ _ _ Hka Hq). by eapply Hm.
  - intros [= _ <-] Hq. by eapply Hm.
Qed.

Lemma confined_mkdir_parents (p : path) : confined (fun q => q ∈ prefixes p) (mkdir_parents p).
Proof.
  intros f r f' q. unfold mkdir_parents.
  repeat case_match; intros [= _ <-]; try done. apply make_dirs_lookup_other.
Qed.

Lemma prefixes_parent_subseteq (p q : path) :
  q ∈ prefixes (path_parent p) -> q ∈ prefixes p.
Proof.
  induction p as [|x p _] using rev_ind; [done|].
  rewrite path_parent_snoc, prefixes_snoc, elem_of_app. by left.
Qed.

Lemma elem_of_prefixes_self (p : path) : p <> [] -> p ∈ prefixes p.
Proof. intros Hp. by apply elem_of_prefixes. Qed.

Lemma confined_write_text (p : path) c : confined (fun q => q ∈ prefixes p) (write_text p c).
Proof.
  intros f r f' q. unfold write_text, mbind, M_bind.
  destruct (mkdir_parents (path_parent p) f) as [[[]|e] f1] eqn:Hm.
  - unfold path_write_text. repeat case_match; intros [= _ <-] Hq.
    1-3: eapply confined_mkdir_parents; [done|]; by intros ?%prefixes_parent_subseteq.
    rewrite lookup_insert_ne.
    + eapply confined_mkdir_parents; [done|]. by intros ?%prefixes_parent_subseteq.
    + intros ->. apply Hq. apply elem_of_prefixes_self. intros ->.
      by match goal with H : is_dir _ [] = false |- _ => cbn in H end.
  - intros [= _ <-] Hq. eapply confined_mkdir_parents; [done|].
    by intros ?%prefixes_parent_subseteq.
Qed.

Lemma confined_weaken {A} (P Q : path -> Prop) (m : M fs A) :
  (forall q, P q -> Q q) -> confined P m -> confined Q m.
Proof. intros HPQ Hm f r f' q Hrun Hq. eapply Hm; [done|]. by intros ?%HPQ. Qed.

Lemma is_dir_lookup (f : fs) (t : path) :
  is_dir f t = true <-> t = [] \/ f !! t = Some Dir.
Proof.
  unfold is_dir. destruct t as [|x t]; cbn [node_at].
  - split; [by left|done].
  - destruct (f !! (x :: t)) as [[|c]|]; split; try done; try by right.
    all: by intros [?|?].
Qed.

Lemma mkdir_parents_Ok_inv (p : path) (f f' : fs) a :
  mkdir_parents p f = (Ok a, f') ->
  f' = make_dirs f p /\ existsb (is_file f) (prefixes p) = false.
Proof.
  unfold mkdir_parents. destruct (existsb _ (prefixes (path_parent p))) eqn:Hpar; [done|].
  destruct (is_file f p) eqn:Hfile; [done|]. intros [= _ <-]. split; [done|].
  induction p as [|x p _] using rev_ind; [done|].
  rewrite path_parent_snoc in Hpar. rewrite prefixes_snoc, existsb_app, Hpar. simpl.
  by rewrite Hfile.
Qed.

Lemma makes_dir_mkdir_parents (t p : path) : t `prefix_of` p -> makes_dir t (mkdir_parents p).
Proof.
  intros Hpre f a f' [-> Hfiles]%mkdir_parents_Ok_inv.
  apply is_dir_lookup. destruct (decide (t = [])) as [->|Hne]; [by left|right].
  pose proof (make_dirs_chain _ _ Hfiles) as Hchain.
  unfold dir_chain in Hchain. rewrite Forall_forall in Hchain.
  by apply Hchain, elem_of_prefixes.
Qed.

Lemma makes_dir_bind_l {A B : Type} (t : path) (m : M fs A) (k : A -> M fs B) :
  makes_dir t m -> (forall a, keeps_dirs (k a)) -> makes_dir t (m ≫= k).
Proof.
  intros Hm Hk f b f'. unfold mbind, M_bind.
  destruct (m f) as [[a|e] f1] eqn:Hmf; [|done].
  intros Hka. apply Hm in Hmf. apply is_dir_lookup in Hmf. apply is_dir_lookup.
  destruct Hmf as [->|Hd]; [by left|right]. by eapply Hk.
Qed.

Lemma makes_dir_bind_r {A B : Type} (t : path) (m : M fs A) (k : A -> M fs B) :
  (forall a, makes_dir t (k a)) -> makes_dir t (m ≫= k).
Proof.
  intros Hk f b f'. unfold mbind, M_bind.
  destruct (m f) as [[a|e] f1] eqn:Hmf; [|done].
  intros Hka. by eapply Hk.
Qed.

Lemma keeps_file_ret {A} (t : path) (a : A) : keeps_file t (mret a).
Proof. by intros f r f' [= _ <-]. Qed.

Lemma keeps_file_lift {A} (t : path) (r : result A) : keeps_file t (lift r).
Proof. by intros f r' f' [= _ <-]. Qed.

Lemma keeps_file_bind {A B : Type} (t : path) (m : M fs A) (k : A -> M fs B) :
  keeps_file t m -> (forall a, keeps_file t (k a)) -> keeps_file t (m ≫= k).
Proof.
  intros Hm Hk f r f'. unfold mbind, M_bind.
  destruct (m f) as [[a|e] f1] eqn:Hmf.
  - intros Hka Ht. eapply Hk; [exact Hka|]. by eapply Hm.
  - intros [= _ <-] Ht. by eapply Hm.
Qed.

Lemma is_file_lookup (f : fs) (t : path) :
  is_file f t = true <-> t <> [] /\ exists c, f !! t = Some (File c).
Proof.
  unfold is_file. destruct t as [|x t]; cbn [node_at].
  - split; [done|]. by intros [? _].
  - destruct (f !! (x :: t)) as [[|c]|]; split; try done; try by intros [_ [? ?]].
    intros _. split; [done|]. by eexists.
Qed.

Lemma keeps_file_mkdir_parents (t p : path) : keeps_file t (mkdir_parents p).
Proof.
  intros f r f'. unfold mkdir_parents.
  repeat case_match; intros [= _ <-]; try done.
  rewrite !is_file_lookup. intros [Ht [c Hc]]. split; [done|].
  exists c. by apply make_dirs_preserves.
Qed.

Lemma keeps_file_path_write_text (t p : path) c : keeps_file t (path_write_text p c).
Proof.
  intros f r f'. unfold path_write_text.
  repeat case_match; intros [= _ <-]; try done.
  rewrite !is_file_lookup. intros [Ht [c' Hc]]. split; [done|].
  destruct (decide (p = t)) as [->|Hne].
  - exists c. apply lookup_insert_eq.
  - exists c'. by rewrite lookup_insert_ne.
Qed.

Lemma keeps_file_write_text (t p : path) c : keeps_file t (write_text p c).
Proof.
  apply keeps_file_bind; [apply keeps_file_mkdir_parents|].
  intros _. apply keeps_file_path_write_text.
Qed.

Lemma makes_file_write_text (t : path) c : makes_file t (write_text t c).
Proof.
  intros f a f'. unfold write_text, mbind, M_bind.
  destruct (mkdir_parents (path_parent t) f) as [[[]|e] f1]; [|done].
  unfold path_write_text. repeat case_match; intros Hw; simplify_eq.
  apply is_file_lookup. split.
  - intros ->. by match goal with H : is_dir _ [] = false |- _ => cbn in H end.
  - eexists. apply lookup_insert_eq.
Qed.

Lemma makes_file_bind_l {A B : Type} (t : path) (m : M fs A) (k : A -> M fs B) :
  makes_file t m -> (forall a, keeps_file t (k a)) -> makes_file t (m ≫= k).
Proof.
  intros Hm Hk f b f'. unfold mbind, M_bind.
  destruct (m f) as [[a|e] f1] eqn:Hmf; [|done].
  intros Hka. eapply Hk; [exact Hka|]. by eapply Hm.
Qed.

Lemma makes_file_bind_r {A B : Type} (t : path) (m : M fs A) (k : A -> M fs B) :
  (forall a, makes_file t (k a)) -> makes_file t (m ≫= k).
Proof.
  intros Hk f b f'. unfold mbind, M_bind.
  destruct (m f) as [[a|e] f1] eqn:Hmf; [|done].
  intros Hka. by eapply Hk.
Qed.

Section GenerationExtras.
Context {rt : Builtins} {layout : Layout}.

Import SimplePythonServiceTemplate.

Local Ltac branch :=
  unfold path_child;
  solve [ reflexivity | apply prefix_app_r; reflexivity
        | do 2 apply prefix_app_r; reflexivity ].

Local Ltac project_path :=
  intros ?; unfold project_paths, project_dirs, project_targets, path_child;
  rewrite ?prefixes_snoc, !elem_of_app, !elem_of_cons, !elem_of_nil; tauto.

Local Ltac confine :=
  repeat first
    [ eapply confined_weaken; [|apply confined_write_text]; project_path
    | eapply confined_weaken; [|apply confined_mkdir_parents]; project_path
    | apply confined_lift
    | apply confined_ret
    | apply confined_bind; [|intros ?] ].

Local Ltac keep_file :=
  repeat first
    [ apply keeps_file_write_text
    | apply keeps_file_mkdir_parents
    | apply keeps_file_lift
    | apply keeps_file_ret
    | apply keeps_file_bind; [|intros ?] ].

Local Ltac make_file :=
  first
    [ apply makes_file_write_text
    | solve [apply makes_file_bind_l; [make_file|intros ?; keep_file]]
    | apply makes_file_bind_r; intros ?; make_file ].

Local Ltac keep_dirs :=
  repeat first
    [ apply keeps_dirs_write_text
    | apply keeps_dirs_mkdir_parents
    | apply keeps_dirs_lift
    | apply keeps_dirs_ret
    | apply keeps_dirs_bind; [|intros ?] ].

Local Ltac make_dir :=
  first
    [ solve [apply makes_dir_mkdir_parents; branch]
    | solve [apply makes_dir_bind_l; [make_dir|intros ?; keep_dirs]]
    | apply makes_dir_bind_r; intros ?; make_dir ].

Lemma generate_project_unfold requirements spec slug destination f :
  effective_spec requirements = Ok spec -> dict_lookup spec "slug" = Some slug ->
  generate_project requirements destination f
  = if path_exists f (project_dir_of destination slug)
    then (Raise (already_exists (project_dir_of destination slug)), f)
    else generate_files (project_dir_of destination slug) spec f.
Proof.
  intros He Hslug. unfold generate_project.
  assert ((if dict_mem "slug" requirements then mret requirements
           else lift (validate_requirements requirements)) f = (Ok spec, f)) as Hspec.
  { unfold effective_spec in He. destruct (dict_mem "slug" requirements).
    - by injection He as ->.
    - unfold lift. by rewrite He. }
  rewrite (M_bind_ok _ _ _ _ _ Hspec).
  rewrite (M_bind_lift_ok _ _ _ _ (getitem_lookup _ _ _ Hslug)).
  rewrite M_bind_get_state.
  destruct (path_exists f (project_dir_of destination slug)); reflexivity.
Qed.

Lemma confined_generate_files pd spec :
  confined (fun q => q ∈ project_paths pd) (generate_files pd spec).
Proof. unfold generate_files. confine. Qed.

Lemma keeps_dirs_generate_files pd spec : keeps_dirs (generate_files pd spec).
Proof. unfold generate_files. keep_dirs. Qed.

Lemma makes_files_generate_files pd spec :
  Forall (fun t => makes_file t (generate_files pd spec)) (project_targets pd).
Proof.
  unfold project_targets, generate_files.
  repeat (apply Forall_cons; split; [make_file|]). constructor.
Qed.

Lemma makes_dirs_generate_files pd spec :
  Forall (fun t => makes_dir t (generate_files pd spec)) (project_dirs pd).
Proof.
  unfold project_dirs, generate_files.
  repeat (apply Forall_cons; split; [make_dir|]). constructor.
Qed.

Lemma generate_project_invalid requirements e destination f :
  effective_spec requirements = Raise e ->
  generate_project requirements destination f = (Raise e, f).
Proof.
  unfold effective_spec, generate_project. destruct (dict_mem "slug" requirements); [done|].
  intros He. unfold mbind at 1, M_bind, lift. by rewrite He.
Qed.

Lemma generate_files_blocked pd spec f :
  existsb (is_file f) (prefixes pd) = true -> exists e, generate_files pd spec f = (Raise e, f).
Proof.
  intros Hb. unfold generate_files, mbind at 1, M_bind, mkdir_parents.
  unfold path_child. rewrite path_parent_snoc, Hb. by eexists.
Qed.

(** X11: [generate_project] validates requirements that carry no slug
    before anything else: when validation fails, the error of validation is
    raised and the file system is as it was; when it succeeds, generation
    goes on exactly as for the validated document. *)
Theorem generate_project_validates_first requirements destination f :
  dict_mem "slug" requirements = false ->
  match validate_requirements requirements with
  | Raise e => generate_project requirements destination f = (Raise e, f)
  | Ok spec =>
      generate_project requirements destination f = generate_project spec destination f
  end.
Proof.
  intros Hslug. destruct (validate_requirements requirements) as [S|e] eqn:Hv.
  - apply generate_project_effective. unfold effective_spec. by rewrite Hslug.
  - apply generate_project_invalid. unfold effective_spec. by rewrite Hslug.
Qed.

Lemma project_paths_below (pd q : path) :
  q ∈ project_dirs pd ++ project_targets pd -> exists k, q = pd ++ k.
Proof.
  unfold project_dirs, project_targets, path_child.
  rewrite elem_of_app, !elem_of_cons, !elem_of_nil.
  intros H; repeat (destruct H as [H|H]); try done; subst q;
    rewrite <- ?(assoc_L (++)); try by eexists.
  exists []. by rewrite app_nil_r.
Qed.

(** X12: whatever its outcome, [generate_project] changes nothing but the
    paths of the project: a path that is not the project directory, nor one
    of its ancestors, nor one of its [app], [tests] and [k8s] directories,
    nor one of the ten project files, holds after the call what it held
    before. *)
Theorem generate_project_confined requirements spec slug destination f r f' :
  effective_spec requirements = Ok spec -> dict_lookup spec "slug" = Some slug ->
  generate_project requirements destination f = (r, f') ->
  forall q, q ∉ project_paths (project_dir_of destination slug) -> f' !! q = f !! q.
Proof.
  intros He Hslug. rewrite (generate_project_unfold _ _ _ _ _ He Hslug).
  destruct (path_exists f (project_dir_of destination slug)).
  - by intros [= _ <-].
  - intros Hrun q Hq. by eapply confined_generate_files.
Qed.

Lemma generate_files_keeps pd spec f r f' :
  fs_wf f -> pd <> [] -> f !! pd = None ->
  generate_files pd spec f = (r, f') ->
  forall q n, f !! q = Some n -> f' !! q = Some n.
Proof.
  intros Hwf Hpd Habs Hrun q n Hq.
  destruct n as [|c]; [by eapply keeps_dirs_generate_files|].
  destruct (decide (q ∈ project_paths pd)) as [Hin|Hout]; cycle 1.
  { rewrite <- Hq. by eapply confined_generate_files. }
  unfold project_paths in Hin. apply elem_of_app in Hin as [Hpre|Hbelow].
  - destruct (generate_files_blocked pd spec f) as [e He'].
    + apply existsb_exists. exists q. split; [by apply list_elem_of_In|].
      apply is_file_lookup. apply elem_of_prefixes in Hpre as [Hne _].
      split; [done|]. by exists c.
    + rewrite He' in Hrun. by injection Hrun as _ <-.
  - apply project_paths_below in Hbelow as [k ->].
    by rewrite (fs_wf_absent _ _ k Hwf Hpd Habs) in Hq.
Qed.

(** X13: on a well-formed file system [generate_project] never removes or
    overwrites anything, whatever its outcome and whatever the
    requirements: every file and directory that was there before the call is
    there after it, a file with the content it had. *)
Theorem generate_project_keeps_existing requirements destination f r f' :
  fs_wf f ->
  generate_project requirements destination f = (r, f') ->
  forall q n, f !! q = Some n -> f' !! q = Some n.
Proof.
  intros Hwf Hrun.
  destruct (effective_spec requirements) as [spec|e] eqn:He; cycle 1.
  { rewrite (generate_project_invalid _ _ _ _ He) in Hrun. by injection Hrun as _ <-. }
  destruct (effective_spec_slug _ _ He) as [slug Hslug].
  rewrite (generate_project_unfold _ _ _ _ _ He Hslug) in Hrun.
  set (pd := project_dir_of destination slug) in *.
  destruct (path_exists f pd) eqn:Hex; [by injection Hrun as _ <-|].
  assert (pd <> []) as Hpd by (by intros Hnil; rewrite Hnil in Hex).
  assert (f !! pd = None) as Habs.
  { unfold path_exists in Hex. rewrite node_at_lookup in Hex by done.
    by destruct (f !! pd). }
  by eapply generate_files_keeps.
Qed.

(** X15: requirements that carry a slug are not validated by
    [generate_project]: when such a document lacks the description, the call
    creates the project directory with its [app], [tests] and [k8s]
    directories and nothing else, then raises [KeyError] and leaves them
    behind, so that a second call refuses with [FileExistsError]. *)
Theorem generate_project_unvalidated_partial requirements slug destination f :
  dict_lookup requirements "slug" = Some slug ->
  dict_lookup requirements "description" = None ->
  let pd := project_dir_of destination slug in
  fs_wf f -> existsb (is_file f) (prefixes pd) = false -> path_exists f pd = false ->
  let f' := make_dirs (make_dirs (make_dirs f (path_child pd "app")) (path_child pd "tests"))
              (path_child pd "k8s") in
  generate_project requirements destination f
  = (Raise (KeyError (py_repr (VStr "description"))), f')
  /\ generate_project requirements destination f' = (Raise (already_exists pd), f').
Proof.
  intros Hslug Hdesc pd Hwf Hfiles Hex f'.
  assert (effective_spec requirements = Ok requirements) as He.
  { unfold effective_spec. by rewrite (dict_mem_lookup _ _ _ Hslug). }
  assert (pd <> []) as Hpd by (by intros Hnil; rewrite Hnil in Hex).
  assert (f !! pd = None) as Habs.
  { unfold path_exists in Hex. rewrite node_at_lookup in Hex by done.
    by destruct (f !! pd). }
  destruct (exists_last Hpd) as (dest & x & Hsnoc).
  assert (existsb (is_file f) (prefixes dest) = false) as Hdest.
  { apply no_file_prefix. apply no_file_prefix in Hfiles.
    rewrite Hsnoc, prefixes_snoc, Forall_app in Hfiles. by destruct Hfiles. }
  rewrite Hsnoc in Habs.
  destruct (gen_inv_init f dest x Hwf Hdest Habs) as (f1 & f2 & f3 & H1 & H2 & H3 & Hinv).
  rewrite <- Hsnoc in H1, H2, H3, Hinv.
  pose proof (mkdir_parents_Ok_inv _ _ _ _ H1) as [-> _].
  pose proof (mkdir_parents_Ok_inv _ _ _ _ H2) as [-> _].
  pose proof (mkdir_parents_Ok_inv _ _ _ _ H3) as [-> _].
  fold f' in H3, Hinv.
  rewrite !(generate_project_unfold _ _ _ _ _ He Hslug). fold pd.
  rewrite Hex. split.
  - unfold generate_files.
    rewrite (M_bind_ok _ _ _ _ _ H1), (M_bind_ok _ _ _ _ _ H2), (M_bind_ok _ _ _ _ _ H3).
    unfold _write_app_package, getitem, subscript. by rewrite Hdesc.
  - pose proof (dir_chain_is_dir _ _ (gen_inv_project_dir _ _ Hinv)) as Hdir.
    unfold path_exists. unfold is_dir in Hdir. by destruct (node_at f' pd).
Qed.
End GenerationExtras.
(** ** Well-formed file systems *)

Lemma keeps_wf_ret {A : Type} (a : A) : keeps_wf (mret a : M fs A).
Proof. by intros f r f' [= _ <-]. Qed.

Lemma keeps_wf_lift {A : Type} (r : result A) : keeps_wf (lift r : M fs A).
Proof. by intros f r' f' [= _ <-]. Qed.

Lemma keeps_wf_bind {A B : Type} (m : M fs A) (k : A -> M fs B) :
  keeps_wf m -> (forall a, keeps_wf (k a)) -> keeps_wf (m ≫= k).
Proof.
  intros Hm Hk f r f'. unfold mbind, M_bind.
  destruct (m f) as [[a|e] f1] eqn:Hmf.
  - intros Hka Hwf. eapply Hk; [exact Hka|]. by eapply Hm.
  - intros [= _ <-] Hwf. by eapply Hm.
Qed.

Lemma make_dirs_wf (f : fs) (p : path) :
  fs_wf f -> existsb (is_file f) (prefixes p) = false -> fs_wf (make_dirs f p).
Proof.
  intros Hwf Hfiles q n Hq. cbn beta. rewrite make_dirs_lookup in Hq.
  destruct (f !! q) as [n'|] eqn:Hfq.
  - specialize (Hwf _ _ Hfq). cbn beta in Hwf. apply is_dir_lookup in Hwf.
    apply is_dir_lookup. destruct Hwf as [?|Hd]; [by left|right].
    by apply make_dirs_preserves.
  - case_bool_decide as Hin; [|done].
    pose proof (make_dirs_chain _ _ Hfiles) as Hchain.
    apply elem_of_prefixes in Hin as [Hne [k ->]].
    induction q as [|x q _] using rev_ind; [done|].
    rewrite path_parent_snoc. apply is_dir_lookup.
    destruct (decide (q = [])) as [->|Hq']; [by left|right].
    unfold dir_chain in Hchain. rewrite Forall_forall in Hchain. apply Hchain.
    apply elem_of_prefixes. split; [done|]. exists ([x] ++ k). by rewrite !(assoc_L (++)).
Qed.

Lemma keeps_wf_mkdir_parents (p : path) : keeps_wf (mkdir_parents p).
Proof.
  intros f r f' Hrun Hwf. destruct r as [[]|e].
  - apply mkdir_parents_Ok_inv in Hrun as [-> Hfiles]. by apply make_dirs_wf.
  - unfold mkdir_parents in Hrun. repeat case_match; by simplify_eq.
Qed.

Lemma keeps_wf_path_write_text (p : path) c : keeps_wf (path_write_text p c).
Proof.
  intros f r f'. unfold path_write_text.
  destruct (existsb _ _); [by intros [= _ <-]|].
  destruct (is_dir f (path_parent p)) eqn:Hpar; cbn [negb]; [|by intros [= _ <-]].
  destruct (is_dir f p) eqn:Hp; [by intros [= _ <-]|].
  intros [= _ <-] Hwf q n. cbn beta.
  assert (forall t, is_dir f t = true -> is_dir (<[p := File c]> f) t = true) as Hkeep.
  { intros t [->|Ht]%is_dir_lookup; [done|]. apply is_dir_lookup. right.
    rewrite lookup_insert_ne; [done|]. intros <-.
    rewrite (proj2 (is_dir_lookup f p)) in Hp; [done|by right]. }
  destruct (decide (p = q)) as [<-|Hne].
  - intros _. by apply Hkeep.
  - rewrite lookup_insert_ne by done. intros Hq. apply Hkeep. by apply (Hwf _ _ Hq).
Qed.

Lemma keeps_wf_write_text (p : path) c : keeps_wf (write_text p c).
Proof.
  apply keeps_wf_bind; [apply keeps_wf_mkdir_parents|].
  intros _. apply keeps_wf_path_write_text.
Qed.

(** ** The sorted listing of the manifests *)

Lemma insert_sorted_elem_of {A} (le : A -> A -> bool) x y l :
  y ∈ insert_sorted le x l <-> y = x \/ y ∈ l.
Proof.
  induction l as [|z l IH]; simpl.
  - rewrite list_elem_of_singleton, elem_of_nil. tauto.
  - destruct (le x z); rewrite !elem_of_cons; [tauto|]. rewrite IH. tauto.
Qed.

Lemma sort_by_elem_of {A} (le : A -> A -> bool) y l : y ∈ sort_by le l <-> y ∈ l.
Proof.
  induction l as [|z l IH]; simpl; [done|].
  rewrite insert_sorted_elem_of, elem_of_cons, IH. tauto.
Qed.

Lemma insert_sorted_HdRel y x l :
  string_le y x -> HdRel string_le y l -> HdRel string_le y (insert_sorted String.leb x l).
Proof.
  intros Hyx Hl. destruct l as [|z l]; simpl; [by constructor|].
  destruct (String.leb x z); [by constructor|].
  constructor. by inversion Hl.
Qed.

Lemma insert_sorted_Sorted x l :
  Sorted string_le l -> Sorted string_le (insert_sorted String.leb x l).
Proof.
  induction 1 as [|z l Hl IH Hz]; simpl; [by repeat constructor|].
  destruct (String.leb x z) eqn:Hxz.
  - constructor; [by constructor|]. by constructor.
  - constructor; [exact IH|]. apply insert_sorted_HdRel; [|done].
    destruct (String.leb_total z x) as [H|H]; [done|]. unfold string_le. congruence.
Qed.

Lemma sorted_strings_Sorted l : Sorted string_le (sorted_strings l).
Proof.
  unfold sorted_strings, sort_by. induction l as [|x l IH]; simpl; [constructor|].
  by apply insert_sorted_Sorted.
Qed.

Lemma child_name_Some d p n : child_name d p = Some n <-> p = d ++ [n].
Proof.
  unfold child_name. split.
  - destruct (last p) as [n'|]; [|done]. case_decide; [|done]. by intros [= <-].
  - intros ->. rewrite last_snoc. by rewrite decide_True.
Qed.

Lemma elem_of_listdir (f : fs) d n : n ∈ listdir f d <-> is_Some (f !! (d ++ [n])).
Proof.
  unfold listdir. rewrite list_elem_of_omap. split.
  - intros ([p x] & Hin & Hc). apply elem_of_map_to_list in Hin.
    apply child_name_Some in Hc. simpl in Hc. subst p. by eexists.
  - intros [x Hx]. exists (d ++ [n], x). split; [by apply elem_of_map_to_list|].
    by apply child_name_Some.
Qed.

Lemma ascii_compare_trans_le (a b c : ascii) :
  Ascii.compare a b <> Gt -> Ascii.compare b c <> Gt -> Ascii.compare a c <> Gt.
Proof. unfold Ascii.compare. rewrite !N.compare_le_iff. lia. Qed.

Lemma ascii_compare_Eq (a b : ascii) : Ascii.compare a b = Eq <-> a = b.
Proof.
  split; [apply Ascii.compare_eq_iff|]. intros ->. unfold Ascii.compare.
  apply N.compare_refl.
Qed.

Lemma string_compare_trans_le (a b c : string) :
  String.compare a b <> Gt -> String.compare b c <> Gt -> String.compare a c <> Gt.
Proof.
  revert b c. induction a as [|x a IH]; intros [|y b] [|z c]; simpl; try done.
  destruct (Ascii.compare x y) eqn:Hxy; [|..|done].
  - apply ascii_compare_Eq in Hxy as ->.
    destruct (Ascii.compare y z); [apply IH|done..].
  - destruct (Ascii.compare y z) eqn:Hyz; [..|done].
    + apply ascii_compare_Eq in Hyz as ->. by rewrite Hxy.
    + intros _ _. pose proof (ascii_compare_trans_le x y z) as Ht.
      rewrite Hxy, Hyz in Ht.
      destruct (Ascii.compare x z) eqn:Hxz; [|done|by apply Ht].
      apply ascii_compare_Eq in Hxz as ->.
      unfold Ascii.compare in Hxy, Hyz. rewrite N.compare_lt_iff in Hxy, Hyz. lia.
Qed.

#[local] Instance string_le_trans : Transitive string_le.
Proof.
  intros a b c. unfold string_le, String.leb.
  pose proof (string_compare_trans_le a b c) as Ht.
  destruct (String.compare a b), (String.compare b c), (String.compare a c);
    try done; intros _ _; exfalso; by apply Ht.
Qed.

#[local] Instance string_le_antisymm : AntiSymm (=) string_le.
Proof. intros a b. apply String.leb_antisym. Qed.

Lemma insert_sorted_Permutation {A} (le : A -> A -> bool) x l :
  insert_sorted le x l ≡ₚ x :: l.
Proof.
  induction l as [|y l IH]; simpl; [done|].
  destruct (le x y); [done|]. rewrite IH. apply Permutation_swap.
Qed.

Lemma sort_by_Permutation {A} (le : A -> A -> bool) l : sort_by le l ≡ₚ l.
Proof.
  induction l as [|x l IH]; simpl; [done|].
  by rewrite insert_sorted_Permutation, IH.
Qed.

Lemma sorted_strings_eq (l names : list string) :
  Sorted string_le names -> l ≡ₚ names -> sorted_strings l = names.
Proof.
  intros Hs Hp. apply (Sorted_unique string_le); [apply sorted_strings_Sorted|done|].
  unfold sorted_strings. by rewrite sort_by_Permutation.
Qed.

Lemma NoDup_omap_inj {A B : Type} (g : A -> option B) (l : list A) :
  (forall x y z, x ∈ l -> y ∈ l -> g x = Some z -> g y = Some z -> x = y) ->
  NoDup l -> NoDup (omap g l).
Proof.
  intros Hinj Hnd. induction Hnd as [|x l Hx Hnd IH]; simpl; [constructor|].
  assert (NoDup (omap g l)) as IH'.
  { apply IH. intros a b z Ha Hb. apply Hinj; by right. }
  destruct (g x) as [z|] eqn:Hgx; [|done].
  constructor; [|done]. intros (y & Hy & Hgy)%list_elem_of_omap.
  assert (x = y) as -> by (eapply Hinj; [by left|by right|done..]). done.
Qed.

Lemma listdir_NoDup (f : fs) (d : path) : NoDup (listdir f d).
Proof.
  unfold listdir. apply NoDup_omap_inj; [|apply NoDup_map_to_list].
  intros [p x] [q y] n Hp Hq Hx%child_name_Some Hy%child_name_Some. simpl in *. subst.
  apply elem_of_map_to_list in Hp, Hq. congruence.
Qed.

(** The listing does not depend on anything but the entries of the
    directory whose name ends in [.yaml]. *)
Lemma sorted_glob_yaml_eq (f : fs) (d : path) (names : list string) :
  Sorted string_le names -> NoDup names ->
  (forall n, n ∈ names <-> endswith n ".yaml" = true /\ is_Some (f !! path_child d n)) ->
  sorted_glob_yaml f d = map (path_child d) names.
Proof.
  intros Hs Hnd Hnames. unfold sorted_glob_yaml. f_equal.
  apply sorted_strings_eq; [done|].
  apply NoDup_Permutation; [apply NoDup_filter, listdir_NoDup|done|].
  intros n. rewrite list_elem_of_filter, elem_of_listdir, Hnames. unfold path_child.
  split; intros [Hy ?]; (split; [|done]).
  - by apply Is_true_true.
  - by apply Is_true_true.
Qed.

Lemma sorted_glob_yaml_names (f : fs) (d : path) :
  exists names,
    sorted_glob_yaml f d = map (path_child d) names
    /\ Sorted string_le names
    /\ NoDup names
    /\ forall n, n ∈ names <-> endswith n ".yaml" = true /\ is_Some (f !! path_child d n).
Proof.
  eexists. split; [reflexivity|]. split; [apply sorted_strings_Sorted|]. split.
  { unfold sorted_strings. rewrite sort_by_Permutation.
    apply NoDup_filter, listdir_NoDup. }
  intros n. unfold sorted_strings. rewrite sort_by_elem_of, list_elem_of_filter.
  rewrite elem_of_listdir. unfold path_child.
  split; intros [Hy Hs]; (split; [|done]).
  - by apply Is_true_true.
  - by apply Is_true_true.
Qed.

(** ** [KubernetesDeployer.deploy] *)

Section DeployerExtras.
Context {host : Host}.

Import KubernetesDeployer.

Lemma apply_manifests_inv kubectl namespace paths manifests executed w d w' :
  apply_manifests kubectl namespace paths manifests executed w = (Ok d, w') ->
  manifest_files d = paths
  /\ exists ran,
       ran `prefix_of` manifests
       /\ command_sequence d = executed ++ map (apply_command kubectl namespace) ran
       /\ map ev_command (proc_log w')
          = map ev_command (proc_log w) ++ map (apply_command kubectl namespace) ran
       /\ if applied d
          then ran = manifests /\ applies_ok kubectl namespace w manifests w'
          else exists before manifest w1 completed,
                 ran = before ++ [manifest]
                 /\ applies_ok kubectl namespace w before w1
                 /\ subprocess_run (apply_command kubectl namespace manifest) None w1
                    = (Ok completed, w')
                 /\ returncode completed <> 0.
Proof.
  revert executed w. induction manifests as [|manifest rest IH]; intros executed w.
  - intros [= <- <-]. split; [done|]. exists []. cbn. rewrite !app_nil_r.
    repeat split; try done. constructor.
  - cbn [apply_manifests]. unfold mbind at 1, M_bind.
    destruct (subprocess_run _ None w) as [[completed|e] w1] eqn:Hrun; [|done].
    pose proof (subprocess_run_log _ _ _ _ _ Hrun) as Hlog.
    destruct (returncode completed =? 0) eqn:Hcode; cbn [negb].
    + intros (Hp & ran & Hpre & Hseq & Hl & Hcase)%IH. split; [done|].
      exists (manifest :: ran). split; [by apply prefix_cons|].
      split; [by rewrite Hseq, <- (assoc_L (++))|].
      split; [by rewrite Hl, Hlog, <- (assoc_L (++))|].
      apply Z.eqb_eq in Hcode.
      destruct (applied d).
      * destruct Hcase as [-> Hok]. split; [done|]. by econstructor.
      * destruct Hcase as (before & m & w2 & c & -> & Hok & Hm & Hne).
        exists (manifest :: before), m, w2, c. repeat split; try done. by econstructor.
    + intros [= <- <-]. split; [done|]. exists [manifest].
      split; [apply prefix_cons, prefix_nil|]. split; [done|]. split; [done|]. cbn.
      exists [], manifest, w, completed. repeat split; try done; [constructor|].
      by apply Z.eqb_neq.
Qed.

Lemma deploy_unfold self project_path namespace w :
  let manifests := sorted_glob_yaml (files w) (path_child project_path "k8s") in
  deploy self project_path namespace w =
  match manifests with
  | [] => (Ok {| applied := false; manifest_files := [];
                 message := "No Kubernetes manifests found."; command_sequence := [] |}, w)
  | _ =>
      match _kubectl self with
      | None | Some EmptyString =>
          let plan_path := path_child (path_child project_path "k8s") "deployment-plan.txt" in
          (on_files (path_write_text plan_path (dry_run_plan (map path_str manifests))) ;;
           mret {| applied := false;
                   manifest_files := map path_str manifests;
                   message := "kubectl not available. Plan written to "
                              +:+ path_str plan_path +:+ ".";
                   command_sequence := [] |}) w
      | Some kubectl =>
          apply_manifests kubectl namespace (map path_str manifests) manifests [] w
      end
  end.
Proof.
  intros manifests. unfold deploy. rewrite M_bind_get_state. fold manifests.
  destruct manifests; [reflexivity|]. destruct (_kubectl self) as [[|]|]; reflexivity.
Qed.

Lemma on_files_then_ret_inv {A : Type} (wr : M fs unit) (a : A) w r w' :
  (on_files wr ;; mret a) w = (Ok r, w') ->
  r = a /\ proc_log w' = proc_log w
  /\ exists f', wr (files w) = (Ok tt, f') /\ files w' = f'.
Proof.
  unfold mbind, M_bind, on_files.
  destruct (wr (files w)) as [[[]|e] f1]; [|done]. intros [= <- <-]. cbn. eauto.
Qed.

(** X16: the manifests that [deploy] reports are the entries of the
    [k8s] directory of the project whose name ends in [.yaml], each one
    once, in the ascending order of their names; entries with another suffix
    are not among them. *)
Theorem deploy_manifest_listing self project_path namespace w d w' :
  deploy self project_path namespace w = (Ok d, w') ->
  let manifest_dir := path_child project_path "k8s" in
  exists names,
    manifest_files d = map (fun n => path_str (path_child manifest_dir n)) names
    /\ Sorted string_le names
    /\ NoDup names
    /\ forall n, n ∈ names <->
                 endswith n ".yaml" = true /\ is_Some (files w !! path_child manifest_dir n).
Proof.
  intros Hrun manifest_dir.
  destruct (sorted_glob_yaml_names (files w) manifest_dir) as (names & Heq & Hs & Hnd & Hn).
  exists names. split; [|done].
  rewrite deploy_unfold in Hrun. fold manifest_dir in Hrun. rewrite Heq in Hrun.
  rewrite <- (map_map (path_child manifest_dir) path_str).
  destruct names as [|n names]; [by injection Hrun as <- _|]. cbn [map] in Hrun.
  destruct (_kubectl self) as [[|c kubectl]|].
  - by apply on_files_then_ret_inv in Hrun as (-> & _).
  - by apply apply_manifests_inv in Hrun as (-> & _).
  - by apply on_files_then_ret_inv in Hrun as (-> & _).
Qed.

(** X17: what a deployment reports is what it did.  In every outcome of
    [deploy] the manifests of the result are the sorted listing of the
    [k8s] directory, and its command sequence is exactly the list of the
    processes that the call started: one [kubectl apply] for each manifest
    of an initial part of the listing, in that order. *)
Theorem deploy_reports_what_ran self project_path namespace w d w' :
  deploy self project_path namespace w = (Ok d, w') ->
  let manifests := sorted_glob_yaml (files w) (path_child project_path "k8s") in
  manifest_files d = map path_str manifests
  /\ map ev_command (proc_log w') = map ev_command (proc_log w) ++ command_sequence d
  /\ exists ran,
       ran `prefix_of` manifests
       /\ command_sequence d
          = map (apply_command (default "" (_kubectl self)) namespace) ran.
Proof.
  intros Hrun manifests. rewrite deploy_unfold in Hrun. fold manifests in Hrun.
  destruct manifests as [|m0 ms] eqn:Hm.
  - injection Hrun as <- <-. cbn. rewrite app_nil_r. repeat split.
    exists []. by split.
  - destruct (_kubectl self) as [[|c kubectl]|] eqn:Hk.
    + apply on_files_then_ret_inv in Hrun as (-> & -> & _). cbn. rewrite app_nil_r.
      repeat split. exists []. split; [apply prefix_nil|done].
    + apply apply_manifests_inv in Hrun as (Hp & ran & Hpre & Hseq & Hlog & _).
      cbn [default]. rewrite Hseq. cbn [app]. split; [done|]. split; [done|]. by exists ran.
    + apply on_files_then_ret_inv in Hrun as (-> & -> & _). cbn. rewrite app_nil_r.
      repeat split. exists []. split; [apply prefix_nil|done].
Qed.

(** X18: a deployment is reported as applied only when it was: if the
    outcome of [deploy] has [applied = true], then a cluster CLI is
    configured, the listing is not empty, and every manifest of the listing
    was applied, in order, by a command that exited with code zero. *)
Theorem deploy_applied_sound self project_path namespace w d w' :
  deploy self project_path namespace w = (Ok d, w') ->
  applied d = true ->
  let manifests := sorted_glob_yaml (files w) (path_child project_path "k8s") in
  exists kubectl,
    _kubectl self = Some kubectl /\ kubectl <> ""
    /\ manifests <> []
    /\ applies_ok kubectl namespace w manifests w'
    /\ command_sequence d = map (apply_command kubectl namespace) manifests.
Proof.
  intros Hrun Happlied manifests. rewrite deploy_unfold in Hrun. fold manifests in Hrun.
  destruct manifests as [|m0 ms] eqn:Hm.
  - injection Hrun as <- _. done.
  - destruct (_kubectl self) as [[|c kubectl]|] eqn:Hk.
    + by apply on_files_then_ret_inv in Hrun as (-> & _).
    + apply apply_manifests_inv in Hrun as (_ & ran & _ & Hseq & _ & Hcase).
      rewrite Happlied in Hcase. destruct Hcase as [-> Hok].
      exists (String c kubectl). by repeat split.
    + by apply on_files_then_ret_inv in Hrun as (-> & _).
Qed.

Lemma fs_wf_dir_chain (f : fs) (p : path) : fs_wf f -> is_dir f p = true -> dir_chain f p.
Proof.
  intros Hwf. induction p as [|x p IH] using rev_ind; [by constructor|].
  intros [Hnil|Hd]%is_dir_lookup; [by destruct p|].
  unfold dir_chain. rewrite prefixes_snoc, Forall_app. split.
  - apply IH. specialize (Hwf _ _ Hd). cbn beta in Hwf. by rewrite path_parent_snoc in Hwf.
  - by repeat constructor.
Qed.

Lemma sorted_glob_yaml_parent (f : fs) (d : path) :
  fs_wf f -> sorted_glob_yaml f d <> [] -> dir_chain f d.
Proof.
  intros Hwf Hne. destruct (sorted_glob_yaml_names f d) as (names & Heq & _ & _ & Hnames).
  destruct names as [|n names]; [by rewrite Heq in Hne|].
  destruct (proj1 (Hnames n)) as [_ [x Hx]]; [by left|].
  apply fs_wf_dir_chain; [done|]. specialize (Hwf _ _ Hx). cbn beta in Hwf.
  unfold path_child in Hwf. by rewrite path_parent_snoc in Hwf.
Qed.

Lemma path_write_text_beside_manifests (f : fs) (d : path) (name c : string) :
  fs_wf f -> sorted_glob_yaml f d <> [] -> is_dir f (path_child d name) = false ->
  path_write_text (path_child d name) c f = (Ok tt, <[path_child d name := File c]> f).
Proof.
  intros Hwf Hne Hplan. pose proof (sorted_glob_yaml_parent _ _ Hwf Hne) as Hchain.
  assert (path_parent (path_child d name) = d) as Hpar by apply path_parent_snoc.
  unfold path_write_text. rewrite Hpar.
  rewrite (dir_chain_no_file _ _ Hchain), (dir_chain_is_dir _ _ Hchain). cbn [negb].
  by rewrite Hplan.
Qed.

Lemma deploy_dry_run_eq self project_path namespace w :
  _kubectl self = None \/ _kubectl self = Some "" ->
  let manifest_dir := path_child project_path "k8s" in
  let manifests := sorted_glob_yaml (files w) manifest_dir in
  let plan_path := path_child manifest_dir "deployment-plan.txt" in
  fs_wf (files w) -> manifests <> [] -> is_dir (files w) plan_path = false ->
  deploy self project_path namespace w
  = (Ok (dry_run_result manifest_dir manifests),
     {| files := <[plan_path := File (dry_run_plan (map path_str manifests))]> (files w);
        proc_log := proc_log w |}).
Proof.
  intros Hk manifest_dir manifests plan_path Hwf Hne Hplan.
  rewrite deploy_unfold. fold manifest_dir manifests plan_path.
  pose proof (path_write_text_beside_manifests _ _ _
                (dry_run_plan (map path_str manifests)) Hwf Hne Hplan) as Hwrite.
  fold manifests plan_path in Hwrite.
  destruct manifests as [|m0 ms] eqn:Hm; [done|].
  destruct Hk as [-> | ->]; by rewrite (M_bind_ok _ _ _ _ _ (on_files_ok _ _ _ _ Hwrite)).
Qed.

Lemma sorted_glob_yaml_insert_other (f : fs) (d : path) (name : string) (n : node) :
  endswith name ".yaml" = false ->
  sorted_glob_yaml (<[path_child d name := n]> f) d = sorted_glob_yaml f d.
Proof.
  intros Hname.
  destruct (sorted_glob_yaml_names f d) as (names & -> & Hs & Hnd & Hn).
  apply sorted_glob_yaml_eq; [done..|]. intros k. rewrite Hn.
  split; intros [Hy Hk]; (split; [done|]).
  - rewrite lookup_insert_ne; [done|]. unfold path_child. intros [= ->]%(inj (d ++.)).
    congruence.
  - rewrite lookup_insert_ne in Hk; [done|]. unfold path_child.
    intros [= ->]%(inj (d ++.)). congruence.
Qed.

(** X19: without a cluster CLI, [deploy] starts no process: when the
    listing is not empty it writes the dry-run plan, one line for each
    manifest after the two lines of the heading, beside the manifests,
    changes no other file, and reports [applied = false] with an empty
    command sequence.  The plan is not a manifest: a second deployment
    reports the same and leaves everything as the first one left it. *)
Theorem deploy_dry_run self project_path namespace w :
  _kubectl self = None \/ _kubectl self = Some "" ->
  let manifest_dir := path_child project_path "k8s" in
  let manifests := sorted_glob_yaml (files w) manifest_dir in
  let plan_path := path_child manifest_dir "deployment-plan.txt" in
  fs_wf (files w) -> manifests <> [] -> is_dir (files w) plan_path = false ->
  let result :=
    {| applied := false;
       manifest_files := map path_str manifests;
       message := "kubectl not available. Plan written to " +:+ path_str plan_path +:+ ".";
       command_sequence := [] |} in
  let w1 :=
    {| files := <[plan_path := File (dry_run_plan (map path_str manifests))]> (files w);
       proc_log := proc_log w |} in
  deploy self project_path namespace w = (Ok result, w1)
  /\ deploy self project_path namespace w1 = (Ok result, w1).
Proof.
  intros Hk manifest_dir manifests plan_path Hwf Hne Hplan result w1.
  split; [by apply deploy_dry_run_eq|].
  assert (sorted_glob_yaml (files w1) manifest_dir = manifests) as Hsame.
  { by apply sorted_glob_yaml_insert_other. }
  rewrite (deploy_dry_run_eq self project_path namespace w1 Hk).
  - fold manifest_dir. rewrite Hsame. fold manifests plan_path. unfold w1. cbn [files proc_log].
    by rewrite insert_insert_eq.
  - cbn [files w1]. eapply keeps_wf_path_write_text; [|exact Hwf].
    by apply path_write_text_beside_manifests.
  - fold manifest_dir. by rewrite Hsame.
  - fold manifest_dir plan_path. unfold is_dir, w1. cbn [files].
    rewrite node_at_lookup by (by destruct manifest_dir).
    by rewrite lookup_insert_eq.
Qed.

(** X20: a project without manifests is not deployed: when the [k8s]
    directory holds no entry whose name ends in [.yaml] (or is not there at
    all), [deploy] reports [applied = false] with no manifest and no
    command, whether or not a cluster CLI is configured, and starts no
    process and writes no file. *)
Theorem deploy_without_manifests self project_path namespace w :
  (forall n, endswith n ".yaml" = true ->
             files w !! path_child (path_child project_path "k8s") n = None) ->
  deploy self project_path namespace w
  = (Ok {| applied := false; manifest_files := [];
           message := "No Kubernetes manifests found."; command_sequence := [] |}, w).
Proof.
  intros Hnone. rewrite deploy_unfold.
  destruct (sorted_glob_yaml_names (files w) (path_child project_path "k8s"))
    as (names & -> & _ & _ & Hnames).
  destruct names as [|n names]; [done|].
  destruct (proj1 (Hnames n)) as [Hy [x Hx]]; [by left|].
  by rewrite (Hnone n Hy) in Hx.
Qed.
End DeployerExtras.

Section PipelineExtras.
Context {rt : Builtins} {layout : Layout} {host : Host}.

Import SimplePythonServiceTemplate.

Local Ltac keep_wf :=
  repeat first
    [ apply keeps_wf_write_text
    | apply keeps_wf_mkdir_parents
    | apply keeps_wf_lift
    | apply keeps_wf_ret
    | apply keeps_wf_bind; [|intros ?] ].

Lemma keeps_wf_generate_files pd spec : keeps_wf (generate_files pd spec).
Proof. unfold generate_files. keep_wf. Qed.

Lemma keeps_wf_generate_project requirements destination :
  keeps_wf (generate_project requirements destination).
Proof.
  intros f r f' Hrun Hwf.
  destruct (effective_spec requirements) as [spec|e] eqn:He; cycle 1.
  { rewrite (generate_project_invalid _ _ _ _ He) in Hrun. by injection Hrun as _ <-. }
  destruct (effective_spec_slug _ _ He) as [slug Hslug].
  rewrite (generate_project_unfold _ _ _ _ _ He Hslug) in Hrun.
  destruct (path_exists f _); [by injection Hrun as _ <-|].
  by eapply keeps_wf_generate_files.
Qed.

Lemma generate_files_manifests pd spec f a f' :
  fs_wf f -> pd <> [] -> f !! pd = None ->
  generate_files pd spec f = (Ok a, f') ->
  sorted_glob_yaml f' (path_child pd "k8s") = project_manifests pd
  /\ f' !! path_child (path_child pd "k8s") "deployment-plan.txt" = None.
Proof.
  intros Hwf Hpd Habs Hgen.
  assert (forall n, path_child (path_child pd "k8s") n ∉ project_paths pd ->
                    f' !! path_child (path_child pd "k8s") n = None) as Hother.
  { intros n Hn. rewrite (confined_generate_files pd spec _ _ _ _ Hgen Hn).
    unfold path_child. rewrite <- (assoc_L (++)). by apply fs_wf_absent. }
  assert (forall n, path_child (path_child pd "k8s") n ∈ project_paths pd ->
                    n = "deployment.yaml" \/ n = "service.yaml") as Hin.
  { intros n. unfold project_paths, project_dirs, project_targets, path_child.
    rewrite !elem_of_app, !elem_of_cons, elem_of_nil.
    intros [[_ [k Hk]]%elem_of_prefixes|[H|H]].
    - apply (f_equal length) in Hk. rewrite !length_app in Hk. simpl in Hk. lia.
    - repeat (destruct H as [H|H]); try done;
        rewrite <- ?(assoc_L (++)) in H;
        try (apply (inj (pd ++.)) in H; discriminate).
      apply (f_equal length) in H. rewrite !length_app in H. simpl in H. lia.
    - repeat (destruct H as [H|H]); try done;
        rewrite <- ?(assoc_L (++)) in H; apply (inj (pd ++.)) in H;
        try discriminate; injection H as ->; auto. }
  split.
  - apply (sorted_glob_yaml_eq f' (path_child pd "k8s") ["deployment.yaml"; "service.yaml"]).
    + repeat constructor.
    + apply (bool_decide_eq_true_1 _). reflexivity.
    + intros n. rewrite !elem_of_cons, elem_of_nil. split.
      * pose proof (makes_files_generate_files pd spec) as Hfiles.
        rewrite Forall_forall in Hfiles.
        intros [->|[->|[]]]; (split; [reflexivity|]).
        -- assert (is_file f' (path_child (path_child pd "k8s") "deployment.yaml") = true)
             as (_ & c & Hc)%is_file_lookup; [|by eexists].
           eapply Hfiles; [|exact Hgen]. apply list_elem_of_In. simpl. tauto.
        -- assert (is_file f' (path_child (path_child pd "k8s") "service.yaml") = true)
             as (_ & c & Hc)%is_file_lookup; [|by eexists].
           eapply Hfiles; [|exact Hgen]. apply list_elem_of_In. simpl. tauto.
      * intros [_ [x Hx]].
        destruct (decide (path_child (path_child pd "k8s") n ∈ project_paths pd)) as [Hp|Hp].
        -- destruct (Hin n Hp) as [->| ->]; auto.
        -- by rewrite (Hother n Hp) in Hx.
  - apply Hother. intros [?|?]%Hin; discriminate.
Qed.

(** What generation does on a well-formed file system that has no project
    of that name: it succeeds, and leaves a well-formed file system with the
    directories and the files of the project, whose listing of manifests is
    the deployment and the service. *)
Lemma generate_project_success requirements S destination f :
  validate_requirements requirements = Ok S ->
  fs_wf f -> existsb (is_file f) (prefixes destination) = false ->
  path_exists f (project_dir_of destination (dict_get S "slug" VNone)) = false ->
  let pd := project_dir_of destination (dict_get S "slug" VNone) in
  exists f',
    generate_project S destination f = (Ok pd, f')
    /\ fs_wf f'
    /\ Forall (fun d => is_dir f' d = true) (project_dirs pd)
    /\ Forall (fun t => is_file f' t = true) (project_targets pd)
    /\ sorted_glob_yaml f' (path_child pd "k8s") = project_manifests pd
    /\ f' !! path_child (path_child pd "k8s") "deployment-plan.txt" = None
    /\ (forall q n, f !! q = Some n -> f' !! q = Some n).
Proof.
  intros Hv Hwf Hdest Hex pd.
  destruct (validate_requirements_normalized _ _ Hv) as (sn & d & v & ci & routes & port & Hn).
  pose proof Hn as (_ & _ & _ & _ & Hslug & _).
  assert (pd = destination ++ [slugify sn +:+ "-service"]) as Hpd.
  { unfold pd. rewrite (dict_get_lookup _ _ _ _ Hslug).
    apply project_dir_of_slug, is_slug_all_chars, slugify_is_slug. }
  assert (pd <> []) as Hne by (rewrite Hpd; by destruct destination).
  assert (f !! pd = None) as Habs.
  { fold pd in Hex. unfold path_exists in Hex. rewrite node_at_lookup in Hex by done.
    by destruct (f !! pd). }
  pose proof Habs as Habs'. rewrite Hpd in Habs'.
  destruct (generate_project_normalized _ _ _ _ _ _ _ destination f Hn Hwf Hdest Habs')
    as (f' & Hgen & _). rewrite <- Hpd in Hgen.
  exists f'. split; [exact Hgen|].
  pose proof (keeps_wf_generate_project _ _ _ _ _ Hgen Hwf) as Hwf'.
  rewrite (generate_project_unfold S S (VStr (slugify sn)) destination f) in Hgen;
    [|by eapply effective_spec_validated|done].
  replace (project_dir_of destination (VStr (slugify sn))) with pd in Hgen
    by (unfold pd; by rewrite (dict_get_lookup _ _ _ _ Hslug)).
  fold pd in Hex. rewrite Hex in Hgen.
  destruct (generate_files_manifests pd S f pd f' Hwf Hne Habs Hgen) as [Hm Hplan].
  pose proof (generate_files_keeps pd S f _ f' Hwf Hne Habs Hgen) as Hkeep.
  repeat split; try done.
  - eapply Forall_impl; [apply (makes_dirs_generate_files pd S)|].
    intros t Ht. by eapply Ht.
  - eapply Forall_impl; [apply (makes_files_generate_files pd S)|].
    intros t Ht. by eapply Ht.
Qed.

(** X14: generation of a validated document into a destination that has no
    project of that name succeeds and returns the project directory.  After
    it the project directory and its [app], [tests] and [k8s] directories
    are directories, each of the ten project files is a regular file, and
    the manifests that a deployment will find are the deployment and the
    service, in that order. *)
Theorem generate_project_tree requirements S destination f :
  validate_requirements requirements = Ok S ->
  fs_wf f -> existsb (is_file f) (prefixes destination) = false ->
  path_exists f (project_dir_of destination (dict_get S "slug" VNone)) = false ->
  let pd := project_dir_of destination (dict_get S "slug" VNone) in
  exists f',
    generate_project S destination f = (Ok pd, f')
    /\ Forall (fun d => is_dir f' d = true) (project_dirs pd)
    /\ Forall (fun t => is_file f' t = true) (project_targets pd)
    /\ sorted_glob_yaml f' (path_child pd "k8s") = project_manifests pd.
Proof.
  intros Hv Hwf Hdest Hex pd.
  destruct (generate_project_success _ _ _ _ Hv Hwf Hdest Hex)
    as (f' & Hgen & _ & Hd & Hf & Hm & _).
  by exists f'.
Qed.

Import K8sAutoDevPlatform.

Lemma registry_lookup_None (r : registry) (name : string) :
  TemplateManager.registry_lookup r name = None <-> name ∉ map fst r.
Proof.
  induction r as [|[k c] r IH]; simpl; [split; [intros _; apply not_elem_of_nil|done]|].
  rewrite not_elem_of_cons. destruct (String.eqb name k) eqn:Hk.
  - apply String.eqb_eq in Hk. split; [done|]. by intros [? _].
  - apply String.eqb_neq in Hk. rewrite IH. tauto.
Qed.

(** X21: a template name that is not registered stops the pipeline before
    validation: [run_pipeline] raises the [KeyError] that names the template
    and lists the registered ones in order; by then it has made sure that
    the output directory exists, and it has done nothing else. *)
Theorem run_pipeline_unknown_template self requirements template_name output_dir
    run_tests deploy namespace w :
  let registered := map fst (TemplateManager._registry (template_manager self)) in
  template_name ∉ registered ->
  existsb (is_file (files w)) (prefixes output_dir) = false ->
  run_pipeline self requirements template_name output_dir run_tests deploy namespace w
  = (Raise (KeyError ("Unknown template '" +:+ template_name +:+ "'. Available: "
                      +:+ py_repr (VList (map VStr (sorted_strings registered))))),
     {| files := make_dirs (files w) output_dir; proc_log := proc_log w |}).
Proof.
  intros registered Hname Hout. unfold run_pipeline.
  rewrite (M_bind_ok _ _ _ _ _ (on_files_ok _ _ _ _ (mkdir_parents_ok _ _ Hout))).
  apply M_bind_lift_raise. unfold TemplateManager.get_template.
  by rewrite (proj2 (registry_lookup_None _ _) Hname).
Qed.

Lemma world_eta (w : world) : {| files := files w; proc_log := proc_log w |} = w.
Proof. by destruct w. Qed.

(** X22: the pipeline refuses to generate over a project: when the project
    directory of the validated requirements exists, [run_pipeline] raises
    [FileExistsError] and leaves everything as it was: no file is written,
    no test is run and nothing is deployed, whatever the flags. *)
Theorem run_pipeline_refuses_existing self requirements S template_name output_dir
    run_tests deploy namespace w :
  TemplateManager.get_template (template_manager self) template_name = Ok cls ->
  validate_requirements requirements = Ok S ->
  let pd := project_dir_of output_dir (dict_get S "slug" VNone) in
  fs_wf (files w) -> pd <> [] -> path_exists (files w) pd = true ->
  run_pipeline self requirements template_name output_dir run_tests deploy namespace w
  = (Raise (already_exists pd), w).
Proof.
  intros Ht Hv pd Hwf Hne Hex.
  destruct (validate_requirements_normalized _ _ Hv) as (sn & d & v & ci & routes & port & Hn).
  pose proof Hn as (_ & _ & _ & _ & Hslug & _).
  assert (pd = output_dir ++ [slugify sn +:+ "-service"]) as Hpd.
  { unfold pd. rewrite (dict_get_lookup _ _ _ _ Hslug).
    apply project_dir_of_slug, is_slug_all_chars, slugify_is_slug. }
  assert (dir_chain (files w) output_dir) as Hchain.
  { apply fs_wf_dir_chain; [done|]. unfold path_exists in Hex.
    rewrite node_at_lookup in Hex by done.
    destruct (files w !! pd) as [n|] eqn:Hn'; [|done].
    specialize (Hwf _ _ Hn'). cbn beta in Hwf. by rewrite Hpd, path_parent_snoc in Hwf. }
  unfold run_pipeline.
  rewrite (M_bind_ok _ _ _ _ _ (on_files_ok _ _ _ _ (mkdir_parents_chain _ _ Hchain))).
  rewrite world_eta.
  rewrite (M_bind_lift_ok _ _ _ _ Ht). cbn [BaseTemplate.validate_requirements cls].
  rewrite (M_bind_lift_ok _ _ _ _ Hv). cbn [BaseTemplate.generate_project cls].
  apply M_bind_raise. rewrite <- (world_eta w) at 2. apply on_files_raise.
  rewrite (generate_project_unfold S S (VStr (slugify sn)) output_dir (files w));
    [|by eapply effective_spec_validated|done].
  replace (project_dir_of output_dir (VStr (slugify sn))) with pd
    by (unfold pd; by rewrite (dict_get_lookup _ _ _ _ Hslug)).
  by rewrite Hex.
Qed.

(** X23: the pipeline on a host without a cluster CLI, tests not asked for.
    With the default collaborators and valid requirements, on a well-formed
    file system where the project is not there yet, [run_pipeline] returns
    the project directory, the name of the template and the validated
    requirements; it starts no process, keeps every file and directory that
    was there, and leaves the ten project files.  When deployment is asked
    for, the outcome is the dry run over the deployment and the service
    manifests, and the plan that names them is written beside them;
    otherwise there is no deployment outcome and no plan. *)
Theorem run_pipeline_without_kubectl requirements S output_dir deploy namespace
    sys_executable w :
  validate_requirements requirements = Ok S ->
  let pd := project_dir_of output_dir (dict_get S "slug" VNone) in
  let manifest_dir := path_child pd "k8s" in
  let plan_path := path_child manifest_dir "deployment-plan.txt" in
  fs_wf (files w) -> existsb (is_file (files w)) (prefixes output_dir) = false ->
  path_exists (files w) pd = false ->
  exists w',
    run_pipeline (init None None None sys_executable None) requirements
      "simple-python-service" output_dir false deploy namespace w
    = (Ok {| project_path := pd;
             template_name := "simple-python-service";
             requirements := S;
             test_result := None;
             deployment_result :=
               if deploy then Some (dry_run_result manifest_dir (project_manifests pd))
               else None |}, w')
    /\ proc_log w' = proc_log w
    /\ (forall q n, files w !! q = Some n -> files w' !! q = Some n)
    /\ Forall (fun t => is_file (files w') t = true) (project_targets pd)
    /\ files w' !! plan_path
       = if deploy then Some (File (dry_run_plan (map path_str (project_manifests pd))))
         else None.
Proof.
  intros Hv pd manifest_dir plan_path Hwf Hout Hex.
  destruct (validate_requirements_normalized _ _ Hv) as (sn & d & v & ci & routes & port & Hn).
  pose proof Hn as (_ & _ & _ & _ & Hslug & _).
  assert (pd = output_dir ++ [slugify sn +:+ "-service"]) as Hpd.
  { unfold pd. rewrite (dict_get_lookup _ _ _ _ Hslug).
    apply project_dir_of_slug, is_slug_all_chars, slugify_is_slug. }
  assert (pd <> []) as Hne by (rewrite Hpd; by destruct output_dir).
  set (f0 := make_dirs (files w) output_dir).
  assert (fs_wf f0) as Hwf0 by (by apply make_dirs_wf).
  assert (dir_chain f0 output_dir) as Hchain0 by (by apply make_dirs_chain).
  assert (path_exists f0 pd = false) as Hex0.
  { unfold path_exists in *. rewrite node_at_lookup in * by done.
    unfold f0. rewrite make_dirs_lookup_other; [done|].
    rewrite Hpd. intros [_ [k Hk]]%elem_of_prefixes.
    apply (f_equal length) in Hk. rewrite !length_app in Hk. simpl in Hk. lia. }
  destruct (generate_project_success _ _ output_dir f0 Hv Hwf0
              (dir_chain_no_file _ _ Hchain0) Hex0)
    as (f1 & Hgen & Hwf1 & Hdirs & Hfiles & Hm & Hplan & Hkeep).
  fold pd in Hgen, Hdirs, Hfiles, Hm, Hplan. fold manifest_dir in Hm, Hplan.
  fold plan_path in Hplan.
  assert (forall q n, files w !! q = Some n -> f1 !! q = Some n) as Hkeep'.
  { intros q n Hq. apply Hkeep. by apply make_dirs_preserves. }
  unfold run_pipeline.
  rewrite (M_bind_ok _ _ _ _ _ (on_files_ok _ _ _ _ (mkdir_parents_ok _ _ Hout))).
  fold f0.
  rewrite (M_bind_lift_ok _ _ _ cls) by reflexivity.
  cbn [BaseTemplate.validate_requirements cls].
  rewrite (M_bind_lift_ok _ _ _ _ Hv). cbn [BaseTemplate.generate_project cls].
  rewrite (M_bind_ok _ _ _ _ _
             (on_files_ok _ {| files := f0; proc_log := proc_log w |} _ _ Hgen)).
  cbn [proc_log]. rewrite M_bind_ret. cbn [andb BaseTemplate.name cls].
  destruct deploy; cbn [andb].
  - set (w1 := {| files := f1; proc_log := proc_log w |}).
    pose proof (deploy_dry_run_eq (deployer (init None None None sys_executable None))
                  pd namespace w1 (or_introl eq_refl)) as Hdeploy.
    cbn [files w1] in Hdeploy. fold manifest_dir plan_path in Hdeploy.
    rewrite Hm in Hdeploy. specialize (Hdeploy Hwf1 ltac:(done)).
    assert (is_dir f1 plan_path = false) as Hnodir.
    { unfold is_dir. rewrite node_at_lookup by (by destruct manifest_dir).
      by rewrite Hplan. }
    specialize (Hdeploy Hnodir).
    rewrite (M_bind_ok _ _ _ _ _ (M_bind_ok _ (fun r => mret (Some r)) _ _ _ Hdeploy)).
    eexists. split; [reflexivity|]. cbn [files proc_log]. split; [done|].
    split; [|split].
    + intros q n Hq. rewrite lookup_insert_ne; [by apply Hkeep'|].
      intros <-. apply Hkeep' in Hq. congruence.
    + eapply Forall_impl; [exact Hfiles|]. intros t Ht. cbn beta in *.
      apply is_file_lookup in Ht as (Hnt & c & Hc). apply is_file_lookup.
      split; [done|]. destruct (decide (plan_path = t)) as [<-|Hneq]; [congruence|].
      exists c. by rewrite lookup_insert_ne.
    + apply lookup_insert_eq.
  - rewrite !M_bind_ret. eexists. split; [reflexivity|]. by cbn [files proc_log].
Qed.

Import TestRunner.

(** X24: a test run is one process: [TestRunner.run] starts
    [python -m unittest discover] in the project directory and nothing else;
    it raises only when that process cannot be started; otherwise the tests
    have passed exactly when the exit code is zero, and the output is the
    captured standard output followed by the captured standard error. *)
Theorem test_run_is_one_process self project_path w r w' :
  TestRunner.run self project_path w = (r, w') ->
  let command := [_python self; "-m"; "unittest"; "discover"] in
  exists outcome,
    proc_log w' = proc_log w ++ [{| ev_command := command;
                                    ev_cwd := Some project_path;
                                    ev_outcome := outcome |}]
    /\ match outcome with
       | Raise e => r = Raise e
       | Ok completed =>
           r = Ok {| passed := returncode completed =? 0;
                     command := command;
                     output := stdout completed +:+ stderr completed;
                     return_code := returncode completed |}
       end.
Proof.
  unfold TestRunner.run, mbind, M_bind, subprocess_run.
  destruct (spawn w _ _) as [[completed|e] f1]; intros [= <- <-]; cbn [proc_log].
  - eexists. split; [reflexivity|]. cbn beta iota.
    by destruct (stdout completed), (stderr completed).
  - by eexists.
Qed.

(** X25: a manager built with a registry of its own serves exactly that
    registry: [get_template] returns a template precisely for the names that
    are registered, and it is the template registered under the name. *)
Theorem get_template_registered (r : registry) (name : string) (template : BaseTemplate.t) :
  r <> [] -> NoDup (map fst r) ->
  TemplateManager.get_template (TemplateManager.init (Some r)) name = Ok template
  <-> (name, template) ∈ r.
Proof.
  intros Hne Hnd. unfold TemplateManager.get_template.
  assert (TemplateManager._registry (TemplateManager.init (Some r)) = r) as ->
    by (destruct r; [done|reflexivity]).
  assert (TemplateManager.registry_lookup r name = Some template <-> (name, template) ∈ r)
    as <-.
  { clear Hne. induction r as [|[k c] r IH]; simpl.
    - split; [done|by intros ?%elem_of_nil].
    - apply NoDup_cons in Hnd as [Hk Hnd]. rewrite elem_of_cons.
      destruct (String.eqb name k) eqn:Hnk.
      + apply String.eqb_eq in Hnk as ->. split; [intros [= ->]; by left|].
        intros [[= ->]|Hin]; [done|]. exfalso. apply Hk.
        apply list_elem_of_fmap. by exists (k, template).
      + apply String.eqb_neq in Hnk. rewrite (IH Hnd).
        split; [by right|]. by intros [[= ? ?]|?]. }
  destruct (TemplateManager.registry_lookup r name); split; by intros [= ->].
Qed.
End PipelineExtras.

(** ** Instances on the sample data *)

Lemma generate_project_validates_first_witness :
  SimplePythonServiceTemplate.generate_project (rt := sample_builtins)
    (layout := sample_layout) [("description", VStr "d"); ("routes", VInt 3)] ["out"] ∅
  = (Raise (ValueError
       "Missing required fields for template 'simple-python-service': service_name"), ∅).
Proof.
  exact (generate_project_validates_first (rt := sample_builtins) (layout := sample_layout)
           [("description", VStr "d"); ("routes", VInt 3)] ["out"] ∅ eq_refl).
Defined.

Lemma generate_project_confined_witness :
  (SimplePythonServiceTemplate.generate_project (rt := sample_builtins)
     (layout := sample_layout) inventory_requirements ["tmp"; "out"] notes_fs).2
    !! ["notes.txt"]
  = Some (File "keep").
Proof.
  set (run := SimplePythonServiceTemplate.generate_project (rt := sample_builtins)
                (layout := sample_layout) inventory_requirements ["tmp"; "out"] notes_fs).
  rewrite (generate_project_confined (rt := sample_builtins) (layout := sample_layout)
             inventory_requirements inventory_spec (VStr "inventory") ["tmp"; "out"] notes_fs
             run.1 run.2 ltac:(vm_compute; reflexivity) eq_refl (surjective_pairing run)).
  - apply lookup_singleton_eq.
  - apply (bool_decide_eq_false_1 _). vm_compute. reflexivity.
Defined.

Lemma generate_project_keeps_existing_witness :
  (SimplePythonServiceTemplate.generate_project (rt := sample_builtins)
     (layout := sample_layout) hostile_requirements [] notes_fs).2 !! ["notes.txt"]
  = Some (File "keep").
Proof.
  set (run := SimplePythonServiceTemplate.generate_project (rt := sample_builtins)
                (layout := sample_layout) hostile_requirements [] notes_fs).
  apply (generate_project_keeps_existing (rt := sample_builtins) (layout := sample_layout)
           hostile_requirements [] notes_fs run.1 run.2).
  - apply map_Forall_singleton. reflexivity.
  - apply surjective_pairing.
  - apply lookup_singleton_eq.
Defined.

Lemma generate_project_tree_witness :
  exists f',
    SimplePythonServiceTemplate.generate_project (rt := sample_builtins)
      (layout := sample_layout) inventory_spec ["tmp"; "out"] ∅
    = (Ok ["tmp"; "out"; "inventory-service"], f')
    /\ sorted_glob_yaml f' ["tmp"; "out"; "inventory-service"; "k8s"]
       = [["tmp"; "out"; "inventory-service"; "k8s"; "deployment.yaml"];
          ["tmp"; "out"; "inventory-service"; "k8s"; "service.yaml"]].
Proof.
  destruct (generate_project_tree (rt := sample_builtins) (layout := sample_layout)
              inventory_requirements inventory_spec ["tmp"; "out"] ∅
              ltac:(vm_compute; reflexivity) (map_Forall_empty _) eq_refl eq_refl)
    as (f' & Hgen & _ & _ & Hm).
  exists f'. split; [exact Hgen|exact Hm].
Defined.

Lemma generate_project_unvalidated_partial_witness :
  exists f',
    SimplePythonServiceTemplate.generate_project (rt := sample_builtins)
      (layout := sample_layout) unvalidated_requirements ["srv"; "out"] ∅
    = (Raise (KeyError "'description'"), f')
    /\ is_dir f' ["shop-service"; "k8s"] = true
    /\ SimplePythonServiceTemplate.generate_project (rt := sample_builtins)
         (layout := sample_layout) unvalidated_requirements ["srv"; "out"] f'
       = (Raise (already_exists ["shop-service"]), f').
Proof.
  destruct (generate_project_unvalidated_partial (rt := sample_builtins)
              (layout := sample_layout) unvalidated_requirements (VStr "../../shop")
              ["srv"; "out"] (∅ : fs) eq_refl eq_refl) as [Hfirst Hsecond];
    [apply map_Forall_empty|vm_compute; reflexivity..|].
  eexists. split; [exact Hfirst|]. split; [|exact Hsecond].
  vm_compute. reflexivity.
Defined.

Lemma deploy_manifest_listing_witness :
  exists names,
    ["/p/k8s/deployment.yaml"; "/p/k8s/service.yaml"]
    = map (fun n => path_str (path_child ["p"; "k8s"] n)) names
    /\ Sorted string_le names.
Proof.
  set (run := KubernetesDeployer.deploy (host := service_fails_host)
                {| KubernetesDeployer._kubectl := None |} ["p"] None two_manifests_world).
  assert (run = (Ok (dry_run_result ["p"; "k8s"]
                       [["p"; "k8s"; "deployment.yaml"]; ["p"; "k8s"; "service.yaml"]]),
                 run.2)) as Hrun by (vm_cast_no_check (eq_refl run)).
  destruct (deploy_manifest_listing (host := service_fails_host)
              {| KubernetesDeployer._kubectl := None |} ["p"] None two_manifests_world
              _ run.2 Hrun) as (names & Heq & Hs & _).
  exists names. split; [exact Heq|exact Hs].
Defined.

Lemma deploy_reports_what_ran_witness :
  exists d w',
    KubernetesDeployer.deploy (host := service_fails_host)
      {| KubernetesDeployer._kubectl := Some "kubectl" |} ["p"] None two_manifests_world
    = (Ok d, w')
    /\ applied d = false
    /\ map ev_command (proc_log w') = command_sequence d.
Proof.
  set (run := KubernetesDeployer.deploy (host := service_fails_host)
                {| KubernetesDeployer._kubectl := Some "kubectl" |} ["p"] None
                two_manifests_world).
  set (d := {| applied := false;
               manifest_files := ["/p/k8s/deployment.yaml"; "/p/k8s/service.yaml"];
               message := "kubectl failed for /p/k8s/service.yaml: error: connection refused";
               command_sequence :=
                 [["kubectl"; "apply"; "-f"; "/p/k8s/deployment.yaml"];
                  ["kubectl"; "apply"; "-f"; "/p/k8s/service.yaml"]] |}).
  assert (run = (Ok d, run.2)) as Hrun by (vm_cast_no_check (eq_refl run)).
  exists d, run.2. split; [exact Hrun|]. split; [reflexivity|].
  destruct (deploy_reports_what_ran (host := service_fails_host)
              {| KubernetesDeployer._kubectl := Some "kubectl" |} ["p"] None
              two_manifests_world d run.2 Hrun) as (_ & Hlog & _).
  exact Hlog.
Defined.

Lemma deploy_applied_sound_witness :
  exists w',
    applies_ok (host := passing_tests_host) "kubectl" (Some "prod") two_manifests_world
      (sorted_glob_yaml (files two_manifests_world) ["p"; "k8s"]) w'.
Proof.
  set (run := KubernetesDeployer.deploy (host := passing_tests_host)
                {| KubernetesDeployer._kubectl := Some "kubectl" |} ["p"] (Some "prod")
                two_manifests_world).
  set (d := {| applied := true;
               manifest_files := ["/p/k8s/deployment.yaml"; "/p/k8s/service.yaml"];
               message := "Applied Kubernetes manifests successfully.";
               command_sequence :=
                 [["kubectl"; "apply"; "-f"; "/p/k8s/deployment.yaml"; "-n"; "prod"];
                  ["kubectl"; "apply"; "-f"; "/p/k8s/service.yaml"; "-n"; "prod"]] |}).
  assert (run = (Ok d, run.2)) as Hrun by (vm_cast_no_check (eq_refl run)).
  destruct (deploy_applied_sound (host := passing_tests_host)
              {| KubernetesDeployer._kubectl := Some "kubectl" |} ["p"] (Some "prod")
              two_manifests_world d run.2 Hrun eq_refl)
    as (kubectl & Hk & _ & _ & Hok & _).
  injection Hk as <-. exists run.2. exact Hok.
Defined.

Lemma deploy_dry_run_witness :
  exists w1,
    KubernetesDeployer.deploy (host := passing_tests_host)
      {| KubernetesDeployer._kubectl := None |} ["p"] None two_manifests_world
    = (Ok (dry_run_result ["p"; "k8s"]
             [["p"; "k8s"; "deployment.yaml"]; ["p"; "k8s"; "service.yaml"]]), w1)
    /\ KubernetesDeployer.deploy (host := passing_tests_host)
         {| KubernetesDeployer._kubectl := None |} ["p"] None w1
       = (Ok (dry_run_result ["p"; "k8s"]
                [["p"; "k8s"; "deployment.yaml"]; ["p"; "k8s"; "service.yaml"]]), w1).
Proof.
  destruct (deploy_dry_run (host := passing_tests_host)
              {| KubernetesDeployer._kubectl := None |} ["p"] None two_manifests_world
              (or_introl eq_refl)) as [Hfirst Hsecond].
  - apply (bool_decide_eq_true_1 _). vm_compute. reflexivity.
  - apply (bool_decide_eq_false_1 _). vm_compute. reflexivity.
  - vm_compute. reflexivity.
  - assert (sorted_glob_yaml (files two_manifests_world) ["p"; "k8s"]
            = [["p"; "k8s"; "deployment.yaml"]; ["p"; "k8s"; "service.yaml"]]) as Hm
      by (vm_compute; reflexivity).
    cbn zeta in Hfirst, Hsecond. unfold path_child in Hfirst, Hsecond.
    cbn [app] in Hfirst, Hsecond. rewrite Hm in Hfirst, Hsecond.
    eexists. split; [exact Hfirst|exact Hsecond].
Defined.

Lemma deploy_without_manifests_witness :
  KubernetesDeployer.deploy (host := passing_tests_host)
    {| KubernetesDeployer._kubectl := Some "kubectl" |} ["tmp"; "missing"] None empty_world
  = (Ok {| applied := false; manifest_files := [];
           message := "No Kubernetes manifests found."; command_sequence := [] |},
     empty_world).
Proof.
  apply (deploy_without_manifests (host := passing_tests_host)).
  intros n _. apply lookup_empty.
Defined.

Lemma run_pipeline_unknown_template_witness :
  K8sAutoDevPlatform.run_pipeline (rt := sample_builtins) (host := passing_tests_host)
    (sample_platform None) inventory_requirements "django" ["out"] true true None empty_world
  = (Raise (KeyError "Unknown template 'django'. Available: ['simple-python-service']"),
     {| files := make_dirs ∅ ["out"]; proc_log := [] |}).
Proof.
  apply (run_pipeline_unknown_template (rt := sample_builtins) (host := passing_tests_host)
           (sample_platform None) inventory_requirements "django" ["out"] true true None
           empty_world).
  - apply (bool_decide_eq_false_1 _). vm_compute. reflexivity.
  - reflexivity.
Defined.

Lemma run_pipeline_refuses_existing_witness :
  K8sAutoDevPlatform.run_pipeline (rt := sample_builtins) (host := passing_tests_host)
    (sample_platform (Some "kubectl")) inventory_requirements "simple-python-service"
    ["out"] true true None existing_project_world
  = (Raise (already_exists ["out"; "inventory-service"]), existing_project_world).
Proof.
  apply (run_pipeline_refuses_existing (rt := sample_builtins) (layout := sample_layout)
           (host := passing_tests_host)
           (sample_platform (Some "kubectl")) inventory_requirements inventory_spec
           "simple-python-service" ["out"] true true None existing_project_world).
  - reflexivity.
  - vm_compute. reflexivity.
  - apply (bool_decide_eq_true_1 _). vm_compute. reflexivity.
  - done.
  - vm_compute. reflexivity.
Defined.

Lemma run_pipeline_without_kubectl_witness :
  exists w',
    K8sAutoDevPlatform.run_pipeline (rt := sample_builtins) (host := failing_tests_host)
      (K8sAutoDevPlatform.init (rt := sample_builtins) (layout := sample_layout)
         None None None "python3" None) inventory_requirements
      "simple-python-service" ["tmp"; "out"] false true None empty_world
    = (Ok {| project_path := ["tmp"; "out"; "inventory-service"];
             template_name := "simple-python-service";
             requirements := inventory_spec;
             test_result := None;
             deployment_result :=
               Some (dry_run_result ["tmp"; "out"; "inventory-service"; "k8s"]
                       (project_manifests ["tmp"; "out"; "inventory-service"])) |}, w')
    /\ proc_log w' = [].
Proof.
  destruct (run_pipeline_without_kubectl (rt := sample_builtins) (layout := sample_layout)
              (host := failing_tests_host) inventory_requirements inventory_spec
              ["tmp"; "out"] true None "python3" empty_world
              ltac:(vm_compute; reflexivity) (map_Forall_empty _) eq_refl eq_refl)
    as (w' & Hrun & Hlog & _).
  exists w'. split; [exact Hrun|exact Hlog].
Defined.

Lemma test_run_is_one_process_witness :
  exists w',
    TestRunner.run (host := failing_tests_host) (TestRunner.init None "python3") ["p"]
      two_manifests_world
    = (Ok {| passed := false;
             command := ["python3"; "-m"; "unittest"; "discover"];
             output := "FAILED (failures=1)";
             return_code := 1 |}, w')
    /\ map ev_cwd (proc_log w') = [Some ["p"]].
Proof.
  set (run := TestRunner.run (host := failing_tests_host) (TestRunner.init None "python3")
                ["p"] two_manifests_world).
  destruct (test_run_is_one_process (host := failing_tests_host)
              (TestRunner.init None "python3") ["p"] two_manifests_world run.1 run.2
              (surjective_pairing run)) as (outcome & Hlog & Hr).
  exists run.2. split.
  - vm_cast_no_check (eq_refl run).
  - rewrite Hlog. reflexivity.
Defined.

Lemma get_template_registered_witness :
  TemplateManager.get_template (rt := sample_builtins)
    (TemplateManager.init (rt := sample_builtins) (layout := sample_layout)
       (Some [("svc", SimplePythonServiceTemplate.cls (rt := sample_builtins)
                        (layout := sample_layout))])) "svc"
  = Ok (SimplePythonServiceTemplate.cls (rt := sample_builtins) (layout := sample_layout)).
Proof.
  apply (get_template_registered (rt := sample_builtins) (layout := sample_layout)
           [("svc", SimplePythonServiceTemplate.cls)] "svc").
  - done.
  - apply (bool_decide_eq_true_1 _). vm_compute. reflexivity.
  - by left.
Defined.
